(** * Universal Minecraft server launcher: the supervisor core of
    [MC_Server_Main.py], embedded and verified.

    The embedding covers the two non-graphical classes of the program,
    [ServerCoreManager] (core-type detection, download-URL resolution) and
    [UniversalServer] (profile persistence, licence marker, launching and
    stopping the server process).

    Conventions.
    - A Python [str] is a [string] of bytes (its UTF-8 encoding);
      [str.lower] acts on the ASCII letters, which is all the keywords of
      the program need.
    - A Python [dict] with string keys is an association list in insertion
      order, looked up by the first entry of a key.
    - [pathlib] paths are of the POSIX flavour, and [pathlib] is that of
      Python 3.8 to 3.13, whose [exists()] lets through the errors of the
      operating system other than "no such entry".
    - Everything outside the interpreter (file system, clock, child
      process) is a field of [World]; operations that can raise return a
      [result]. *)

From Stdlib Require Import ZArith Bool Ascii String List Lia.
From stdpp Require Import base option list strings pretty gmap.

Open Scope string_scope.

(** ** Python string operations *)
Module Str.

(** [c.lower()] on one byte: A..Z go to a..z, the rest is unchanged. *)
Definition lower_ascii (c : ascii) : ascii :=
  let n := nat_of_ascii c in
  if (65 <=? n)%nat && (n <=? 90)%nat then ascii_of_nat (n + 32) else c.

(** [s.lower()] *)
Fixpoint lower (s : string) : string :=
  match s with
  | EmptyString => EmptyString
  | String c s' => String (lower_ascii c) (lower s')
  end.

(** [s.startswith(p)] *)
Definition startswith (p s : string) : bool := String.prefix p s.

(** [sub in s] *)
Fixpoint contains (sub s : string) : bool :=
  match s with
  | EmptyString => startswith sub EmptyString
  | String _ s' => startswith sub s || contains sub s'
  end.

(** [s.endswith(p)] *)
Fixpoint endswith (p s : string) : bool :=
  String.eqb p s ||
  match s with
  | EmptyString => false
  | String _ s' => endswith p s'
  end.

(** [s.replace(old, new)]: every non-overlapping occurrence of [old],
    from the left.  [skip] counts the bytes of a matched occurrence that
    are still to be dropped. *)
Fixpoint replace_from (old new : string) (skip : nat) (s : string) : string :=
  match s with
  | EmptyString =>
      match old with EmptyString => new | _ => EmptyString end
  | String c s' =>
      match skip with
      | S k => replace_from old new k s'
      | O =>
          if startswith old s then
            match old with
            | EmptyString => new +:+ String c (replace_from old new 0 s')
            | _ => new +:+ replace_from old new (String.length old - 1) s'
            end
          else String c (replace_from old new 0 s')
      end
  end.

Definition replace (old new s : string) : string := replace_from old new 0 s.

(** White space of [str.split()] (ASCII). *)
Definition is_space (c : ascii) : bool :=
  let n := nat_of_ascii c in
  ((9 <=? n)%nat && (n <=? 13)%nat) || ((28 <=? n)%nat && (n <=? 32)%nat).

(** [s.split()]: the maximal runs of non-space bytes.  [cur] is the run
    being read, reversed. *)
Fixpoint split_from (cur : list ascii) (s : string) : list string :=
  let flush := match cur with
               | [] => []
               | _ => [string_of_list_ascii (rev cur)]
               end in
  match s with
  | EmptyString => flush
  | String c s' =>
      if is_space c then flush ++ split_from [] s'
      else split_from (c :: cur) s'
  end.

Definition split (s : string) : list string := split_from [] s.

(** [sep.join(l)] *)
Fixpoint join (sep : string) (l : list string) : string :=
  match l with
  | [] => EmptyString
  | [x] => x
  | x :: l' => x +:+ sep +:+ join sep l'
  end.

End Str.

(** ** Python dictionaries keyed by strings *)
Module Dict.

Definition t (V : Type) : Type := list (string * V).

(** [d.get(k)] *)
Fixpoint get {V} (d : t V) (k : string) : option V :=
  match d with
  | [] => None
  | (k', v) :: d' => if String.eqb k' k then Some v else get d' k
  end.

(** [k in d] *)
Definition mem {V} (d : t V) (k : string) : bool :=
  match get d k with Some _ => true | None => false end.

(** [list(d)] *)
Definition keys {V} (d : t V) : list string := map fst d.

End Dict.

(** ** [class ServerCoreManager]: the static tables *)

Record core_info := CoreInfo {
  ci_name : string;
  ci_website : string;
  ci_description : string;
  ci_download_pattern : string
}.

Record mirror_info := MirrorInfo {
  mi_name : string;
  mi_url : string;
  mi_patterns : Dict.t string
}.

(** [CORE_TYPES] *)
Definition CORE_TYPES : Dict.t core_info :=
  [ ("purpur", CoreInfo "Purpur" "https://purpurmc.org"
       "高性能Paper分支，提供额外优化和功能"
       "https://api.purpurmc.org/v2/purpur/{version}/latest/download");
    ("paper", CoreInfo "Paper" "https://papermc.io"
       "高性能Spigot分支，修复大量BUG"
       "https://api.papermc.io/v2/projects/paper/versions/{version}/builds/{build}/downloads/paper-{version}-{build}.jar");
    ("spigot", CoreInfo "Spigot" "https://spigotmc.org"
       "Bukkit优化版本，性能更好"
       "https://download.spigotmc.org/spigot/spigot-{version}.jar");
    ("craftbukkit", CoreInfo "CraftBukkit" "https://bukkit.org"
       "原版Bukkit服务端"
       "https://download.craftbukkit.org/craftbukkit-{version}.jar");
    ("vanilla", CoreInfo "Vanilla" "https://minecraft.net"
       "官方原版服务端"
       "https://launcher.mojang.com/v1/objects/{hash}/server.jar");
    ("fabric", CoreInfo "Fabric" "https://fabricmc.net"
       "轻量级模组加载器"
       "https://meta.fabricmc.net/v2/versions/loader/{version}/{loader}/server/jar");
    ("forge", CoreInfo "Forge" "https://files.minecraftforge.net"
       "经典模组加载器"
       "https://maven.minecraftforge.net/net/minecraftforge/forge/{version}/forge-{version}-installer.jar");
    ("neoforge", CoreInfo "NeoForge" "https://neoforged.net"
       "Forge的分支，现代版本"
       "https://maven.neoforged.net/releases/net/neoforged/forge/{version}/forge-{version}-installer.jar");
    ("catserver", CoreInfo "CatServer" "https://catserver.moe"
       "Forge和Bukkit兼容的服务端"
       "https://github.com/Luohuayu/CatServer/releases/download/{version}/catserver-{version}.jar");
    ("mohist", CoreInfo "Mohist" "https://mohistmc.com"
       "Forge和Bukkit兼容的服务端"
       "https://mohistmc.com/api/v2/projects/mohist/{version}/builds/{build}/downloads/mohist-{version}-{build}.jar")
  ].

(** [MIRROR_SITES] *)
Definition MIRROR_SITES : Dict.t mirror_info :=
  [ ("mslmc", MirrorInfo "MSLMC镜像站" "https://dl.mslmc.cn/"
       [ ("paper", "https://dl.mslmc.cn");
         ("purpur", "https://dl.mslmc.cn");
         ("vanilla", "https://dl.mslmc.cn");
         ("spigot", "https://dl.mslmc.cn");
         ("craftbukkit", "https://dl.mslmc.cn") ]);
    ("bmclapi", MirrorInfo "BMCLAPI镜像站" "https://bmclapi2.bangbang93.com/"
       [ ("paper", "https://bmclapi2.bangbang93.com/projects/paper/versions/{version}/builds/{build}/downloads/paper-{version}-{build}.jar");
         ("purpur", "https://bmclapi2.bangbang93.com/projects/purpur/versions/{version}/builds/{build}/downloads/purpur-{version}-{build}.jar");
         ("vanilla", "https://bmclapi2.bangbang93.com/version/{version}/server");
         ("fabric", "https://bmclapi2.bangbang93.com/fabric-meta/v2/versions/loader/{version}/{loader}/server/jar");
         ("forge", "https://bmclapi2.bangbang93.com/maven/net/minecraftforge/forge/{version}/forge-{version}-installer.jar") ]);
    ("mc", MirrorInfo "官方源" "官方源" [])
  ].

(** [MINECRAFT_VERSIONS] *)
Definition MINECRAFT_VERSIONS : list string :=
  [ "1.21.4"; "1.21.3"; "1.21.2"; "1.21.1"; "1.21";
    "1.20.6"; "1.20.5"; "1.20.4"; "1.20.3"; "1.20.2"; "1.20.1"; "1.20";
    "1.19.4"; "1.19.3"; "1.19.2"; "1.19.1"; "1.19";
    "1.18.2"; "1.18.1"; "1.18";
    "1.17.1"; "1.17";
    "1.16.5"; "1.16.4"; "1.16.3"; "1.16.2"; "1.16.1";
    "1.15.2"; "1.15.1"; "1.15";
    "1.14.4"; "1.14.3"; "1.14.2"; "1.14.1";
    "1.13.2"; "1.13.1";
    "1.12.2"; "1.12.1";
    "1.11.2";
    "1.10.2";
    "1.9.4";
    "1.8.9";
    "1.7.10" ].

(** [get_core_info]: the entry of the tag, or the "unknown core" entry,
    whose download pattern is empty. *)
Definition unknown_core_info : core_info :=
  CoreInfo "未知核心" "" "未知服务器核心" "".

Definition get_core_info (core_type : string) : core_info :=
  match Dict.get CORE_TYPES core_type with
  | Some i => i
  | None => unknown_core_info
  end.

(** [get_download_url(core_type, version, mirror)]; [None] is Python's
    [None]. *)
Definition get_download_url (core_type version mirror : string) : option string :=
  match
    match Dict.get MIRROR_SITES mirror with
    | Some m => Dict.get (mi_patterns m) core_type
    | None => None
    end
  with
  | Some pattern =>
      if Str.contains "{build}" pattern then
        Some (Str.replace "{build}" "latest" (Str.replace "{version}" version pattern))
      else Some (Str.replace "{version}" version pattern)
  | None =>
      let core_info := get_core_info core_type in
      if negb (String.eqb (ci_download_pattern core_info) "") then
        let pattern := ci_download_pattern core_info in
        if String.eqb core_type "vanilla" then None
        else Some (Str.replace "{version}" version pattern)
      else None
  end.

(** ** [pathlib.Path] (POSIX flavour) *)
Module Path.

(** A path is its root ([""] for a relative path, ["/"], or ["//"], which
    POSIX keeps apart) and its names, as [pathlib] keeps them: no empty
    name, no ["."] and no separator inside a name. *)
Record t := Make { root : string; names : list string }.

(** Cut a string at every ["/"]; [cur] is the piece being read,
    reversed. *)
Fixpoint pieces_from (cur : list ascii) (s : string) : list string :=
  match s with
  | EmptyString => [string_of_list_ascii (rev cur)]
  | String c s' =>
      if Ascii.eqb c "/" then string_of_list_ascii (rev cur) :: pieces_from [] s'
      else pieces_from (c :: cur) s'
  end.

Definition keep_name (n : string) : bool :=
  negb (String.eqb n "") && negb (String.eqb n ".").

(** [Path(s)] *)
Definition of_string (s : string) : t :=
  let r :=
    if Str.startswith "///" s then "/"
    else if Str.startswith "//" s then "//"
    else if Str.startswith "/" s then "/"
    else "" in
  Make r (filter (fun n => Is_true (keep_name n)) (pieces_from [] s)).

(** [str(p)] *)
Definition to_string (p : t) : string :=
  match names p with
  | [] => if String.eqb (root p) "" then "." else root p
  | ns => root p +:+ Str.join "/" ns
  end.

(** [p / s] for a string [s]: an anchored right operand replaces the
    left one. *)
Definition div (p : t) (s : string) : t :=
  let q := of_string s in
  if String.eqb (root q) "" then Make (root p) (names p ++ names q) else q.

(** [p.name] *)
Definition name (p : t) : string := List.last (names p) "".

(** [p.absolute()] in the working directory [cwd] *)
Definition absolute (cwd : t) (p : t) : t :=
  if String.eqb (root p) "" then Make (root cwd) (names cwd ++ names p) else p.

(** The paths that [pathlib] builds: one of the three roots, and names
    that are not empty, not ["."] and without separator. *)
Definition wf_name (n : string) : bool :=
  keep_name n && negb (Str.contains "/" n).

Definition wf (p : t) : bool :=
  existsb (String.eqb (root p)) [""; "/"; "//"] && forallb wf_name (names p).

End Path.

Abbreviation path := Path.t.

(** ** Values of attributes and of JSON documents

    The attributes that [load_config] fills hold whatever [json.load]
    produced, so they are Python values of the JSON kinds (numbers are
    integers here; floating-point numbers are outside the model). *)
#[warnings="-register-all"]
Inductive value :=
| VNone
| VBool (b : bool)
| VInt (z : Z)
| VStr (s : string)
| VList (l : list value)
| VDict (d : list (string * value)).

(** Truth value of [if v:] and [not v] *)
Definition truthy (v : value) : bool :=
  match v with
  | VNone => false
  | VBool b => b
  | VInt z => negb (z =? 0)%Z
  | VStr s => negb (String.eqb s "")
  | VList l => match l with [] => false | _ => true end
  | VDict d => match d with [] => false | _ => true end
  end.

(** ** Exceptions and results *)
Inductive exn :=
| FileNotFoundError
| FileExistsError
| IsADirectoryError
| NotADirectoryError
| PermissionError
| BrokenPipeError
| UnicodeDecodeError
| UnicodeEncodeError
| JSONDecodeError
| BadZipFile
| TypeError
| AttributeError
| OSError.

Inductive result (A : Type) :=
| Ok (a : A)
| Raise (e : exn).
Arguments Ok {A} a.
Arguments Raise {A} e.

(** ** The file system *)
Module FS.

(** A regular file, as the three readers of the program see it: its text
    ([None]: the bytes do not decode), the document [json.load] reads
    from it ([None]: it raises), and the member names [zipfile.ZipFile]
    lists ([None]: it raises). *)
Record file := File {
  f_text : option string;
  f_json : option value;
  f_zip : option (list string)
}.

(** A directory carries whether entries may be created in it; a sealed
    directory (mode [000]) can be neither listed nor searched.  These are
    the modes of a directory that the model knows; a regular file can be
    read and rewritten, and the disk neither fills up nor fails. *)
Inductive node :=
| Dir (writable : bool)
| Reg (f : file)
| Sealed.

(** Nodes by the names of their absolute path; [".."] and symbolic links
    are not interpreted.  The map holds the entries that the process can
    reach. *)
Abbreviation t := (gmap (list string) node).

(** The key of a path, relative paths being taken in [cwd]. *)
Definition key (cwd : path) (p : path) : list string :=
  Path.names (Path.absolute cwd p).

(** The longest name that a directory can hold, in bytes ([NAME_MAX]). *)
Definition NAME_MAX : nat := 255.

Definition too_long (name : string) : bool := (NAME_MAX <? String.length name)%nat.

(** The search for [pre ++ rest] from [pre] on: the node at the longest
    proper prefix that the map holds, with the name looked up in it;
    [found] is the answer so far. *)
Fixpoint deepest (fs : t) (pre rest : list string) (found : option (node * string))
  : option (node * string) :=
  match rest with
  | [] => found
  | name :: rest' =>
      deepest fs (pre ++ [name]) rest'
        (match fs !! pre with
         | Some nd => Some (nd, name)
         | None => found
         end)
  end.

(** Why the operating system refuses to look up a path that the map does
    not hold, if it does: the search ends in the deepest directory that
    is there; a sealed one cannot be searched ([EACCES]) and no directory
    is asked for a name longer than [NAME_MAX] ([ENAMETOOLONG]).  [None]
    is the plain answer that there is no such entry ([ENOENT],
    [ENOTDIR]). *)
Definition lookup_fault (fs : t) (k : list string) : option exn :=
  match deepest fs [] k None with
  | Some (Sealed, _) => Some PermissionError
  | Some (Dir _, name) => if too_long name then Some OSError else None
  | _ => None
  end.

(** [p.exists()]: only the plain answer counts as [False]. *)
Definition exists_ (fs : t) (k : list string) : result bool :=
  match fs !! k with
  | Some _ => Ok true
  | None =>
      match lookup_fault fs k with
      | Some e => Raise e
      | None => Ok false
      end
  end.

(** [p.is_file()], for an entry that [iterdir] has listed *)
Definition is_file (fs : t) (k : list string) : bool :=
  match fs !! k with Some (Reg _) => true | _ => false end.

(** [open(p, 'r')] *)
Definition open_read (fs : t) (k : list string) : result file :=
  match fs !! k with
  | None =>
      match lookup_fault fs k with
      | Some e => Raise e
      | None => Raise FileNotFoundError
      end
  | Some (Dir _) => Raise IsADirectoryError
  | Some Sealed => Raise PermissionError
  | Some (Reg f) => Ok f
  end.

(** A new entry [nd] at [k], which the map does not hold: its directory
    must exist and accept entries. *)
Definition create (fs : t) (k : list string) (nd : node) : result t :=
  match lookup_fault fs k with
  | Some e => Raise e
  | None =>
      match fs !! removelast k with
      | None => Raise FileNotFoundError
      | Some (Reg _) => Raise NotADirectoryError
      | Some (Dir true) => Ok (<[k := nd]> fs)
      | Some (Dir false) | Some Sealed => Raise PermissionError
      end
  end.

(** [open(p, 'w')] followed by the writing of [f]: the file is created
    or replaced. *)
Definition open_write (fs : t) (k : list string) (f : file) : result t :=
  match fs !! k with
  | Some (Reg _) => Ok (<[k := Reg f]> fs)
  | Some (Dir _) | Some Sealed => Raise IsADirectoryError
  | None => create fs k (Reg f)
  end.

(** [p.mkdir(exist_ok=True)] *)
Definition mkdir_exist_ok (fs : t) (k : list string) : result t :=
  match fs !! k with
  | Some (Dir _) | Some Sealed => Ok fs
  | Some (Reg _) => Raise FileExistsError
  | None => create fs k (Dir true)
  end.

(** [p.iterdir()], read to its end: the entries directly below [k], in
    the order of the map. *)
Definition iterdir (fs : t) (k : list string) : result (list (list string)) :=
  match fs !! k with
  | None =>
      match lookup_fault fs k with
      | Some e => Raise e
      | None => Raise FileNotFoundError
      end
  | Some (Reg _) => Raise NotADirectoryError
  | Some Sealed => Raise PermissionError
  | Some (Dir _) =>
      Ok (filter (fun k' => k' ≠ [] ∧ removelast k' = k) (map fst (map_to_list fs)))
  end.

End FS.

(** ** The world around the interpreter *)

(** [subprocess.Popen]: the handle of the child, with the exit status that
    [poll] has cached. *)
Record Popen := MkPopen {
  pid : Z;
  returncode : option Z
}.

(** Calls made to the operating system about processes, in order. *)
Inductive call :=
| CRun (argv : list string)                 (* subprocess.run(argv) *)
| CPopen (argv : list string) (cwd : path)  (* subprocess.Popen(argv, cwd=...) *)
| CPoll (status : option Z)                 (* process.poll() and its answer *)
| CStdinWrite (text : string)               (* process.stdin.write(text) *)
| CStdinFlush                               (* process.stdin.flush() *)
| CSleep (seconds : Z)                      (* time.sleep(seconds) *)
| CTerminate                                (* process.terminate() *)
| CKill.                                    (* process.kill() *)

(** The [print] statements of the supervisor, by the statement that ran. *)
Inductive message :=
| MsgLoadConfigError (e : exn)            (* load_config: "加载配置时出错: {e}" *)
| MsgSaveConfigError (e : exn)            (* save_config: "保存配置时出错: {e}" *)
| MsgAcceptEulaError (e : exn)            (* accept_eula: "同意EULA时出错: {e}" *)
| MsgJavaCheckFailed                      (* "Java检查失败，尝试寻找Java..." *)
| MsgJavaNotInPath                        (* "Java未在PATH中找到，尝试寻找Java..." *)
| MsgJavaNotFound                         (* "错误: 未找到Java，请确保Java已安装" *)
| MsgJarNotFound (server_jar : value)     (* "错误: 未找到服务器JAR文件: {server_jar}" *)
| MsgEulaWarning (eula_msg : string)      (* "警告: {eula_msg}" *)
| MsgEulaAutoAccept                       (* "服务器将自动尝试同意EULA..." *)
| MsgEulaCannotAccept                     (* "无法自动同意EULA，请手动编辑eula.txt" *)
| MsgCreateProperties                     (* "创建默认server.properties..." *)
| MsgStarting                             (* "启动Minecraft服务器..." *)
| MsgCoreType (core_type : value)         (* "核心类型: {core_type}" *)
| MsgVersion (minecraft_version : value)  (* "版本: {minecraft_version}" *)
| MsgCommand (cmd : list string)          (* "命令: {' '.join(cmd)}" *)
| MsgStarted (pid : Z)                    (* "服务器启动成功！PID: {pid}" *)
| MsgStartError (e : exn)                 (* "启动服务器时出错: {e}" *)
| MsgSendError (e : exn)                  (* send_command: "发送命令时出错: {e}" *)
| MsgCannotSend                           (* "服务器未运行，无法发送命令" *)
| MsgNotRunning                           (* stop_server: "服务器未运行" *)
| MsgSendingStop                          (* "正在发送停止命令..." *)
| MsgForceKill                            (* "强制终止服务器..." *)
| MsgNoResponse                           (* "服务器未响应停止命令，尝试强制终止..." *)
| MsgStopped                              (* "服务器已停止" *)
| MsgStopError (e : exn).                 (* "停止服务器时出错: {e}" *)

(** The environment.  What the operating system will answer is given in
    advance: the status of the child at its successive queries (once the
    list is used up the child is still running), and which of the
    successive operations on its input stream, respectively which of the
    successive termination calls, fail. *)
Record World := MkWorld {
  fs : FS.t;
  cwd : path;
  clock : Z;                          (* the wall clock, in seconds *)
  platform_windows : bool;            (* platform.system() == "Windows" *)
  host_paths : list string;           (* what os.path.exists finds *)
  java_probe : result Z;              (* subprocess.run(["java", "-version"]) *)
  spawn : result Z;                   (* subprocess.Popen(...): the new pid *)
  child_polls : list (option Z);
  stdin_faults : list (option exn);
  signal_faults : list (option exn);
  calls : list call;
  console : list message
}.

Definition set_fs (x : FS.t) (w : World) : World :=
  MkWorld x (cwd w) (clock w) (platform_windows w) (host_paths w) (java_probe w)
    (spawn w) (child_polls w) (stdin_faults w) (signal_faults w) (calls w) (console w).
Definition set_clock (x : Z) (w : World) : World :=
  MkWorld (fs w) (cwd w) x (platform_windows w) (host_paths w) (java_probe w)
    (spawn w) (child_polls w) (stdin_faults w) (signal_faults w) (calls w) (console w).
Definition set_child_polls (x : list (option Z)) (w : World) : World :=
  MkWorld (fs w) (cwd w) (clock w) (platform_windows w) (host_paths w) (java_probe w)
    (spawn w) x (stdin_faults w) (signal_faults w) (calls w) (console w).
Definition set_stdin_faults (x : list (option exn)) (w : World) : World :=
  MkWorld (fs w) (cwd w) (clock w) (platform_windows w) (host_paths w) (java_probe w)
    (spawn w) (child_polls w) x (signal_faults w) (calls w) (console w).
Definition set_signal_faults (x : list (option exn)) (w : World) : World :=
  MkWorld (fs w) (cwd w) (clock w) (platform_windows w) (host_paths w) (java_probe w)
    (spawn w) (child_polls w) (stdin_faults w) x (calls w) (console w).
Definition set_calls (x : list call) (w : World) : World :=
  MkWorld (fs w) (cwd w) (clock w) (platform_windows w) (host_paths w) (java_probe w)
    (spawn w) (child_polls w) (stdin_faults w) (signal_faults w) x (console w).
Definition set_console (x : list message) (w : World) : World :=
  MkWorld (fs w) (cwd w) (clock w) (platform_windows w) (host_paths w) (java_probe w)
    (spawn w) (child_polls w) (stdin_faults w) (signal_faults w) (calls w) x.

(** ** [ServerCoreManager.detect_core_type] *)

(** The members of the archive at [jar_path], as
    [[x.filename for x in zf.filelist]]; an exception of [zipfile] is a
    [Raise]. *)
Definition zip_filenames (w : World) (jar_path : path) : result (list string) :=
  match FS.open_read (fs w) (FS.key (cwd w) jar_path) with
  | Raise e => Raise e
  | Ok f =>
      match FS.f_zip f with
      | Some names => Ok names
      | None => Raise BadZipFile
      end
  end.

(** The tests on the name and on the archive, which come after the test
    that the path exists. *)
Definition detect_by_name (w : World) (jar_path : path) : string :=
  let jar_name := Str.lower (Path.name jar_path) in
  if Str.contains "purpur" jar_name then "purpur"
  else if Str.contains "paper" jar_name then "paper"
  else if Str.contains "spigot" jar_name then "spigot"
  else if Str.contains "craftbukkit" jar_name then "craftbukkit"
  else if Str.contains "fabric" jar_name then "fabric"
  else if Str.contains "forge" jar_name || Str.contains "neoforge" jar_name then "forge"
  else if Str.contains "mohist" jar_name then "mohist"
  else if Str.contains "catserver" jar_name then "catserver"
  else if Str.contains "server" jar_name && negb (Str.contains "vanilla" jar_name) then
    match zip_filenames w jar_path with
    | Ok names =>
        if existsb (String.eqb "net/minecraft/server/Main.class") names
        then "vanilla" else "unknown"
    | Raise _ => "unknown"
    end
  else "unknown".

(** The first statement, [if not jar_path.exists():], is outside every
    [try]: what [exists()] raises leaves the function. *)
Definition detect_core_type (w : World) (jar_path : path) : result string :=
  match FS.exists_ (fs w) (FS.key (cwd w) jar_path) with
  | Raise e => Raise e
  | Ok false => Ok "unknown"
  | Ok true => Ok (detect_by_name w jar_path)
  end.

(** ** Library functions taken as given

    The formatting functions of [datetime] and the serialiser of [json]
    are the standard library's; the supervisor only passes their results
    on.  [json.dump] raises on a value that it cannot write out (a text
    that has no encoding in the file's); which values these are is the
    library's affair, except that a time stamp of [isoformat] is none. *)
Class PyLib := {
  (* datetime.isoformat() of a clock reading *)
  isoformat : Z -> string;
  (* datetime.strftime(format) of a clock reading *)
  strftime : string -> Z -> string;
  (* json.dumps(v, indent=2, ensure_ascii=False) *)
  json_dumps : value -> string;
  (* the exception that json.dump raises when it comes to the value *)
  json_value_fault : value -> option exn;
  (* what json.dump has written of the document when it raises *)
  json_partial : value -> string;
  isoformat_dumps : forall t, json_value_fault (VStr (isoformat t)) = None
}.

(** The exception of [json.dump(v, f)], if it raises: a record is written
    entry by entry, and the first value that cannot be written stops
    it. *)
Definition json_dump_fault `{PyLib} (v : value) : option exn :=
  match v with
  | VDict d =>
      (fix first (d : list (string * value)) : option exn :=
         match d with
         | [] => None
         | (_, x) :: d' =>
             match json_value_fault x with
             | Some e => Some e
             | None => first d'
             end
         end) d
  | _ => json_value_fault v
  end.

(** ** [class UniversalServer]: the object *)

(** The attributes of the instance.  [log_thread] and [server_properties]
    are never read by the class and are left out.  [server_jar],
    [java_opts], [core_type], [minecraft_version] and [mirror_site] hold
    what [load_config] read, of whatever type. *)
Record Server := MkServer {
  server_dir : path;
  server_jar : value;
  java_opts : value;
  process : option Popen;
  is_running : bool;
  start_time : option Z;
  log_file : path;
  backup_dir : path;
  config_file : path;
  core_type : value;
  minecraft_version : value;
  mirror_site : value;
  is_windows : bool
}.

Definition set_server_dir (x : path) (s : Server) : Server :=
  MkServer x (server_jar s) (java_opts s) (process s) (is_running s) (start_time s)
    (log_file s) (backup_dir s) (config_file s) (core_type s) (minecraft_version s)
    (mirror_site s) (is_windows s).
Definition set_server_jar (x : value) (s : Server) : Server :=
  MkServer (server_dir s) x (java_opts s) (process s) (is_running s) (start_time s)
    (log_file s) (backup_dir s) (config_file s) (core_type s) (minecraft_version s)
    (mirror_site s) (is_windows s).
Definition set_java_opts (x : value) (s : Server) : Server :=
  MkServer (server_dir s) (server_jar s) x (process s) (is_running s) (start_time s)
    (log_file s) (backup_dir s) (config_file s) (core_type s) (minecraft_version s)
    (mirror_site s) (is_windows s).
Definition set_process (x : option Popen) (s : Server) : Server :=
  MkServer (server_dir s) (server_jar s) (java_opts s) x (is_running s) (start_time s)
    (log_file s) (backup_dir s) (config_file s) (core_type s) (minecraft_version s)
    (mirror_site s) (is_windows s).
Definition set_is_running (x : bool) (s : Server) : Server :=
  MkServer (server_dir s) (server_jar s) (java_opts s) (process s) x (start_time s)
    (log_file s) (backup_dir s) (config_file s) (core_type s) (minecraft_version s)
    (mirror_site s) (is_windows s).
Definition set_start_time (x : option Z) (s : Server) : Server :=
  MkServer (server_dir s) (server_jar s) (java_opts s) (process s) (is_running s) x
    (log_file s) (backup_dir s) (config_file s) (core_type s) (minecraft_version s)
    (mirror_site s) (is_windows s).
Definition set_core_type (x : value) (s : Server) : Server :=
  MkServer (server_dir s) (server_jar s) (java_opts s) (process s) (is_running s)
    (start_time s) (log_file s) (backup_dir s) (config_file s) x (minecraft_version s)
    (mirror_site s) (is_windows s).
Definition set_minecraft_version (x : value) (s : Server) : Server :=
  MkServer (server_dir s) (server_jar s) (java_opts s) (process s) (is_running s)
    (start_time s) (log_file s) (backup_dir s) (config_file s) (core_type s) x
    (mirror_site s) (is_windows s).
Definition set_mirror_site (x : value) (s : Server) : Server :=
  MkServer (server_dir s) (server_jar s) (java_opts s) (process s) (is_running s)
    (start_time s) (log_file s) (backup_dir s) (config_file s) (core_type s)
    (minecraft_version s) x (is_windows s).
Definition set_is_windows (x : bool) (s : Server) : Server :=
  MkServer (server_dir s) (server_jar s) (java_opts s) (process s) (is_running s)
    (start_time s) (log_file s) (backup_dir s) (config_file s) (core_type s)
    (minecraft_version s) (mirror_site s) x.

(** ** Methods as computations

    A method runs on the object and the world; it returns or raises, and
    what it changed before raising stays changed. *)
Definition M (A : Type) : Type := Server * World -> result A * (Server * World).

#[export] Instance M_ret : MRet M := fun A a st => (Ok a, st).
#[export] Instance M_bind : MBind M := fun A B f m st =>
  match m st with
  | (Ok a, st') => f a st'
  | (Raise e, st') => (Raise e, st')
  end.

Definition raise {A} (e : exn) : M A := fun st => (Raise e, st).

(** [try: m except Exception as e: h e] *)
Definition try_except {A} (m : M A) (h : exn -> M A) : M A := fun st =>
  match m st with
  | (Ok a, st') => (Ok a, st')
  | (Raise e, st') => h e st'
  end.

Definition lift {A} (r : result A) : M A := fun st => (r, st).
Definition get_self : M Server := fun st => (Ok (fst st), st).
Definition get_world : M World := fun st => (Ok (snd st), st).
Definition update_self (f : Server -> Server) : M unit :=
  fun st => (Ok tt, (f (fst st), snd st)).
Definition update_world (f : World -> World) : M unit :=
  fun st => (Ok tt, (fst st, f (snd st))).

Definition print (m : message) : M unit :=
  update_world (fun w => set_console (console w ++ [m]) w).
Definition log_call (c : call) : M unit :=
  update_world (fun w => set_calls (calls w ++ [c]) w).
(** [datetime.now()] *)
Definition now : M Z := w ← get_world; mret (clock w).
(** [time.sleep(seconds)] *)
Definition sleep (seconds : Z) : M unit :=
  log_call (CSleep seconds);;
  update_world (fun w => set_clock (clock w + seconds) w).
(** [p.exists()] *)
Definition path_exists (p : path) : M bool :=
  w ← get_world; lift (FS.exists_ (fs w) (FS.key (cwd w) p)).
(** [with open(p, 'w') as f:] and the writing of the whole file *)
Definition write_file (p : path) (f : FS.file) : M unit :=
  w ← get_world;
  fs' ← lift (FS.open_write (fs w) (FS.key (cwd w) p) f);
  update_world (set_fs fs').

(** A text written by the supervisor: the licence marker and the
    properties file, neither of which is a JSON document or an archive. *)
Definition text_file (s : string) : FS.file := FS.File (Some s) None None.
(** A document written by [json.dump]. *)
Definition json_file `{PyLib} (v : value) : FS.file :=
  FS.File (Some (json_dumps v)) (Some v) None.
(** [with open(p, 'w') as f: json.dump(v, f, ...)]: [open] creates or
    empties the file, then [json.dump] writes the document, or as much of
    it as comes before the value on which it raises. *)
Definition dump_file `{PyLib} (p : path) (v : value) : M unit :=
  write_file p (text_file "");;
  match json_dump_fault v with
  | Some e => write_file p (text_file (json_partial v));; raise e
  | None => write_file p (json_file v)
  end.

(** *** The child process *)

(** [self.process.poll()]: the cached status, or else the next answer of
    the operating system, cached once the child has exited. *)
Definition poll : M (option Z) :=
  s ← get_self;
  match process s with
  | None => raise AttributeError
  | Some p =>
      match returncode p with
      | Some rc => log_call (CPoll (Some rc));; mret (Some rc)
      | None =>
          w ← get_world;
          let answer := match child_polls w with a :: _ => a | [] => None end in
          update_world (set_child_polls (tail (child_polls w)));;
          update_self (set_process (Some (MkPopen (pid p) answer)));;
          log_call (CPoll answer);;
          mret answer
      end
  end.

(** An operation on the input stream of the child: it is made, and fails
    if the next entry of [stdin_faults] says so. *)
Definition stdin_op (c : call) : M unit :=
  log_call c;;
  w ← get_world;
  update_world (set_stdin_faults (tail (stdin_faults w)));;
  match stdin_faults w with
  | Some e :: _ => raise e
  | _ => mret tt
  end.

(** A termination call: [terminate()], [kill()] or the [taskkill]
    command. *)
Definition signal_op (c : call) : M unit :=
  log_call c;;
  w ← get_world;
  update_world (set_signal_faults (tail (signal_faults w)));;
  match signal_faults w with
  | Some e :: _ => raise e
  | _ => mret tt
  end.

(** *** Small conversions *)

Definition nl : string := String "010"%char EmptyString.

(** [Path(v)]: only a string is accepted. *)
Definition path_of_value (v : value) : result path :=
  match v with
  | VStr s => Ok (Path.of_string s)
  | _ => Raise TypeError
  end.

(** [p / v] *)
Definition path_div_value (p : path) (v : value) : result path :=
  match v with
  | VStr s => Ok (Path.div p s)
  | _ => Raise TypeError
  end.

(** [config.get(k, default)]: only a dictionary has [get]. *)
Definition config_get (config : value) (k : string) (default : value) : result value :=
  match config with
  | VDict d => Ok (match Dict.get d k with Some v => v | None => default end)
  | _ => Raise AttributeError
  end.

(** [json.load(f)] *)
Definition json_load (f : FS.file) : result value :=
  match FS.f_json f with
  | Some v => Ok v
  | None => Raise JSONDecodeError
  end.

(** [f.read()] of a file opened as text *)
Definition read_text (f : FS.file) : result string :=
  match FS.f_text f with
  | Some s => Ok s
  | None => Raise UnicodeDecodeError
  end.

(** [v in l] for a list of strings *)
Definition value_in (v : value) (l : list string) : bool :=
  match v with
  | VStr s => existsb (String.eqb s) l
  | _ => false
  end.

Section UniversalServer.
Context `{PyLib}.

(** *** [save_config] *)
Definition save_config (config : option value) : M bool :=
  s ← get_self;
  t ← now;
  let config :=
    match config with
    | Some c => c
    | None =>
        VDict [ ("server_dir", VStr (Path.to_string (server_dir s)));
                ("server_jar", server_jar s);
                ("java_opts", java_opts s);
                ("core_type", core_type s);
                ("minecraft_version", minecraft_version s);
                ("mirror_site", mirror_site s);
                ("last_modified", VStr (isoformat t)) ]
    end in
  try_except
    (dump_file (config_file s) config;;
     mret true)
    (fun e => print (MsgSaveConfigError e);; mret false).

(** *** [load_config] *)
Definition load_config : M unit :=
  s ← get_self;
  let default_config :=
    VDict [ ("server_dir", VStr (Path.to_string (server_dir s)));
            ("server_jar", server_jar s);
            ("java_opts", java_opts s);
            ("core_type", VStr "unknown");
            ("minecraft_version", VStr "");
            ("auto_backup", VBool true);
            ("backup_interval", VInt 3600);
            ("max_backups", VInt 10);
            ("mirror_site", VStr "mslmc") ] in
  present ← path_exists (config_file s);
  if (present : bool) then
    try_except
      (w ← get_world;
       f ← lift (FS.open_read (fs w) (FS.key (cwd w) (config_file s)));
       config ← lift (json_load f);
       s ← get_self;
       v ← lift (config_get config "server_dir" (VStr (Path.to_string (server_dir s))));
       p ← lift (path_of_value v);
       update_self (set_server_dir p);;
       s ← get_self;
       v ← lift (config_get config "server_jar" (server_jar s));
       update_self (set_server_jar v);;
       s ← get_self;
       v ← lift (config_get config "java_opts" (java_opts s));
       update_self (set_java_opts v);;
       v ← lift (config_get config "core_type" (VStr "unknown"));
       update_self (set_core_type v);;
       v ← lift (config_get config "minecraft_version" (VStr ""));
       update_self (set_minecraft_version v);;
       v ← lift (config_get config "mirror_site" (VStr "mslmc"));
       update_self (set_mirror_site v))
      (fun e =>
         print (MsgLoadConfigError e);;
         update_self (set_core_type (VStr "unknown"));;
         update_self (set_minecraft_version (VStr ""));;
         update_self (set_mirror_site (VStr "mslmc")))
  else
    update_self (set_core_type (VStr "unknown"));;
    update_self (set_minecraft_version (VStr ""));;
    update_self (set_mirror_site (VStr "mslmc"));;
    save_config (Some default_config);;
    mret tt.

(** *** [detect_server_core] *)
Definition detect_server_core : M unit :=
  s ← get_self;
  (if negb (truthy (server_jar s)) then
     w ← get_world;
     files ← lift (FS.iterdir (fs w) (FS.key (cwd w) (server_dir s)));
     match
       find (fun file =>
               FS.is_file (fs w) file
               && Str.endswith ".jar" (List.last file "")
               && negb (Str.contains "installer" (Str.lower (List.last file ""))))
            files
     with
     | Some file => update_self (set_server_jar (VStr (List.last file "")))
     | None => mret tt
     end
   else mret tt);;
  s ← get_self;
  if truthy (server_jar s) then
    jar_path ← lift (path_div_value (server_dir s) (server_jar s));
    w ← get_world;
    tag ← lift (detect_core_type w jar_path);
    update_self (set_core_type (VStr tag));;
    let jar_name := Str.lower (Path.name jar_path) in
    match find (fun version => Str.contains version jar_name) MINECRAFT_VERSIONS with
    | Some version => update_self (set_minecraft_version (VStr version))
    | None => mret tt
    end
  else mret tt.

(** *** [__init__] *)
Definition init (server_dir : string) : M unit :=
  w ← get_world;
  let d := Path.absolute (cwd w) (Path.of_string server_dir) in
  update_self (fun s =>
    MkServer d (VStr "") (VStr "-Xmx2048M -Xms2048M") None false None
      (Path.div d "server.log") (Path.div d "backups")
      (Path.div d "server_launcher.json")
      (core_type s) (minecraft_version s) (mirror_site s) (is_windows s));;
  s ← get_self;
  fs1 ← lift (FS.mkdir_exist_ok (fs w) (FS.key (cwd w) d));
  update_world (set_fs fs1);;
  fs2 ← lift (FS.mkdir_exist_ok fs1 (FS.key (cwd w) (backup_dir s)));
  update_world (set_fs fs2);;
  load_config;;
  update_self (set_is_windows (platform_windows w));;
  detect_server_core.

(** The object before [__init__] has set anything. *)
Definition blank : Server :=
  MkServer (Path.Make "" []) VNone VNone None false None
    (Path.Make "" []) (Path.Make "" []) (Path.Make "" [])
    VNone VNone VNone false.

(** [UniversalServer(server_dir)] *)
Definition UniversalServer (server_dir : string) (w : World)
  : result unit * (Server * World) :=
  init server_dir (blank, w).

(** *** [check_eula]: it reads only; its [exists()] is outside the
    [try]. *)
Definition check_eula (s : Server) (w : World) : result (bool * string) :=
  let eula_file := Path.div (server_dir s) "eula.txt" in
  match FS.exists_ (fs w) (FS.key (cwd w) eula_file) with
  | Raise e => Raise e
  | Ok false => Ok (false, "EULA文件不存在")
  | Ok true =>
      match
        match FS.open_read (fs w) (FS.key (cwd w) eula_file) with
        | Ok f => read_text f
        | Raise e => Raise e
        end
      with
      | Ok content =>
          if Str.contains "eula=true" (Str.lower content) then Ok (true, "EULA已同意")
          else Ok (false, "EULA未同意")
      | Raise _ => Ok (false, "EULA未同意")
      end
  end.

(** [self.check_eula()[0]] *)
Definition eula_accepted (s : Server) (w : World) : result bool :=
  match check_eula s w with
  | Ok (accepted, _) => Ok accepted
  | Raise e => Raise e
  end.

(** The marker that [accept_eula] writes at clock reading [t]. *)
Definition eula_content (t : Z) : string :=
  "#By changing the setting below to TRUE you are indicating your agreement to our EULA (https://aka.ms/MinecraftEULA)."
  +:+ nl +:+ "#Generated by Universal Minecraft Server Launcher"
  +:+ nl +:+ "# " +:+ strftime "%Y-%m-%d %H:%M:%S" t
  +:+ nl +:+ "eula=true".

(** *** [accept_eula] *)
Definition accept_eula : M bool :=
  s ← get_self;
  let eula_file := Path.div (server_dir s) "eula.txt" in
  try_except
    (t ← now;
     let content := eula_content t in
     write_file eula_file (text_file content);;
     mret true)
    (fun e => print (MsgAcceptEulaError e);; mret false).

(** *** [get_java_command] *)
Definition get_java_command : M (list string) :=
  s ← get_self;
  jar_path ← lift (path_div_value (server_dir s) (server_jar s));
  let cmd := ["java"] in
  cmd ← (if truthy (java_opts s) then
           match java_opts s with
           | VStr o => mret (cmd ++ Str.split o)%list
           | _ => raise AttributeError
           end
         else mret cmd);
  let cmd := (cmd ++ ["-jar"; Path.to_string jar_path])%list in
  if value_in (core_type s) ["forge"; "neoforge"; "fabric"] then mret cmd
  else mret (cmd ++ ["nogui"])%list.

(** *** [find_java] *)
Definition find_java (s : Server) (w : World) : option string :=
  let os_path_exists p := existsb (String.eqb p) (host_paths w) in
  if is_windows s then
    find os_path_exists
      [ "C:\Program Files\Java\jdk-21\bin\java.exe";
        "C:\Program Files\Java\jdk-17\bin\java.exe";
        "C:\Program Files\Java\jdk-11\bin\java.exe";
        "C:\Program Files\Java\jdk-8\bin\java.exe";
        "C:\Program Files\Java\jre-21\bin\java.exe";
        "C:\Program Files\Java\jre-17\bin\java.exe";
        "C:\Program Files\Java\jre-8\bin\java.exe" ]
  else
    find os_path_exists
      [ "/usr/bin/java"; "/usr/local/bin/java"; "/opt/java/bin/java" ].

(** *** [create_default_properties] *)
Definition default_props : string :=
  Str.join nl
    [ "#Minecraft server properties";
      "#Generated by Universal Minecraft Server Launcher";
      "max-players=20";
      "online-mode=true";
      "server-port=25565";
      "motd=Universal Minecraft Server";
      "view-distance=10";
      "simulation-distance=10";
      "difficulty=normal";
      "hardcore=false";
      "enable-command-block=true";
      "max-world-size=29999984";
      "spawn-npcs=true";
      "spawn-animals=true";
      "spawn-monsters=true";
      "generate-structures=true";
      "level-type=minecraft\:normal";
      "" ].

Definition create_default_properties : M unit :=
  s ← get_self;
  let properties_file := Path.div (server_dir s) "server.properties" in
  write_file properties_file (text_file default_props).

(** *** [start_server] *)

(** The fallback of the Java check: [find_java], and the message when it
    finds nothing.  [true] means that the launch goes on. *)
Definition java_fallback : M bool :=
  s ← get_self;
  w ← get_world;
  let java_path := find_java s w in
  match java_path with
  | Some _ => mret true
  | None => print MsgJavaNotFound;; mret false
  end.

(** The first block of [start_server]: only [FileNotFoundError] is
    caught. *)
Definition check_java : M bool :=
  w ← get_world;
  log_call (CRun ["java"; "-version"]);;
  match java_probe w with
  | Ok returncode =>
      if negb (returncode =? 0)%Z then
        print MsgJavaCheckFailed;; java_fallback
      else mret true
  | Raise FileNotFoundError =>
      print MsgJavaNotInPath;; java_fallback
  | Raise e => raise e
  end.

(** [subprocess.Popen(cmd, cwd=self.server_dir, ...)] *)
Definition popen (cmd : list string) (dir : path) : M Popen :=
  w ← get_world;
  log_call (CPopen cmd dir);;
  new_pid ← lift (spawn w);
  mret (MkPopen new_pid None).

(** The licence block of [start_server]: an unaccepted marker is
    written by [accept_eula].  [true] means that the launch goes on. *)
Definition ensure_eula : M bool :=
  s ← get_self;
  w ← get_world;
  '(eula_accepted, eula_msg) ← lift (check_eula s w);
  if negb eula_accepted then
    print (MsgEulaWarning eula_msg);;
    print MsgEulaAutoAccept;;
    accepted ← accept_eula;
    if negb accepted then print MsgEulaCannotAccept;; mret false
    else mret true
  else mret true.

(** The properties block of [start_server]. *)
Definition ensure_properties : M unit :=
  s ← get_self;
  props_present ← path_exists (Path.div (server_dir s) "server.properties");
  if negb props_present then
    print MsgCreateProperties;; create_default_properties
  else mret tt.

(** The last block of [start_server]: the [try] around [Popen]. *)
Definition launch (cmd : list string) : M bool :=
  s ← get_self;
  try_except
    (p ← popen cmd (server_dir s);
     update_self (set_process (Some p));;
     update_self (set_is_running true);;
     t ← now;
     update_self (set_start_time (Some t));;
     save_config None;;
     print (MsgStarted (pid p));;
     mret true)
    (fun e =>
       print (MsgStartError e);;
       update_self (set_is_running false);;
       mret false).

Definition start_server : M bool :=
  java_ok ← check_java;
  if negb java_ok then mret false
  else
    s ← get_self;
    jar_path ← lift (path_div_value (server_dir s) (server_jar s));
    jar_present ← path_exists jar_path;
    if negb jar_present then
      print (MsgJarNotFound (server_jar s));; mret false
    else
      eula_ok ← ensure_eula;
      if negb eula_ok then mret false
      else
        ensure_properties;;
        cmd ← get_java_command;
        print MsgStarting;;
        print (MsgCoreType (core_type s));;
        print (MsgVersion (minecraft_version s));;
        print (MsgCommand cmd);;
        launch cmd.

(** *** [send_command] *)
Definition send_command (command : string) : M bool :=
  s ← get_self;
  alive ← match process s with
          | None => mret false
          | Some _ => r ← poll; mret (bool_decide (r = None))
          end;
  if (alive : bool) then
    try_except
      (let command :=
         if negb (Str.endswith nl command) then command +:+ nl else command in
       stdin_op (CStdinWrite command);;
       stdin_op CStdinFlush;;
       mret true)
      (fun e => print (MsgSendError e);; mret false)
  else
    print MsgCannotSend;; mret false.

(** *** [stop_server] *)

(** [for i in range(n): if self.process.poll() is not None: break;
    time.sleep(1)] *)
Fixpoint wait_for_exit (n : nat) : M unit :=
  match n with
  | O => mret tt
  | S n' =>
      r ← poll;
      match r with
      | Some _ => mret tt
      | None => sleep 1;; wait_for_exit n'
      end
  end.

(** [self.process.terminate()] on Windows, [self.process.kill()]
    elsewhere *)
Definition terminate_or_kill : M unit :=
  s ← get_self;
  if is_windows s then signal_op CTerminate else signal_op CKill.

(** [taskkill /F /PID pid] on Windows, [self.process.kill()] elsewhere *)
Definition taskkill_or_kill : M unit :=
  s ← get_self;
  if is_windows s then
    match process s with
    | Some p => signal_op (CRun ["taskkill"; "/F"; "/PID"; pretty (pid p)])
    | None => raise AttributeError
    end
  else signal_op CKill.

(** The cooperative block of [stop_server]: the ["stop"] command, then the
    wait of at most 30 polls one second apart. *)
Definition request_stop : M unit :=
  print MsgSendingStop;;
  send_command "stop";;
  wait_for_exit 30.

(** The termination block of [stop_server]: what is done if the child is
    still running. *)
Definition terminate_if_running (force : bool) : M unit :=
  r ← poll;
  match r with
  | None =>
      if force then
        print MsgForceKill;;
        terminate_or_kill;;
        sleep 2;;
        r ← poll;
        match r with
        | None => taskkill_or_kill
        | Some _ => mret tt
        end
      else
        print MsgNoResponse;;
        terminate_or_kill
  | Some _ => mret tt
  end.

Definition stop_server (force : bool) : M bool :=
  s ← get_self;
  stopped ← match process s with
            | None => mret true
            | Some _ => r ← poll; mret (bool_decide (r ≠ None))
            end;
  if (stopped : bool) then
    print MsgNotRunning;;
    update_self (set_is_running false);;
    update_self (set_start_time None);;
    mret true
  else
    try_except
      ((if negb force then request_stop else mret tt);;
       terminate_if_running force;;
       update_self (set_is_running false);;
       update_self (set_start_time None);;
       print MsgStopped;;
       mret true)
      (fun e => print (MsgStopError e);; mret false).

(** *** [get_uptime], in seconds *)
Definition get_uptime (s : Server) (w : World) : option Z :=
  if is_running s then
    match start_time s with
    | Some t0 => Some (clock w - t0)%Z
    | None => None
    end
  else None.

(** [str(d)] of a [timedelta] of whole seconds *)
Definition str_timedelta (d : Z) : string :=
  let days := (d / 86400)%Z in
  let secs := (d mod 86400)%Z in
  let pad2 (n : Z) := if (n <? 10)%Z then "0" +:+ pretty n else pretty n in
  let hms := pretty (secs / 3600)%Z +:+ ":" +:+ pad2 ((secs / 60) mod 60)%Z
             +:+ ":" +:+ pad2 (secs mod 60)%Z in
  if (days =? 0)%Z then hms
  else pretty days +:+ " day" +:+ (if (Z.abs days =? 1)%Z then "" else "s")
       +:+ ", " +:+ hms.

(** [s.split('.')[0]] *)
Fixpoint before_dot (s : string) : string :=
  match s with
  | EmptyString => EmptyString
  | String c s' => if Ascii.eqb c "." then EmptyString else String c (before_dot s')
  end.

(** [len(list(self.backup_dir.iterdir())) if self.backup_dir.exists()
    else 0] *)
Definition backup_count (s : Server) (w : World) : result Z :=
  match FS.exists_ (fs w) (FS.key (cwd w) (backup_dir s)) with
  | Raise e => Raise e
  | Ok true =>
      match FS.iterdir (fs w) (FS.key (cwd w) (backup_dir s)) with
      | Ok l => Ok (Z.of_nat (length l))
      | Raise e => Raise e
      end
  | Ok false => Ok 0%Z
  end.

(** [CORE_TYPES.get(core_type, ...)["name"]] of [get_core_info]: a list
    or a dictionary cannot be looked up. *)
Definition core_name (core_type : value) : result string :=
  match core_type with
  | VStr c => Ok (ci_name (get_core_info c))
  | VList _ | VDict _ => Raise TypeError
  | _ => Ok (ci_name unknown_core_info)
  end.

(** *** [get_status]: it reads only.  The entries of the dictionary are
    evaluated in their order. *)
Definition get_status (s : Server) (w : World) : result (Dict.t value) :=
  match core_name (core_type s) with
  | Raise e => Raise e
  | Ok cname =>
  match eula_accepted s w with
  | Raise e => Raise e
  | Ok accepted =>
      match backup_count s w with
      | Raise e => Raise e
      | Ok count =>
          let status :=
            [ ("running", VBool (is_running s));
              ("pid", match process s with Some p => VInt (pid p) | None => VNone end);
              ("server_dir", VStr (Path.to_string (server_dir s)));
              ("server_jar", server_jar s);
              ("java_opts", java_opts s);
              ("core_type", core_type s);
              ("core_name", VStr cname);
              ("minecraft_version", minecraft_version s);
              ("eula_accepted", VBool accepted);
              ("backup_count", VInt count) ] in
          match get_uptime s w with
          | Some uptime =>
              if negb (uptime =? 0)%Z then
                Ok (status ++
                    [ ("uptime", VStr (before_dot (str_timedelta uptime)));
                      ("start_time",
                       match start_time s with
                       | Some t0 => VStr (isoformat t0)
                       | None => VNone
                       end) ])%list
              else Ok status
          | None => Ok status
          end
      end
  end
  end.

End UniversalServer.

(** ** [main]: the command loop of the command-line mode *)

(** [s.lstrip()] and [s.strip()], for the white space of ASCII *)
Fixpoint lstrip (s : string) : string :=
  match s with
  | EmptyString => EmptyString
  | String c s' => if Str.is_space c then lstrip s' else s
  end.

Definition reversed (s : string) : string :=
  string_of_list_ascii (rev (list_ascii_of_string s)).

Definition strip (s : string) : string :=
  reversed (lstrip (reversed (lstrip s))).

(** What the loop itself writes to the terminal, by the statement that
    ran; the lines of the supervisor go to the console of the world. *)
Inductive cli_message :=
| CliMenu           (* print("\n命令: start, stop, restart, accept-eula, exit") *)
| CliPrompt         (* input("> ") *)
| CliStarted        (* "服务器启动成功" *)
| CliStartFailed    (* "服务器启动失败" *)
| CliStopped        (* "服务器已停止" *)
| CliStopFailed     (* "停止服务器失败" *)
| CliRestarting     (* "正在重启服务器..." *)
| CliRestarted      (* "服务器重启成功" *)
| CliRestartFailed  (* "服务器重启失败" *)
| CliEulaAccepted   (* "EULA已同意" *)
| CliEulaFailed     (* "同意EULA失败" *)
| CliConfirm        (* input("服务器正在运行，确定要退出吗？(y/n): ") *)
| CliUnknown.       (* "未知命令" *)

(** How the loop ends: by [break], or at an [input()] that finds no line
    left.  Python raises [EOFError] there and [main] does not catch it; it
    is no exception of the supervisor, so the loop reports it as an outcome
    of its own. *)
Inductive loop_end :=
| Exited
| EndOfInput.

Section CommandLine.
Context `{PyLib}.

(** The [while True:] loop of [main] on the lines [typed] that the user
    will enter; it returns how it ended, the lines left unread and what it
    wrote after [shown]. *)
Fixpoint command_loop (typed : list string) (shown : list cli_message)
  : M (loop_end * list string * list cli_message) :=
  let shown := (shown ++ [CliMenu; CliPrompt])%list in
  match typed with
  | [] => mret (EndOfInput, [], shown)
  | line :: typed =>
      let cmd := Str.lower (strip line) in
      if String.eqb cmd "start" then
        started ← start_server;
        command_loop typed
          (shown ++ [if (started : bool) then CliStarted else CliStartFailed])%list
      else if String.eqb cmd "stop" then
        stopped ← stop_server false;
        command_loop typed
          (shown ++ [if (stopped : bool) then CliStopped else CliStopFailed])%list
      else if String.eqb cmd "restart" then
        s ← get_self;
        (if is_running s then stop_server false;; sleep 3 else mret tt);;
        started ← start_server;
        command_loop typed
          (shown ++ [CliRestarting;
                     if (started : bool) then CliRestarted else CliRestartFailed])%list
      else if String.eqb cmd "accept-eula" then
        accepted ← accept_eula;
        command_loop typed
          (shown ++ [if (accepted : bool) then CliEulaAccepted else CliEulaFailed])%list
      else if String.eqb cmd "exit" then
        s ← get_self;
        if is_running s then
          let shown := (shown ++ [CliConfirm])%list in
          match typed with
          | [] => mret (EndOfInput, [], shown)
          | confirm :: typed =>
              (if String.eqb (Str.lower confirm) "y" then stop_server false;; mret tt
               else mret tt);;
              mret (Exited, typed, shown)
          end
        else mret (Exited, typed, shown)
      else command_loop typed (shown ++ [CliUnknown])%list
  end.

End CommandLine.

(** * Specification-side definitions and sample data *)

(** The vendor keywords of the identifier in their priority order; the tag
    of a vendor is its keyword. *)
Definition VENDOR_KEYWORDS : list string :=
  [ "purpur"; "paper"; "spigot"; "craftbukkit"; "fabric"; "forge"; "neoforge";
    "mohist"; "catserver" ].

(** The first keyword, in priority order, that occurs in the lower-cased
    file name. *)
Definition first_keyword (filename : string) : option string :=
  find (fun kw => Str.contains kw (Str.lower filename)) VENDOR_KEYWORDS.

(** A sample instance of the library functions. *)
Definition sample_lib : PyLib :=
  {| isoformat := fun t => "T" +:+ pretty t;
     strftime := fun _ t => "D" +:+ pretty t;
     json_dumps := fun _ => "{}";
     json_value_fault := fun _ => None;
     json_partial := fun _ => "";
     isoformat_dumps := fun _ => eq_refl |}.

(** A library whose [json.dump] cannot encode the texts that begin with
    byte 255, which the encoding of no text contains: it stands for a byte
    that the operating system handed over undecoded. *)
Definition strict_lib : PyLib :=
  {| isoformat := fun t => "T" +:+ pretty t;
     strftime := fun _ t => "D" +:+ pretty t;
     json_dumps := fun _ => "{}";
     json_value_fault := fun v =>
       match v with
       | VStr (String c _) =>
           if Ascii.eqb c "255"%char then Some UnicodeEncodeError else None
       | _ => None
       end;
     json_partial := fun _ => "{";
     isoformat_dumps := fun _ => eq_refl |}.

(** Launch options that begin with such a byte. *)
Definition escaped_opts : value := VStr (String "255"%char "-Xmx1G").

(** A server archive that is not a vanilla one. *)
Definition sample_jar : FS.file :=
  FS.File None None (Some ["META-INF/MANIFEST.MF"]).

(** [/srv/mc] with three archives in it. *)
Definition sample_fs : FS.t :=
  list_to_map
    [ ([], FS.Dir true);
      (["srv"], FS.Dir true);
      (["srv"; "mc"], FS.Dir true);
      (["srv"; "mc"; "Purpur-Paper-1.21.4.jar"], FS.Reg sample_jar);
      (["srv"; "mc"; "NeoForge-21.1.jar"], FS.Reg sample_jar);
      (["srv"; "mc"; "paper-neoforge-hybrid.jar"], FS.Reg sample_jar) ].

(** An archive of [/srv/mc] whose name has 300 bytes, and one below a
    sealed directory of [/srv]. *)
Definition long_jar : path :=
  Path.of_string
    ("/srv/mc/" +:+ string_of_list_ascii (repeat "a"%char 296) +:+ ".jar").

Definition sealed_jar : path := Path.of_string "/srv/vault/server.jar".

Definition sealed_fs : FS.t :=
  list_to_map
    [ ([], FS.Dir true); (["srv"], FS.Dir true); (["srv"; "vault"], FS.Sealed) ].

(** A POSIX host with Java on the search path, on which the child, once
    started, gets pid 4242 and never exits by itself. *)
Definition sample_world (files : FS.t) : World :=
  MkWorld files (Path.Make "/" []) 1000 false ["/usr/bin/java"]
    (Ok 0%Z) (Ok 4242%Z) [] [] [] [] [].

(** ** Persisted records *)

(** The record that [save_config()] builds, without an explicit record, for
    the object [s] at clock reading [t]. *)
Definition saved_record `{PyLib} (s : Server) (t : Z) : Dict.t value :=
  [ ("server_dir", VStr (Path.to_string (server_dir s)));
    ("server_jar", server_jar s);
    ("java_opts", java_opts s);
    ("core_type", core_type s);
    ("minecraft_version", minecraft_version s);
    ("mirror_site", mirror_site s);
    ("last_modified", VStr (isoformat t)) ].

(** The record that [load_config] persists for a directory that has
    none. *)
Definition default_record (s : Server) : Dict.t value :=
  [ ("server_dir", VStr (Path.to_string (server_dir s)));
    ("server_jar", server_jar s);
    ("java_opts", java_opts s);
    ("core_type", VStr "unknown");
    ("minecraft_version", VStr "");
    ("auto_backup", VBool true);
    ("backup_interval", VInt 3600);
    ("max_backups", VInt 10);
    ("mirror_site", VStr "mslmc") ].

(** The record held by the profile file of [s], if the file holds one. *)
Definition config_record (s : Server) (w : World) : option (Dict.t value) :=
  match fs w !! FS.key (cwd w) (config_file s) with
  | Some (FS.Reg f) =>
      match FS.f_json f with
      | Some (VDict d) => Some d
      | _ => None
      end
  | _ => None
  end.

(** An empty server directory [/srv/mc]. *)
Definition empty_dir_fs : FS.t :=
  list_to_map
    [ ([], FS.Dir true); (["srv"], FS.Dir true); (["srv"; "mc"], FS.Dir true) ].

(** The object that [UniversalServer("/srv/mc")] gives on a directory
    without archives. *)
Definition sample_server : Server :=
  MkServer (Path.Make "/" ["srv"; "mc"]) (VStr "") (VStr "-Xmx2048M -Xms2048M")
    None false None
    (Path.Make "/" ["srv"; "mc"; "server.log"])
    (Path.Make "/" ["srv"; "mc"; "backups"])
    (Path.Make "/" ["srv"; "mc"; "server_launcher.json"])
    (VStr "unknown") (VStr "") (VStr "mslmc") false.

(** ** Conditions of a launch *)

(** The Java check of [start_server] lets the launch go on: the probe
    succeeded, or [find_java] found an installation. *)
Definition java_found (s : Server) (w : World) : bool :=
  match java_probe w with
  | Ok returncode =>
      (returncode =? 0)%Z || bool_decide (is_Some (find_java s w))
  | Raise FileNotFoundError => bool_decide (is_Some (find_java s w))
  | Raise _ => false
  end.

(** The file at [k] can be opened for writing. *)
Definition can_write (m : FS.t) (k : list string) : bool :=
  match FS.open_write m k (FS.File None None None) with
  | Ok _ => true
  | Raise _ => false
  end.

(** The licence marker of the server directory. *)
Definition eula_key (s : Server) (w : World) : list string :=
  FS.key (cwd w) (Path.div (server_dir s) "eula.txt").

(** [/srv/mc] with a Paper archive, and a marker that declines. *)
Definition paper_fs : FS.t :=
  list_to_map
    [ ([], FS.Dir true); (["srv"], FS.Dir true); (["srv"; "mc"], FS.Dir true);
      (["srv"; "mc"; "paper-1.21.4.jar"], FS.Reg sample_jar);
      (["srv"; "mc"; "eula.txt"], FS.Reg (FS.File (Some "eula=false") None None)) ].

(** The object for that directory. *)
Definition paper_server : Server :=
  MkServer (Path.Make "/" ["srv"; "mc"]) (VStr "paper-1.21.4.jar")
    (VStr "-Xmx2048M -Xms2048M") None false None
    (Path.Make "/" ["srv"; "mc"; "server.log"])
    (Path.Make "/" ["srv"; "mc"; "backups"])
    (Path.Make "/" ["srv"; "mc"; "server_launcher.json"])
    (VStr "paper") (VStr "1.21.4") (VStr "mslmc") false.

(** What a launch leaves as it is in the world: everything but the files,
    the recorded calls and the console. *)
Definition host (w : World) :=
  (cwd w, clock w, platform_windows w, host_paths w, java_probe w, spawn w,
   child_polls w, stdin_faults w, signal_faults w).

(** ** Stopping *)

(** [s'] is [s] up to the status cached in the handle: the same pid, and
    every other attribute unchanged. *)
Definition same_handle (s s' : Server) : Prop :=
  s' = set_process (process s') s
  /\ option_map pid (process s') = option_map pid (process s).

(** The object keeps its handle and its other attributes, and the files
    are as they were. *)
Definition stays (st st' : Server * World) : Prop :=
  same_handle (fst st) (fst st')
  /\ fs (snd st') = fs (snd st)
  /\ cwd (snd st') = cwd (snd st).

(** Termination calls, and how many of the calls [cs] are such. *)
Definition is_termination (c : call) : bool :=
  match c with
  | CTerminate | CKill | CRun ("taskkill" :: _) => true
  | _ => false
  end.

Definition terminations (cs : list call) : nat :=
  length (List.filter is_termination cs).

(** The error of the first termination call that is refused, given what
    the successive calls are answered. *)
Fixpoint refused (answers : list (option exn)) : option exn :=
  match answers with
  | [] => None
  | Some e :: _ => Some e
  | None :: answers' => refused answers'
  end.

(** A computation that, run with a handle, keeps the handle, the other
    attributes and the files, records its calls and makes no termination
    call. *)
Definition keeps {A} (m : M A) : Prop :=
  forall s w, process s <> None ->
    let '(r, (s', w')) := m (s, w) in
    stays (s, w) (s', w')
    /\ exists cs, calls w' = (calls w ++ cs)%list
         /\ terminations cs = 0%nat
         /\ signal_faults w' = signal_faults w.

(** A computation that may make termination calls, each of which takes
    the next answer, and that raises exactly when one of them is refused:
    the error of that call. *)
Definition sound {A} (m : M A) : Prop :=
  forall s w, process s <> None ->
    let '(r, (s', w')) := m (s, w) in
    stays (s, w) (s', w')
    /\ exists cs, calls w' = (calls w ++ cs)%list
         /\ signal_faults w' = drop (terminations cs) (signal_faults w)
         /\ refused (take (terminations cs) (signal_faults w))
            = match r with Ok _ => None | Raise e => Some e end.

(** [get_status] returns. *)
Definition status_ok `{PyLib} (s : Server) (w : World) : bool :=
  match get_status s w with
  | Ok _ => true
  | Raise _ => false
  end.

(** The calls of [k] rounds of the wait: a poll that finds the child
    running, then a sleep of one second. *)
Definition wait_calls (k : nat) : list call :=
  concat (repeat [CPoll None; CSleep 1] k).

(** Sleeps of a given length. *)
Definition is_sleep_of (seconds : Z) (c : call) : bool :=
  match c with
  | CSleep d => (d =? seconds)%Z
  | _ => false
  end.

(** The Paper server of [/srv/mc], running as pid 4242 since clock
    reading 900. *)
Definition running_server : Server :=
  set_start_time (Some 900%Z)
    (set_is_running true (set_process (Some (MkPopen 4242 None)) paper_server)).

(** A host on which the child ignores everything and the first
    termination call is refused. *)
Definition kill_denied_world : World :=
  set_signal_faults [Some PermissionError] (sample_world paper_fs).

(** * Further specification-side definitions and sample data *)

(** ** Download templates *)

(** The template that a mirror registers for a core type. *)
Definition mirror_pattern (mirror core_type : string) : option string :=
  match Dict.get MIRROR_SITES mirror with
  | Some m => Dict.get (mi_patterns m) core_type
  | None => None
  end.

(** ** Loading a profile *)

(** [d.get(k, default)] on a record *)
Definition field (d : Dict.t value) (k : string) (default : value) : value :=
  match Dict.get d k with
  | Some v => v
  | None => default
  end.

(** The object after a [load_config] that failed, or that found no
    profile. *)
Definition with_defaults (s : Server) : Server :=
  set_mirror_site (VStr "mslmc")
    (set_minecraft_version (VStr "") (set_core_type (VStr "unknown") s)).

(** The object after a [load_config] that read the record [d], whose
    directory is [dir]. *)
Definition with_record (s : Server) (d : Dict.t value) (dir : string) : Server :=
  MkServer (Path.of_string dir)
    (field d "server_jar" (server_jar s)) (field d "java_opts" (java_opts s))
    (process s) (is_running s) (start_time s)
    (log_file s) (backup_dir s) (config_file s)
    (field d "core_type" (VStr "unknown"))
    (field d "minecraft_version" (VStr ""))
    (field d "mirror_site" (VStr "mslmc"))
    (is_windows s).

(** A profile that names only the archive, and [/srv/mc] with that
    profile. *)
Definition partial_profile : Dict.t value :=
  [ ("server_jar", VStr "paper-1.21.4.jar") ].

Definition partial_profile_fs : FS.t :=
  list_to_map
    [ ([], FS.Dir true); (["srv"], FS.Dir true); (["srv"; "mc"], FS.Dir true);
      (["srv"; "mc"; "server_launcher.json"],
       FS.Reg (FS.File None (Some (VDict partial_profile)) None)) ].

(** [/srv/mc] with a profile that is not a JSON document. *)
Definition corrupt_profile_fs : FS.t :=
  list_to_map
    [ ([], FS.Dir true); (["srv"], FS.Dir true); (["srv"; "mc"], FS.Dir true);
      (["srv"; "mc"; "server_launcher.json"],
       FS.Reg (FS.File (Some "{") None None)) ].

(** [/srv/mc] with its backups and a profile written for [/old/mc]. *)
Definition moved_profile : Dict.t value :=
  [ ("server_dir", VStr "/old/mc"); ("server_jar", VStr "paper-1.21.4.jar") ].

Definition moved_profile_fs : FS.t :=
  list_to_map
    [ ([], FS.Dir true); (["srv"], FS.Dir true); (["srv"; "mc"], FS.Dir true);
      (["srv"; "mc"; "backups"], FS.Dir true);
      (["srv"; "mc"; "server_launcher.json"],
       FS.Reg (FS.File None (Some (VDict moved_profile)) None)) ].

(** ** Selecting the archive *)

(** A file of the directory [dir] that [detect_server_core] may select by
    itself: a regular file whose name ends in [.jar] and does not
    contain [installer], in whatever letter case. *)
Definition selectable (w : World) (dir : list string) (n : string) : bool :=
  FS.is_file (fs w) (dir ++ [n])
  && Str.endswith ".jar" n
  && negb (Str.contains "installer" (Str.lower n)).

(** [/srv/mc] with a Forge installer and the server it installed. *)
Definition forge_fs : FS.t :=
  list_to_map
    [ ([], FS.Dir true); (["srv"], FS.Dir true); (["srv"; "mc"], FS.Dir true);
      (["srv"; "mc"; "forge-1.20.1-installer.jar"], FS.Reg sample_jar);
      (["srv"; "mc"; "forge-1.20.1.jar"], FS.Reg sample_jar) ].

(** ** Files of a launch *)

(** The files of [m'] are those of [m] except at the keys of [keys], and
    none has been removed. *)
Definition fs_within (keys : list (list string)) (m m' : FS.t) : Prop :=
  (forall k, ~ In k keys -> m' !! k = m !! k)
  /\ (forall k, is_Some (m !! k) -> is_Some (m' !! k)).

(** The three files that a launch may write. *)
Definition launch_files (s : Server) (w : World) : list (list string) :=
  [ eula_key s w;
    FS.key (cwd w) (Path.div (server_dir s) "server.properties");
    FS.key (cwd w) (config_file s) ].

(** [m'] is [m], or, which takes [cond], [m] with a regular file put at
    [k]. *)
Definition may_write (cond : Prop) (k : list string) (m m' : FS.t) : Prop :=
  m' = m \/ (cond /\ exists f, m' = <[k := FS.Reg f]> m).

(** What a launch may have made of the files, block after block: the
    marker is written only if it was not accepted, the properties file
    only if it did not exist. *)
Definition launch_writes (s : Server) (w : World) (m' : FS.t) : Prop :=
  let kp := FS.key (cwd w) (Path.div (server_dir s) "server.properties") in
  exists m1 m2,
    may_write (eula_accepted s w = Ok false) (eula_key s w) (fs w) m1
    /\ may_write (FS.exists_ m1 kp = Ok false) kp m1 m2
    /\ may_write True (FS.key (cwd w) (config_file s)) m2 m'.

(** A host without any Java. *)
Definition no_java_world : World :=
  MkWorld paper_fs (Path.Make "/" []) 1000 false []
    (Raise FileNotFoundError) (Ok 4242%Z) [] [] [] [] [].

(** [/srv/mc], not writable, with a Paper archive and an accepted
    marker, but without properties file. *)
Definition readonly_fs : FS.t :=
  list_to_map
    [ ([], FS.Dir true); (["srv"], FS.Dir true); (["srv"; "mc"], FS.Dir false);
      (["srv"; "mc"; "paper-1.21.4.jar"], FS.Reg sample_jar);
      (["srv"; "mc"; "eula.txt"], FS.Reg (FS.File (Some "eula=true") None None)) ].

(** [/srv/mc] of a server that has run: a Paper archive, an accepted
    marker and a properties file of the user's. *)
Definition settled_fs : FS.t :=
  list_to_map
    [ ([], FS.Dir true); (["srv"], FS.Dir true); (["srv"; "mc"], FS.Dir true);
      (["srv"; "mc"; "paper-1.21.4.jar"], FS.Reg sample_jar);
      (["srv"; "mc"; "eula.txt"], FS.Reg (FS.File (Some "eula=true") None None));
      (["srv"; "mc"; "server.properties"],
       FS.Reg (FS.File (Some "motd=mine") None None)) ].

(** ** Commands and signals *)

(** The line that [send_command] writes for a command: the command,
    ended by a newline if it has none at its end. *)
Definition command_line (command : string) : string :=
  if negb (Str.endswith nl command) then command +:+ nl else command.

(** What the next query of the child answers: the cached status, or the
    next answer of the operating system. *)
Definition next_status (p : Popen) (w : World) : option Z :=
  match returncode p with
  | Some rc => Some rc
  | None => nth 0 (child_polls w) None
  end.

(** The second termination call of a forced stop. *)
Definition second_kill (s : Server) (p : Popen) : call :=
  if is_windows s then CRun ["taskkill"; "/F"; "/PID"; pretty (pid p)] else CKill.

(** ** Status *)

(** The keys that every status has, in their order. *)
Definition STATUS_KEYS : list string :=
  [ "running"; "pid"; "server_dir"; "server_jar"; "java_opts"; "core_type";
    "core_name"; "minecraft_version"; "eula_accepted"; "backup_count" ].

(** A value that cannot be the key of a dictionary lookup. *)
Definition unhashable (v : value) : bool :=
  match v with
  | VList _ | VDict _ => true
  | _ => false
  end.

(** The exception that stops [get_status], if one does: the lookup of an
    unhashable core type, or else what the operating system refuses, in
    the order of the entries: the [exists()] of the licence marker, the
    [exists()] of the backup directory, its [iterdir()]. *)
Definition status_fault (s : Server) (w : World) : option exn :=
  if unhashable (core_type s) then Some TypeError
  else
    match FS.exists_ (fs w) (FS.key (cwd w) (Path.div (server_dir s) "eula.txt")) with
    | Raise e => Some e
    | Ok _ =>
        match FS.exists_ (fs w) (FS.key (cwd w) (backup_dir s)) with
        | Raise e => Some e
        | Ok false => None
        | Ok true =>
            match FS.iterdir (fs w) (FS.key (cwd w) (backup_dir s)) with
            | Raise e => Some e
            | Ok _ => None
            end
        end
    end.

(** [/srv/mc] of the Paper server with a sealed backup directory. *)
Definition sealed_backups_fs : FS.t :=
  list_to_map
    [ ([], FS.Dir true); (["srv"], FS.Dir true); (["srv"; "mc"], FS.Dir true);
      (["srv"; "mc"; "paper-1.21.4.jar"], FS.Reg sample_jar);
      (["srv"; "mc"; "backups"], FS.Sealed) ].

(** ** The constructor *)

(** The directory of [UniversalServer(given)], made absolute. *)
Definition home (given : string) (w : World) : path :=
  Path.absolute (cwd w) (Path.of_string given).

(** A directory of [/srv/mc] whose name has 300 bytes. *)
Definition long_home : string :=
  "/srv/mc/" +:+ string_of_list_ascii (repeat "a"%char 300).

(** The three entries that the constructor may create. *)
Definition home_entries (given : string) (w : World) : list (list string) :=
  [ FS.key (cwd w) (home given w);
    FS.key (cwd w) (Path.div (home given w) "backups");
    FS.key (cwd w) (Path.div (home given w) "server_launcher.json") ].

(** The object that the constructor gives for a directory [d] without
    profile and without archive. *)
Definition fresh_server (d : path) (windows : bool) : Server :=
  MkServer d (VStr "") (VStr "-Xmx2048M -Xms2048M") None false None
    (Path.div d "server.log") (Path.div d "backups")
    (Path.div d "server_launcher.json")
    (VStr "unknown") (VStr "") (VStr "mslmc") windows.

(** ** The command loop *)

(** The commands that launch the server. *)
Definition launches (line : string) : bool :=
  let cmd := Str.lower (strip line) in
  String.eqb cmd "start" || String.eqb cmd "restart".

(** * Properties *)

(** ** Substrings *)

Lemma startswith_app_l a b s :
  Str.startswith (a +:+ b) s = true ->
  exists t, s = a +:+ t /\ Str.startswith b t = true.
Proof.
  revert s. induction a as [|c a IH]; intros s Hs.
  - exists s. split; [reflexivity|exact Hs].
  - unfold Str.startswith in *.
    change (String c a +:+ b) with (String c (a +:+ b)) in Hs.
    destruct s as [|d s]; [discriminate|]. simpl in Hs.
    destruct (ascii_dec c d) as [Hcd|]; [subst d|discriminate].
    destruct (IH s Hs) as (t & -> & Ht). exists t. split; [reflexivity|exact Ht].
Qed.

Lemma contains_nil sub : Str.contains sub "" = Str.startswith sub "".
Proof. reflexivity. Qed.

Lemma contains_cons sub c s :
  Str.contains sub (String c s)
  = Str.startswith sub (String c s) || Str.contains sub s.
Proof. reflexivity. Qed.

Lemma contains_here sub s :
  Str.startswith sub s = true -> Str.contains sub s = true.
Proof.
  destruct s; [rewrite contains_nil|rewrite contains_cons]; intros ->; reflexivity.
Qed.

Lemma contains_app_r sub a s :
  Str.contains sub s = true -> Str.contains sub (a +:+ s) = true.
Proof.
  induction a as [|c a IH]; intros Hs; [exact Hs|].
  change (String c a +:+ s) with (String c (a +:+ s)).
  rewrite contains_cons, (IH Hs). apply orb_true_r.
Qed.

(** A string that contains [a +:+ b] contains [b]. *)
Lemma contains_suffix a b s :
  Str.contains (a +:+ b) s = true -> Str.contains b s = true.
Proof.
  induction s as [|c s IH]; intros Hs.
  - rewrite contains_nil in Hs.
    destruct (startswith_app_l a b _ Hs) as (t & Ht & Hb).
    destruct a; [|discriminate]. change ("" = t) in Ht. subst t.
    apply contains_here, Hb.
  - rewrite contains_cons in Hs. apply orb_true_iff in Hs as [Hs|Hs].
    + destruct (startswith_app_l a b _ Hs) as (t & Ht & Hb).
      rewrite Ht. apply contains_app_r, contains_here, Hb.
    + rewrite contains_cons, (IH Hs). apply orb_true_r.
Qed.

Lemma neoforge_forge s :
  Str.contains "neoforge" s = true -> Str.contains "forge" s = true.
Proof. apply (contains_suffix "neo" "forge"). Qed.

(** ** Core-type detection *)

(** The tags that [detect_core_type] can return. *)
Lemma detect_by_name_range (w : World) (jar_path : path) :
  In (detect_by_name w jar_path)
     [ "unknown"; "purpur"; "paper"; "spigot"; "craftbukkit"; "fabric"; "forge";
       "mohist"; "catserver"; "vanilla" ].
Proof.
  unfold detect_by_name.
  repeat match goal with
         | |- context [if ?b then _ else _] => destruct b
         | |- context [match ?r with Ok _ => _ | Raise _ => _ end] => destruct r
         end; simpl; tauto.
Qed.

Lemma detect_core_type_range (w : World) (jar_path : path) (tag : string) :
  detect_core_type w jar_path = Ok tag ->
  In tag
     [ "unknown"; "purpur"; "paper"; "spigot"; "craftbukkit"; "fabric"; "forge";
       "mohist"; "catserver"; "vanilla" ].
Proof.
  unfold detect_core_type. destruct (FS.exists_ _ _) as [[]|e]; [| |discriminate].
  - intros Ht. injection Ht as <-. apply detect_by_name_range.
  - intros Ht. injection Ht as <-. left. reflexivity.
Qed.

(** What [exists()] answers on a path is what the map and the search
    say. *)
Lemma exists_true (m : FS.t) (k : list string) :
  FS.exists_ m k = Ok true <-> is_Some (m !! k).
Proof.
  unfold FS.exists_. destruct (m !! k) as [nd|].
  - split; eauto.
  - destruct (FS.lookup_fault m k); split; try discriminate; intros [? ?]; discriminate.
Qed.

Lemma exists_false (m : FS.t) (k : list string) :
  FS.exists_ m k = Ok false <-> m !! k = None /\ FS.lookup_fault m k = None.
Proof.
  unfold FS.exists_. destruct (m !! k) as [nd|].
  - split; [discriminate|intros [? _]; discriminate].
  - destruct (FS.lookup_fault m k); split; try discriminate; auto.
    intros [_ ?]; discriminate.
Qed.

Lemma exists_raise (m : FS.t) (k : list string) (e : exn) :
  FS.exists_ m k = Raise e <-> m !! k = None /\ FS.lookup_fault m k = Some e.
Proof.
  unfold FS.exists_. destruct (m !! k) as [nd|].
  - split; [discriminate|intros [? _]; discriminate].
  - destruct (FS.lookup_fault m k); split; try discriminate.
    + intros He. injection He as <-. auto.
    + intros [_ He]. injection He as <-. reflexivity.
    + intros [_ ?]. discriminate.
Qed.

(** C4. For every existing artifact whose file name contains a vendor
    keyword, in whatever letter case and among whatever other text,
    [detect_core_type] returns the tag of the first keyword, in the fixed
    priority order, that the lower-cased name contains. *)
Theorem detect_core_type_first_keyword (w : World) (jar_path : path) (kw : string) :
  FS.exists_ (fs w) (FS.key (cwd w) jar_path) = Ok true ->
  In kw VENDOR_KEYWORDS ->
  Str.contains kw (Str.lower (Path.name jar_path)) = true ->
  exists tag, first_keyword (Path.name jar_path) = Some tag
              /\ detect_core_type w jar_path = Ok tag.
Proof.
  intros Hex Hin Hkw. unfold detect_core_type, detect_by_name, first_keyword.
  rewrite Hex. simpl.
  set (n := Str.lower (Path.name jar_path)) in *.
  destruct (Str.contains "purpur" n) eqn:E1; [eauto|].
  destruct (Str.contains "paper" n) eqn:E2; [eauto|].
  destruct (Str.contains "spigot" n) eqn:E3; [eauto|].
  destruct (Str.contains "craftbukkit" n) eqn:E4; [eauto|].
  destruct (Str.contains "fabric" n) eqn:E5; [eauto|].
  destruct (Str.contains "forge" n) eqn:E6; [eauto|].
  destruct (Str.contains "neoforge" n) eqn:E7.
  { apply neoforge_forge in E7. congruence. }
  destruct (Str.contains "mohist" n) eqn:E8; [eauto|].
  destruct (Str.contains "catserver" n) eqn:E9; [eauto|].
  exfalso. simpl in Hin.
  repeat (destruct Hin as [<-|Hin]; [congruence|]). exact Hin.
Qed.

Lemma detect_core_type_first_keyword_witness :
  exists tag, first_keyword "Purpur-Paper-1.21.4.jar" = Some tag
              /\ detect_core_type (sample_world sample_fs)
                   (Path.of_string "/srv/mc/Purpur-Paper-1.21.4.jar") = Ok tag.
Proof.
  apply (detect_core_type_first_keyword (sample_world sample_fs)
           (Path.of_string "/srv/mc/Purpur-Paper-1.21.4.jar") "paper").
  - vm_compute; reflexivity.
  - simpl; tauto.
  - vm_compute; reflexivity.
Defined.

(** C8 fails on a path that does not exist and that the operating system
    refuses to look up.  Where [exists()] answers [False] the result is
    ["unknown"]; but [exists()] is called outside every [try], and what
    it raises leaves [detect_core_type]: [OSError] for a file name of 300
    bytes in [/srv/mc], [PermissionError] for a path below a sealed
    directory. *)
Theorem detect_core_type_absent_raises :
  (forall w jar_path,
      FS.exists_ (fs w) (FS.key (cwd w) jar_path) = Ok false ->
      detect_core_type w jar_path = Ok "unknown")
  /\ (forall w jar_path e,
         FS.exists_ (fs w) (FS.key (cwd w) jar_path) = Raise e ->
         detect_core_type w jar_path = Raise e)
  /\ fs (sample_world sample_fs) !! FS.key (cwd (sample_world sample_fs)) long_jar = None
  /\ detect_core_type (sample_world sample_fs) long_jar = Raise OSError
  /\ fs (sample_world sealed_fs) !! FS.key (cwd (sample_world sealed_fs)) sealed_jar = None
  /\ detect_core_type (sample_world sealed_fs) sealed_jar = Raise PermissionError.
Proof.
  split; [|split].
  - intros w jar_path Hex. unfold detect_core_type. rewrite Hex. reflexivity.
  - intros w jar_path e Hex. unfold detect_core_type. rewrite Hex. reflexivity.
  - vm_compute. repeat split.
Qed.

(** C9, as stated, fails: an existing file whose name contains
    ["neoforge"] and a keyword of higher priority gets the tag of that
    keyword, not ["forge"]. *)
Lemma detect_core_type_neoforge_counterexample :
  FS.exists_ (fs (sample_world sample_fs))
    (FS.key (cwd (sample_world sample_fs))
       (Path.of_string "/srv/mc/paper-neoforge-hybrid.jar")) = Ok true
  /\ Str.contains "neoforge"
       (Str.lower (Path.name (Path.of_string "/srv/mc/paper-neoforge-hybrid.jar")))
     = true
  /\ detect_core_type (sample_world sample_fs)
       (Path.of_string "/srv/mc/paper-neoforge-hybrid.jar") = Ok "paper"
  /\ detect_core_type (sample_world sample_fs)
       (Path.of_string "/srv/mc/paper-neoforge-hybrid.jar") <> Ok "forge".
Proof. vm_compute. repeat split; discriminate. Qed.

(** C9, amended. For every existing file whose lower-cased name contains
    ["neoforge"] and none of the keywords of higher priority (purpur,
    paper, spigot, craftbukkit, fabric), [detect_core_type] returns
    ["forge"]; and for no path at all is its result ["neoforge"], although
    ["neoforge"] is a key of [CORE_TYPES]. *)
Theorem detect_core_type_neoforge (w : World) (jar_path : path) :
  FS.exists_ (fs w) (FS.key (cwd w) jar_path) = Ok true ->
  Str.contains "neoforge" (Str.lower (Path.name jar_path)) = true ->
  forallb (fun kw => negb (Str.contains kw (Str.lower (Path.name jar_path))))
    [ "purpur"; "paper"; "spigot"; "craftbukkit"; "fabric" ] = true ->
  detect_core_type w jar_path = Ok "forge"
  /\ (forall w' p', detect_core_type w' p' <> Ok "neoforge")
  /\ Dict.mem CORE_TYPES "neoforge" = true.
Proof.
  intros Hex Hneo Hnone. split; [|split; [|reflexivity]].
  - unfold detect_core_type, detect_by_name. rewrite Hex. cbn [negb forallb] in *.
    set (n := Str.lower (Path.name jar_path)) in *.
    apply neoforge_forge in Hneo as Hforge.
    repeat (apply andb_true_iff in Hnone as [Hk Hnone];
            apply negb_true_iff in Hk; rewrite Hk; clear Hk).
    rewrite Hforge. reflexivity.
  - intros w' p' Heq. apply detect_core_type_range in Heq. simpl in Heq.
    repeat (destruct Heq as [Heq|Heq]; [discriminate|]). exact Heq.
Qed.

Lemma detect_core_type_neoforge_witness :
  detect_core_type (sample_world sample_fs)
    (Path.of_string "/srv/mc/NeoForge-21.1.jar") = Ok "forge".
Proof.
  apply (detect_core_type_neoforge (sample_world sample_fs)
           (Path.of_string "/srv/mc/NeoForge-21.1.jar"));
    vm_compute; reflexivity.
Defined.

(** ** Download URLs *)

(** C3, as stated, fails: with the [bmclapi] mirror the vanilla core type
    resolves to a concrete URL. *)
Lemma get_download_url_vanilla_counterexample :
  get_download_url "vanilla" "1.21.4" "bmclapi"
  = Some "https://bmclapi2.bangbang93.com/version/1.21.4/server"
  /\ get_download_url "vanilla" "1.21.4" "bmclapi" <> None.
Proof. split; [vm_compute; reflexivity | vm_compute; discriminate]. Qed.

(** C3, amended. For the vanilla core type and every version,
    [get_download_url] returns [None] exactly for the mirrors that register
    no vanilla template (the [mc] mirror and every unknown mirror); for
    [mslmc] it returns the mirror's address and for [bmclapi] the
    [version/<version>/server] address of that mirror. *)
Theorem get_download_url_vanilla (version mirror : string) :
  get_download_url "vanilla" version mirror
  = if String.eqb mirror "mslmc" then Some "https://dl.mslmc.cn"
    else if String.eqb mirror "bmclapi" then
      Some ("https://bmclapi2.bangbang93.com/version/" +:+ version +:+ "/server")
    else None.
Proof.
  unfold get_download_url.
  destruct (String.eqb_spec mirror "mslmc") as [->|Hm]; [reflexivity|].
  destruct (String.eqb_spec mirror "bmclapi") as [->|Hb]; [reflexivity|].
  unfold MIRROR_SITES, Dict.get.
  destruct (String.eqb_spec "mslmc" mirror) as [<-|_]; [congruence|].
  destruct (String.eqb_spec "bmclapi" mirror) as [<-|_]; [congruence|].
  destruct (String.eqb "mc" mirror); reflexivity.
Qed.

(** ** Profile persistence *)

(** A successful write puts the file at its key and changes nothing
    else; whether a file can be opened for writing does not depend on what
    is written. *)
Lemma open_write_ok (m m' : FS.t) (k : list string) (f : FS.file) :
  FS.open_write m k f = Ok m' -> m' = <[k := FS.Reg f]> m.
Proof.
  unfold FS.open_write, FS.create. intros Hw.
  destruct (m !! k) as [[?|?|]|]; try discriminate.
  - injection Hw as <-. reflexivity.
  - destruct (FS.lookup_fault m k); [discriminate|].
    destruct (m !! removelast k) as [[[]|?|]|]; try discriminate.
    injection Hw as <-. reflexivity.
Qed.



Lemma open_write_any (m : FS.t) (k : list string) (f f' : FS.file) :
  FS.open_write m k f'
  = match FS.open_write m k f with
    | Ok _ => Ok (<[k := FS.Reg f']> m)
    | Raise e => Raise e
    end.
Proof.
  unfold FS.open_write, FS.create.
  destruct (m !! k) as [[?|?|]|]; try reflexivity.
  destruct (FS.lookup_fault m k); [reflexivity|].
  destruct (m !! removelast k) as [[[]|?|]|]; reflexivity.
Qed.

Lemma can_write_ok (m : FS.t) (k : list string) (f : FS.file) :
  can_write m k = match FS.open_write m k f with Ok _ => true | Raise _ => false end.
Proof.
  unfold can_write. rewrite (open_write_any m k f (FS.File None None None)).
  destruct (FS.open_write m k f); reflexivity.
Qed.

Lemma can_write_open (m : FS.t) (k : list string) (f : FS.file) :
  can_write m k = true -> FS.open_write m k f = Ok (<[k := FS.Reg f]> m).
Proof.
  rewrite (can_write_ok m k f). intros Hc.
  destruct (FS.open_write m k f) as [m'|e] eqn:Hw; [|discriminate].
  rewrite (open_write_ok _ _ _ _ Hw). reflexivity.
Qed.

Lemma open_write_again (m : FS.t) (k : list string) (f f' : FS.file) :
  FS.open_write (<[k := FS.Reg f]> m) k f' = Ok (<[k := FS.Reg f']> m).
Proof.
  unfold FS.open_write. rewrite lookup_insert_eq, insert_insert_eq. reflexivity.
Qed.

Section Persistence.
Context `{PyLib}.

(** [json.dump] into the file at [p]: the file is left with the
    document, or, when [json.dump] raises, with what it had written. *)
Lemma dump_file_run (p : path) (v : value) (s : Server) (w : World) :
  dump_file p v (s, w)
  = let k := FS.key (cwd w) p in
    match FS.open_write (fs w) k (text_file "") with
    | Raise e => (Raise e, (s, w))
    | Ok _ =>
        match json_dump_fault v with
        | None => (Ok tt, (s, set_fs (<[k := FS.Reg (json_file v)]> (fs w)) w))
        | Some e =>
            (Raise e, (s, set_fs (<[k := FS.Reg (text_file (json_partial v))]> (fs w)) w))
        end
    end.
Proof.
  unfold dump_file, write_file, lift, raise, get_world, update_world,
    mbind, mret, M_bind, M_ret.
  cbn -[json_dump_fault]. cbv zeta.
  destruct (FS.open_write (fs w) _ (text_file "")) as [fs1|e] eqn:Hw; [|reflexivity].
  rewrite (open_write_ok _ _ _ _ Hw).
  destruct (json_dump_fault v) as [e|]; cbn; rewrite open_write_again; reflexivity.
Qed.

(** [save_config] writes the record, or reports the error of [open] or of
    [json.dump]. *)
Lemma save_config_run (c : option value) (s : Server) (w : World) :
  save_config c (s, w)
  = let config :=
      match c with
      | Some c => c
      | None => VDict (saved_record s (clock w))
      end in
    let k := FS.key (cwd w) (config_file s) in
    match FS.open_write (fs w) k (text_file "") with
    | Raise e => (Ok false, (s, set_console (console w ++ [MsgSaveConfigError e]) w))
    | Ok _ =>
        match json_dump_fault config with
        | None => (Ok true, (s, set_fs (<[k := FS.Reg (json_file config)]> (fs w)) w))
        | Some e =>
            (Ok false,
             (s, set_console (console w ++ [MsgSaveConfigError e])
                   (set_fs (<[k := FS.Reg (text_file (json_partial config))]> (fs w)) w)))
        end
    end.
Proof.
  unfold save_config, saved_record, try_except, now, print,
    get_self, get_world, update_world, mbind, mret, M_bind, M_ret.
  cbn -[json_dump_fault dump_file]. rewrite dump_file_run. cbv zeta.
  cbn -[json_dump_fault].
  destruct c; destruct (FS.open_write _ _ _); try reflexivity;
    destruct (json_dump_fault _); reflexivity.
Qed.

(** A first [load_config], on a directory without a profile file, sets
    the defaults and saves the default record. *)
Lemma load_config_absent (s : Server) (w : World) :
  FS.exists_ (fs w) (FS.key (cwd w) (config_file s)) = Ok false ->
  let s1 := set_mirror_site (VStr "mslmc")
              (set_minecraft_version (VStr "") (set_core_type (VStr "unknown") s)) in
  load_config (s, w)
  = match save_config (Some (VDict (default_record s))) (s1, w) with
    | (Ok _, st) => (Ok tt, st)
    | (Raise e, st) => (Raise e, st)
    end.
Proof.
  intros Hex. unfold load_config, path_exists, lift, get_self, get_world, update_self,
    mbind, mret, M_bind, M_ret.
  cbn -[save_config]. rewrite Hex. fold (default_record s). reflexivity.
Qed.

(** What [exists()] raises on the profile leaves [load_config]. *)
Lemma load_config_raise (s : Server) (w : World) (e : exn) :
  FS.exists_ (fs w) (FS.key (cwd w) (config_file s)) = Raise e ->
  load_config (s, w) = (Raise e, (s, w)).
Proof.
  intros Hex. unfold load_config, path_exists, lift, get_self, get_world,
    mbind, mret, M_bind, M_ret.
  cbn -[save_config]. rewrite Hex. reflexivity.
Qed.

(** C10. The record that [save_config()] builds without an explicit
    record has exactly the keys [server_dir], [server_jar], [java_opts],
    [core_type], [minecraft_version], [mirror_site], [last_modified], so
    none of [auto_backup], [backup_interval], [max_backups].  The save
    returns [True] exactly when the profile can be opened for writing and
    [json.dump] raises on none of the values; the profile then holds that
    record and nothing else, whatever it held before.  Otherwise it
    returns [False] after printing the error: the error of [open], the
    files being untouched, or the error of [json.dump], the profile being
    left with what had been written of the document, which is no record.
    Whereas the record that the first [load_config] of a directory
    persists, under the same two conditions, has the three retention
    keys. *)
Theorem save_config_keys (s : Server) (w : World) :
  let k := FS.key (cwd w) (config_file s) in
  let saved := saved_record s (clock w) in
  let default := default_record s in
  (Dict.keys saved = [ "server_dir"; "server_jar"; "java_opts"; "core_type";
                       "minecraft_version"; "mirror_site"; "last_modified" ]
   /\ forallb (fun key => negb (Dict.mem saved key))
        [ "auto_backup"; "backup_interval"; "max_backups" ] = true
   /\ let '(r, (s', w')) := save_config None (s, w) in
      s' = s
      /\ (r = Ok true \/ r = Ok false)
      /\ (r = Ok true <->
          can_write (fs w) k = true /\ json_dump_fault (VDict saved) = None)
      /\ (r = Ok true ->
          fs w' = <[k := FS.Reg (json_file (VDict saved))]> (fs w)
          /\ config_record s' w' = Some saved
          /\ console w' = console w)
      /\ (r = Ok false ->
          if can_write (fs w) k then
            exists e,
              json_dump_fault (VDict saved) = Some e
              /\ console w' = (console w ++ [MsgSaveConfigError e])%list
              /\ fs w' = <[k := FS.Reg (text_file (json_partial (VDict saved)))]> (fs w)
              /\ config_record s' w' = None
          else
            exists e,
              FS.open_write (fs w) k (text_file "") = Raise e
              /\ console w' = (console w ++ [MsgSaveConfigError e])%list
              /\ fs w' = fs w))
  /\ (Dict.keys default = [ "server_dir"; "server_jar"; "java_opts"; "core_type";
                            "minecraft_version"; "auto_backup"; "backup_interval";
                            "max_backups"; "mirror_site" ]
      /\ forallb (Dict.mem default)
           [ "auto_backup"; "backup_interval"; "max_backups" ] = true
      /\ (FS.exists_ (fs w) k = Ok false ->
          let '(r, (s', w')) := load_config (s, w) in
          r = Ok tt
          /\ (config_record s' w' = Some default <->
              can_write (fs w) k = true /\ json_dump_fault (VDict default) = None))).
Proof.
  cbv zeta. split; [split; [reflexivity|split; [reflexivity|]]
                   |split; [reflexivity|split; [reflexivity|]]].
  - rewrite save_config_run. cbv zeta.
    rewrite (can_write_ok _ _ (text_file "")).
    destruct (FS.open_write _ _ _) as [fs1|e] eqn:Hw.
    + destruct (json_dump_fault _) as [e|] eqn:Hd.
      * split; [reflexivity|]. split; [right; reflexivity|].
        split; [split; [discriminate|intros [_ ?]; discriminate]|].
        split; [discriminate|]. intros _.
        exists e. split; [reflexivity|]. split; [reflexivity|]. split; [reflexivity|].
        unfold config_record. cbn. rewrite lookup_insert_eq. reflexivity.
      * split; [reflexivity|]. split; [left; reflexivity|].
        split; [split; auto|]. split; [|discriminate]. intros _.
        split; [reflexivity|]. split; [|reflexivity].
        unfold config_record. cbn. rewrite lookup_insert_eq. reflexivity.
    + split; [reflexivity|]. split; [right; reflexivity|].
      split; [split; [discriminate|intros [? _]; discriminate]|].
      split; [discriminate|]. intros _.
      exists e. repeat split.
  - intros Hex. rewrite (load_config_absent _ _ Hex), save_config_run. cbv zeta.
    cbn [config_file set_mirror_site set_minecraft_version set_core_type].
    rewrite (can_write_ok _ _ (text_file "")).
    apply exists_false in Hex as [Hnone _].
    destruct (FS.open_write _ _ _) as [fs1|e] eqn:Hw.
    + destruct (json_dump_fault _) as [e|] eqn:Hd.
      * split; [reflexivity|]. unfold config_record. cbn. rewrite lookup_insert_eq. cbn.
        split; [discriminate|intros [_ ?]; discriminate].
      * split; [reflexivity|]. unfold config_record. cbn. rewrite lookup_insert_eq. cbn.
        split; auto.
    + split; [reflexivity|]. unfold config_record. cbn. rewrite Hnone.
      split; [discriminate|intros [? _]; discriminate].
Qed.

End Persistence.

Lemma save_config_keys_witness :
  let w := sample_world empty_dir_fs in
  let k := FS.key (cwd w) (config_file sample_server) in
  (let '(r, (s', w')) := @save_config sample_lib None (sample_server, w) in
   r = Ok true
   /\ config_record s' w' = Some (@saved_record sample_lib sample_server (clock w)))
  /\ (let '(r, (s', w')) := @load_config sample_lib (sample_server, w) in
      r = Ok tt /\ config_record s' w' = Some (default_record sample_server))
  /\ (let '(r, (s', w')) :=
        @save_config sample_lib None (sample_server, sample_world readonly_fs) in
      r = Ok false /\ fs w' = readonly_fs)
  /\ (let '(r, (s', w')) :=
        @save_config strict_lib None (set_java_opts escaped_opts sample_server, w) in
      r = Ok false
      /\ console w' = (console w ++ [MsgSaveConfigError UnicodeEncodeError])%list
      /\ fs w' = <[k := FS.Reg (text_file "{")]> (fs w)
      /\ config_record s' w' = None).
Proof.
  intros w k.
  pose proof (@save_config_keys sample_lib sample_server w) as [(_ & _ & Hsave) (_ & _ & Hload)].
  pose proof (@save_config_keys sample_lib sample_server (sample_world readonly_fs))
    as [(_ & _ & Hdenied) _].
  pose proof (@save_config_keys strict_lib (set_java_opts escaped_opts sample_server) w)
    as [(_ & _ & Hdump) _].
  split; [|split; [|split]].
  - destruct (@save_config sample_lib None (sample_server, w)) as [r [s' w']].
    destruct Hsave as (_ & _ & Hiff & Htrue & _).
    assert (Hr : r = Ok true) by (apply Hiff; split; vm_compute; reflexivity).
    split; [exact Hr|]. apply Htrue. exact Hr.
  - assert (Hex : FS.exists_ (fs w) k = Ok false) by (vm_compute; reflexivity).
    specialize (Hload Hex).
    destruct (@load_config sample_lib (sample_server, w)) as [r [s' w']].
    destruct Hload as [Hr Hiff]. split; [exact Hr|].
    apply Hiff. split; vm_compute; reflexivity.
  - destruct (@save_config sample_lib None (sample_server, sample_world readonly_fs))
      as [r [s' w']].
    destruct Hdenied as (_ & Hor & Hiff & _ & Hfalse).
    assert (Hr : r = Ok false).
    { destruct Hor as [Ht|Hf]; [|exact Hf].
      apply Hiff in Ht as [Hc _]. vm_compute in Hc. discriminate. }
    split; [exact Hr|].
    assert (Hc : can_write (fs (sample_world readonly_fs))
                   (FS.key (cwd (sample_world readonly_fs)) (config_file sample_server))
                 = false) by (vm_compute; reflexivity).
    specialize (Hfalse Hr). rewrite Hc in Hfalse.
    destruct Hfalse as (e & _ & _ & Hfs). exact Hfs.
  - destruct (@save_config strict_lib None (set_java_opts escaped_opts sample_server, w))
      as [r [s' w']].
    destruct Hdump as (_ & Hor & Hiff & _ & Hfalse).
    assert (Hr : r = Ok false).
    { destruct Hor as [Ht|Hf]; [|exact Hf].
      apply Hiff in Ht as [_ Hd]. vm_compute in Hd. discriminate. }
    split; [exact Hr|].
    assert (Hc : can_write (fs w)
                   (FS.key (cwd w)
                      (config_file (set_java_opts escaped_opts sample_server)))
                 = true) by (vm_compute; reflexivity).
    specialize (Hfalse Hr). rewrite Hc in Hfalse.
    destruct Hfalse as (e & He & Hcon & Hfs & Hrec).
    vm_compute in He. injection He as <-.
    split; [exact Hcon|]. split; [exact Hfs|exact Hrec].
Defined.

(** ** Running the methods *)

Ltac unfold_M :=
  unfold try_except, write_file, now, print, log_call, sleep, path_exists, lift,
    raise, get_self, get_world, update_self, update_world,
    mbind, mret, M_bind, M_ret in *.

Ltac step :=
  cbn -[check_eula Path.div accept_eula create_default_properties get_java_command
        popen save_config FS.exists_ FS.key FS.open_write eula_content default_props
        eula_key json_file text_file saved_record Str.lower Str.contains can_write
        ensure_eula ensure_properties launch host json_dump_fault json_partial
        eula_accepted].

Lemma bind_ok {A B} (m : M A) (f : A -> M B) st a st' :
  m st = (Ok a, st') -> (m ≫= f) st = f a st'.
Proof. unfold mbind, M_bind. intros ->. reflexivity. Qed.

Lemma bind_raise {A B} (m : M A) (f : A -> M B) st e st' :
  m st = (Raise e, st') -> (m ≫= f) st = (Raise e, st').
Proof. unfold mbind, M_bind. intros ->. reflexivity. Qed.

Lemma find_java_hosts (s : Server) (w' w : World) :
  host_paths w' = host_paths w -> find_java s w' = find_java s w.
Proof. unfold find_java. intros ->. reflexivity. Qed.

Lemma path_div_empty (p : path) : Path.div p "" = p.
Proof. destruct p as [r ns]. unfold Path.div. cbn. rewrite app_nil_r. reflexivity. Qed.

Lemma key_div_name (c p : path) (n : string) :
  Path.of_string n = Path.Make "" [n] ->
  FS.key c (Path.div p n) = (FS.key c p ++ [n])%list.
Proof.
  intros Hn. unfold FS.key, Path.div, Path.absolute. rewrite Hn. cbn.
  destruct (String.eqb (Path.root p) ""); cbn; [rewrite app_assoc|]; reflexivity.
Qed.

Lemma last_snoc_ne (l l' : list string) (a b : string) :
  a <> b -> (l ++ [a])%list <> (l' ++ [b])%list.
Proof. intros Hab Heq. apply app_inj_tail in Heq as [_ ?]. contradiction. Qed.

Lemma snoc_ne_self (l : list string) (a : string) : (l ++ [a])%list <> l.
Proof.
  intros Heq. apply (f_equal (@length _)) in Heq. rewrite length_app in Heq.
  cbn in Heq. lia.
Qed.

(** The search for a path looks only at its proper prefixes. *)
Lemma deepest_insert (m : FS.t) (k : list string) (nd : FS.node) (rest : list string) :
  forall (pre : list string) (found : option (FS.node * string)),
    (forall i, (i < length rest)%nat -> (pre ++ take i rest)%list <> k) ->
    FS.deepest (<[k := nd]> m) pre rest found = FS.deepest m pre rest found.
Proof.
  induction rest as [|name rest IH]; intros pre found Hk; [reflexivity|].
  cbn [FS.deepest].
  rewrite lookup_insert_ne.
  2: { specialize (Hk 0%nat). cbn in Hk. rewrite app_nil_r in Hk.
       intros Heq. apply Hk; [lia|congruence]. }
  apply IH. intros i Hi. specialize (Hk (S i)). cbn in Hk.
  rewrite <- app_assoc. cbn. apply Hk. lia.
Qed.

Lemma lookup_fault_insert (m : FS.t) (k k' : list string) (nd : FS.node) :
  (length k' <= length k)%nat ->
  FS.lookup_fault (<[k := nd]> m) k' = FS.lookup_fault m k'.
Proof.
  intros Hlen. unfold FS.lookup_fault. rewrite deepest_insert; [reflexivity|].
  intros i Hi Heq. cbn in Heq. apply (f_equal (@length _)) in Heq.
  rewrite length_take in Heq. lia.
Qed.

(** The search for a path whose directory is there ends in that
    directory. *)
Lemma deepest_parent (m : FS.t) (nd : FS.node) (name : string) (l : list string) :
  forall (pre : list string) (found : option (FS.node * string)),
    m !! (pre ++ l)%list = Some nd ->
    FS.deepest m pre (l ++ [name]) found = Some (nd, name).
Proof.
  induction l as [|a l IH]; intros pre found Hnd.
  - rewrite app_nil_r in Hnd. cbn. rewrite Hnd. reflexivity.
  - cbn [app FS.deepest]. apply IH. rewrite <- app_assoc. exact Hnd.
Qed.

Lemma lookup_fault_parent (m : FS.t) (l : list string) (name : string) (nd : FS.node) :
  m !! l = Some nd ->
  FS.lookup_fault m (l ++ [name])
  = match nd with
    | FS.Sealed => Some PermissionError
    | FS.Dir _ => if FS.too_long name then Some OSError else None
    | FS.Reg _ => None
    end.
Proof.
  intros Hnd. unfold FS.lookup_fault.
  rewrite (deepest_parent m nd name l [] None) by exact Hnd.
  destruct nd; reflexivity.
Qed.

Lemma exists_insert_ne (m : FS.t) (k k' : list string) (n : FS.node) :
  k <> k' -> (length k' <= length k)%nat ->
  FS.exists_ (<[k := n]> m) k' = FS.exists_ m k'.
Proof.
  intros Hne Hlen. unfold FS.exists_.
  rewrite lookup_insert_ne, lookup_fault_insert by assumption. reflexivity.
Qed.

Lemma can_write_insert_ne (m : FS.t) (k k' : list string) (f : FS.file) :
  k <> k' -> removelast k' <> k -> (length k' <= length k)%nat ->
  can_write (<[k := FS.Reg f]> m) k' = can_write m k'.
Proof.
  intros Hne Hp Hlen. unfold can_write, FS.open_write, FS.create.
  rewrite !lookup_insert_ne, lookup_fault_insert by congruence.
  destruct (m !! k') as [[?|?|]|]; try reflexivity.
  destruct (FS.lookup_fault m k'); [reflexivity|].
  destruct (m !! removelast k') as [[[]|?|]|]; reflexivity.
Qed.

Lemma config_key_last (s : Server) (c : path) :
  Path.name (config_file s) = "server_launcher.json" ->
  exists l, FS.key c (config_file s) = (l ++ ["server_launcher.json"])%list.
Proof.
  unfold Path.name, FS.key, Path.absolute. intros Hn.
  destruct (Path.names (config_file s)) as [|a l] eqn:Hl using rev_ind;
    [discriminate|]. clear IHl.
  rewrite last_last in Hn. subst a.
  destruct (String.eqb _ _); cbn; rewrite ?Hl.
  - exists (Path.names c ++ l)%list. rewrite app_assoc. reflexivity.
  - exists l. reflexivity.
Qed.

Lemma check_eula_frame (s : Server) (w' w : World) :
  fs w' = fs w -> cwd w' = cwd w -> check_eula s w' = check_eula s w.
Proof. unfold check_eula. intros -> ->. reflexivity. Qed.

Lemma eula_accepted_frame (s : Server) (w' w : World) :
  fs w' = fs w -> cwd w' = cwd w -> eula_accepted s w' = eula_accepted s w.
Proof. unfold eula_accepted. intros Hf Hc. rewrite (check_eula_frame s w' w Hf Hc). reflexivity. Qed.

Lemma check_eula_spec (s : Server) (w : World) :
  eula_accepted s w = Ok true <->
  exists f content,
    fs w !! eula_key s w = Some (FS.Reg f)
    /\ FS.f_text f = Some content
    /\ Str.contains "eula=true" (Str.lower content) = true.
Proof.
  unfold eula_accepted, check_eula, eula_key, FS.exists_, FS.open_read, read_text.
  destruct (fs w !! _) as [[?|f|]|]; cbn -[Str.contains].
  - split; [discriminate|]. intros (f & c & Hf & _). discriminate.
  - destruct (FS.f_text f) as [c|] eqn:Hc.
    + destruct (Str.contains "eula=true" (Str.lower c)) eqn:Hs; cbn.
      * split; [|reflexivity]. intros _. exists f, c. auto.
      * split; [discriminate|]. intros (f' & c' & Hf & Hc' & Hs').
        injection Hf as <-. rewrite Hc in Hc'. injection Hc' as <-. congruence.
    + split; [discriminate|]. intros (f' & c' & Hf & Hc' & _).
      injection Hf as <-. congruence.
  - split; [discriminate|]. intros (f & c & Hf & _). discriminate.
  - destruct (FS.lookup_fault _ _); cbn;
      (split; [discriminate|]); intros (f & c & Hf & _); discriminate.
Qed.

(** The outcome of [check_eula] as [start_server] uses it. *)
Lemma check_eula_accepted (s : Server) (w : World) (b : bool) :
  eula_accepted s w = Ok b -> exists msg, check_eula s w = Ok (b, msg).
Proof.
  unfold eula_accepted. destruct (check_eula s w) as [[a msg]|e]; [|discriminate].
  intros Hb. injection Hb as <-. eauto.
Qed.

Lemma lower_app (a b : string) : Str.lower (a +:+ b) = Str.lower a +:+ Str.lower b.
Proof.
  induction a as [|c a IH]; [reflexivity|].
  change (String c a +:+ b) with (String c (a +:+ b)). cbn [Str.lower]. rewrite IH. reflexivity.
Qed.

(** ** Launching *)

Section Launch.
Context `{PyLib}.

Lemma check_java_found (s : Server) (w : World) :
  java_found s w = true ->
  exists msgs,
    check_java (s, w)
    = (Ok true, (s, set_console (console w ++ msgs)
                     (set_calls (calls w ++ [CRun ["java"; "-version"]]) w))).
Proof.
  unfold java_found, check_java, java_fallback. intros Hj. unfold_M. cbn -[find_java].
  destruct (java_probe w) as [rc|e].
  - destruct (rc =? 0)%Z; cbn -[find_java] in *.
    + exists []. rewrite app_nil_r. reflexivity.
    + apply bool_decide_eq_true in Hj as [j Hj]. rewrite (find_java_hosts _ _ w), Hj by reflexivity.
      exists [MsgJavaCheckFailed]. reflexivity.
  - destruct e; try discriminate. cbn -[find_java].
    apply bool_decide_eq_true in Hj as [j Hj]. rewrite (find_java_hosts _ _ w), Hj by reflexivity.
    exists [MsgJavaNotInPath]. reflexivity.
Qed.
Lemma accept_eula_run (s : Server) (w : World) :
  accept_eula (s, w)
  = match FS.open_write (fs w) (eula_key s w) (text_file (eula_content (clock w))) with
    | Ok fs' => (Ok true, (s, set_fs fs' w))
    | Raise e => (Ok false, (s, set_console (console w ++ [MsgAcceptEulaError e]) w))
    end.
Proof.
  unfold accept_eula, eula_key. unfold_M. cbn -[eula_content Path.div].
  destruct (FS.open_write _ _ _); reflexivity.
Qed.

Lemma create_default_properties_run (s : Server) (w : World) :
  create_default_properties (s, w)
  = match FS.open_write (fs w) (FS.key (cwd w) (Path.div (server_dir s) "server.properties"))
            (text_file default_props) with
    | Ok fs' => (Ok tt, (s, set_fs fs' w))
    | Raise e => (Raise e, (s, w))
    end.
Proof.
  unfold create_default_properties. unfold_M. cbn -[default_props Path.div].
  destruct (FS.open_write _ _ _); reflexivity.
Qed.

Lemma eula_content_accepts (t : Z) :
  Str.contains "eula=true" (Str.lower (eula_content t)) = true.
Proof.
  unfold eula_content. rewrite !lower_app. do 6 apply contains_app_r. reflexivity.
Qed.

Lemma get_java_command_run (s : Server) (w : World) (jar opts : string) :
  server_jar s = VStr jar -> java_opts s = VStr opts ->
  exists cmd, get_java_command (s, w) = (Ok cmd, (s, w)).
Proof.
  intros Hjar Hopts. unfold get_java_command, path_div_value. unfold_M.
  cbn -[Path.div Path.to_string Str.split value_in]. rewrite Hjar, Hopts.
  cbn -[Path.div Path.to_string Str.split value_in].
  destruct (negb _); cbn -[Path.div Path.to_string Str.split value_in];
    destruct (value_in _ _); eauto.
Qed.
Lemma popen_run (cmd : list string) (dir : path) (s : Server) (w : World) :
  popen cmd dir (s, w)
  = match spawn w with
    | Ok p => (Ok (MkPopen p None), (s, set_calls (calls w ++ [CPopen cmd dir]) w))
    | Raise e => (Raise e, (s, set_calls (calls w ++ [CPopen cmd dir]) w))
    end.
Proof. unfold popen. unfold_M. cbn. destruct (spawn w); reflexivity. Qed.

Lemma ensure_eula_run (s : Server) (w : World) :
  eula_accepted s w = Ok false ->
  can_write (fs w) (eula_key s w) = true ->
  exists w',
    ensure_eula (s, w) = (Ok true, (s, w'))
    /\ fs w' = <[eula_key s w := FS.Reg (text_file (eula_content (clock w)))]> (fs w)
    /\ host w' = host w /\ calls w' = calls w.
Proof.
  intros Heula Hwr. unfold ensure_eula. unfold_M. step.
  apply check_eula_accepted in Heula as [msg ->]. step.
  rewrite accept_eula_run. step. rewrite (can_write_open _ _ _ Hwr). step.
  eexists. split; [reflexivity|]. repeat split.
Qed.

Lemma ensure_properties_run (s : Server) (w : World) :
  let k := FS.key (cwd w) (Path.div (server_dir s) "server.properties") in
  FS.exists_ (fs w) k = Ok true \/ can_write (fs w) k = true ->
  exists w',
    ensure_properties (s, w) = (Ok tt, (s, w'))
    /\ (fs w' = fs w \/ fs w' = <[k := FS.Reg (text_file default_props)]> (fs w))
    /\ host w' = host w /\ calls w' = calls w.
Proof.
  intros k Hk. unfold ensure_properties. unfold_M. step. fold k.
  destruct (FS.exists_ (fs w) k) as [[]|e] eqn:Hex; step.
  - exists w. auto.
  - destruct Hk as [?|Hk]; [discriminate|].
    rewrite create_default_properties_run. step. fold k.
    rewrite (can_write_open _ _ _ Hk). step.
    eexists. split; [reflexivity|]. repeat split. right. reflexivity.
  - destruct Hk as [?|Hk]; [discriminate|]. exfalso.
    apply exists_raise in Hex as [Hn Hf].
    unfold can_write, FS.open_write, FS.create in Hk. rewrite Hn, Hf in Hk. discriminate.
Qed.

Lemma launch_run (cmd : list string) (s : Server) (w : World) :
  exists s' w',
    launch cmd (s, w)
    = (match spawn w with Ok _ => Ok true | Raise _ => Ok false end, (s', w'))
    /\ (fs w' = fs w
        \/ exists f, fs w' = <[FS.key (cwd w) (config_file s) := FS.Reg f]> (fs w))
    /\ host w' = host w
    /\ calls w' = (calls w ++ [CPopen cmd (server_dir s)])%list
    /\ server_dir s' = server_dir s
    /\ (forall p, spawn w = Ok p ->
        process s' = Some (MkPopen p None) /\ is_running s' = true).
Proof.
  unfold launch. unfold_M. step. rewrite popen_run.
  destruct (spawn w) as [p|e]; step.
  - rewrite save_config_run. step.
    destruct (FS.open_write _ _ _) as [fs'|e] eqn:Hw; step.
    + destruct (json_dump_fault _) as [e|]; step.
      * eexists _, _. split; [reflexivity|]. repeat split; eauto.
        injection H0 as <-. reflexivity.
      * eexists _, _. split; [reflexivity|]. repeat split; eauto.
        injection H0 as <-. reflexivity.
    + eexists _, _. split; [reflexivity|]. repeat split; auto.
      injection H0 as <-. reflexivity.
  - eexists _, _. split; [reflexivity|]. repeat split; auto; discriminate.
Qed.


(** C7. When [start_server] is called with an unaccepted licence marker
    (absent, unreadable or without [eula=true]) on a host where the rest
    of the launch can go on (Java is found, the artifact exists, the
    marker can be written, the properties file exists or can be created,
    and the launch options are a string), it writes a marker that
    contains [eula=true], after which the marker counts as accepted, and
    the launch proceeds to the [Popen] call, whose outcome is the result
    of [start_server].  And [check_eula] accepts exactly when the marker
    is a readable file whose lower-cased content contains [eula=true]. *)
Theorem start_server_accepts_eula (s : Server) (w : World) (jar opts : string) :
  java_found s w = true ->
  server_jar s = VStr jar ->
  FS.exists_ (fs w) (FS.key (cwd w) (Path.div (server_dir s) jar)) = Ok true ->
  java_opts s = VStr opts ->
  Path.name (config_file s) = "server_launcher.json" ->
  eula_accepted s w = Ok false ->
  can_write (fs w) (eula_key s w) = true ->
  FS.exists_ (fs w) (FS.key (cwd w) (Path.div (server_dir s) "server.properties"))
  = Ok true
  \/ can_write (fs w) (FS.key (cwd w) (Path.div (server_dir s) "server.properties"))
     = true ->
  let '(r, (s', w')) := start_server (s, w) in
    fs w' !! eula_key s w = Some (FS.Reg (text_file (eula_content (clock w))))
    /\ eula_accepted s' w' = Ok true
    /\ (exists cmd, In (CPopen cmd (server_dir s)) (calls w'))
    /\ r = match spawn w with Ok _ => Ok true | Raise _ => Ok false end
    /\ (forall p, spawn w = Ok p ->
        process s' = Some (MkPopen p None) /\ is_running s' = true)
    /\ (forall s0 w0,
        eula_accepted s0 w0 = Ok true <->
        exists f content,
          fs w0 !! eula_key s0 w0 = Some (FS.Reg f)
          /\ FS.f_text f = Some content
          /\ Str.contains "eula=true" (Str.lower content) = true).
Proof.
  intros Hjava Hjar Hex Hopts Hcfg Heula Hwr Hprops.
  assert (Hke : eula_key s w = (FS.key (cwd w) (server_dir s) ++ ["eula.txt"])%list)
    by (apply key_div_name; reflexivity).
  assert (Hkp : FS.key (cwd w) (Path.div (server_dir s) "server.properties")
                = (FS.key (cwd w) (server_dir s) ++ ["server.properties"])%list)
    by (apply key_div_name; reflexivity).
  destruct (config_key_last s (cwd w) Hcfg) as [lc Hkc].
  assert (Hne_ep : eula_key s w
                   <> FS.key (cwd w) (Path.div (server_dir s) "server.properties")).
  { rewrite Hke, Hkp. apply last_snoc_ne. discriminate. }
  assert (Hne_ec : eula_key s w <> FS.key (cwd w) (config_file s)).
  { rewrite Hke, Hkc. apply last_snoc_ne. discriminate. }
  unfold start_server.
  destruct (check_java_found _ _ Hjava) as [msgs Hcj].
  rewrite (bind_ok _ _ _ _ _ Hcj). cbn [negb].
  unfold_M. step. rewrite Hjar. step. rewrite Hex. step.
  match goal with |- context [ensure_eula (s, ?w0)] => set (w1 := w0) end.
  destruct (ensure_eula_run s w1) as (w2 & Hrun2 & Hfs2 & Hh2 & Hc2);
    [rewrite <- Heula; apply eula_accepted_frame; reflexivity | exact Hwr |].
  rewrite Hrun2. step.
  change (fs w1) with (fs w) in Hfs2. change (eula_key s w1) with (eula_key s w) in Hfs2.
  change (clock w1) with (clock w) in Hfs2. change (host w1) with (host w) in Hh2.
  assert (Hcwd2 : cwd w2 = cwd w) by (injection Hh2; auto).
  destruct (ensure_properties_run s w2) as (w3 & Hrun3 & Hfs3 & Hh3 & Hc3).
  { assert (Hlen : (length (FS.key (cwd w) (Path.div (server_dir s) "server.properties"))
                      <= length (eula_key s w))%nat)
      by (rewrite Hke, Hkp, !length_app; cbn; lia).
    cbn zeta. rewrite Hcwd2, Hfs2, exists_insert_ne by assumption.
    rewrite can_write_insert_ne; [exact Hprops|exact Hne_ep| |exact Hlen].
    rewrite Hkp, removelast_last, Hke. intros Heq. symmetry in Heq.
    apply snoc_ne_self in Heq. exact Heq. }
  rewrite Hrun3. step.
  destruct (get_java_command_run s w3 jar opts Hjar Hopts) as [cmd Hrun4].
  rewrite Hrun4. step.
  match goal with |- context [launch cmd (s, ?w0)] => set (w4 := w0) end.
  destruct (launch_run cmd s w4) as (s5 & w5 & Hrun5 & Hfs5 & Hh5 & Hc5 & Hsd5 & Hp5).
  rewrite Hrun5.
  assert (Hcwd3 : cwd w3 = cwd w) by (injection Hh3; intros; congruence).
  assert (Hsp : spawn w4 = spawn w).
  { change (spawn w4) with (spawn w3). injection Hh3; injection Hh2; intros; congruence. }
  assert (Hlook : fs w5 !! eula_key s w
                  = Some (FS.Reg (text_file (eula_content (clock w))))).
  { assert (Hl3 : fs w3 !! eula_key s w
                  = Some (FS.Reg (text_file (eula_content (clock w))))).
    { destruct Hfs3 as [->| ->]; rewrite ?Hcwd2, ?lookup_insert_ne by congruence;
        rewrite Hfs2; apply lookup_insert_eq. }
    change (fs w4) with (fs w3) in Hfs5. change (cwd w4) with (cwd w3) in Hfs5.
    destruct Hfs5 as [->|[f ->]]; [exact Hl3|].
    rewrite Hcwd3, lookup_insert_ne by congruence. exact Hl3. }
  split; [exact Hlook|]. split; [|split; [|split; [|split; [|exact check_eula_spec]]]].
  - apply check_eula_spec. exists (text_file (eula_content (clock w))), (eula_content (clock w)).
    split; [|split; [reflexivity|apply eula_content_accepts]].
    unfold eula_key in *. rewrite Hsd5.
    replace (cwd w5) with (cwd w); [exact Hlook|].
    injection Hh5; intros; change (cwd w4) with (cwd w3) in *; congruence.
  - exists cmd. rewrite Hc5. apply in_or_app. right. left. reflexivity.
  - rewrite Hsp. reflexivity.
  - intros p Hp. apply Hp5. rewrite Hsp. exact Hp.
Qed.

End Launch.

Lemma start_server_accepts_eula_witness :
  let '(r, (s', w')) := @start_server sample_lib (paper_server, sample_world paper_fs) in
  eula_accepted paper_server (sample_world paper_fs) = Ok false
  /\ eula_accepted s' w' = Ok true
  /\ r = Ok true.
Proof.
  pose proof (@start_server_accepts_eula sample_lib paper_server (sample_world paper_fs)
                "paper-1.21.4.jar" "-Xmx2048M -Xms2048M") as Hstart.
  destruct (@start_server sample_lib (paper_server, sample_world paper_fs))
    as [r [s' w']].
  destruct Hstart as (_ & Hacc & _ & Hr & _); try (vm_compute; reflexivity).
  - right. vm_compute; reflexivity.
  - split; [vm_compute; reflexivity|]. split; [exact Hacc|exact Hr].
Defined.

(** C2. On an empty server directory the constructor leaves the artifact
    name empty, and [start_server] then does not fail with the
    missing-artifact message: the artifact path is the directory itself,
    which exists, so the marker and the properties file are written and
    [java -jar /srv/mc nogui] is spawned. *)
Theorem start_server_empty_artifact :
  let '(r0, (s, w)) := @UniversalServer sample_lib "/srv/mc" (sample_world empty_dir_fs) in
  r0 = Ok tt /\ s = sample_server /\ server_jar s = VStr "" /\
  let '(r, (s', w')) := @start_server sample_lib (s, w) in
  r = Ok true /\ process s' = Some (MkPopen 4242 None) /\ is_running s' = true /\
  calls w' = [ CRun ["java"; "-version"];
               CPopen ["java"; "-Xmx2048M"; "-Xms2048M"; "-jar"; "/srv/mc"; "nogui"]
                 (Path.Make "/" ["srv"; "mc"]) ] /\
  console w' = [ MsgEulaWarning "EULA文件不存在"; MsgEulaAutoAccept;
                 MsgCreateProperties; MsgStarting; MsgCoreType (VStr "unknown");
                 MsgVersion (VStr "");
                 MsgCommand ["java"; "-Xmx2048M"; "-Xms2048M"; "-jar"; "/srv/mc"; "nogui"];
                 MsgStarted 4242 ].
Proof. vm_compute. repeat split. Qed.

(** ** Paths and their strings *)

Lemma no_slash_cons (c : ascii) (n : string) :
  Str.contains "/" (String c n) = false ->
  Ascii.eqb c "/" = false /\ Str.contains "/" n = false.
Proof.
  rewrite contains_cons. intros Hn. apply orb_false_iff in Hn as [Hc Hn].
  split; [|exact Hn]. unfold Str.startswith in Hc. cbn in Hc.
  destruct (ascii_dec "/" c) as [<-|Hne].
  - destruct n; discriminate.
  - apply Ascii.eqb_neq. congruence.
Qed.

Lemma string_of_list_ascii_snoc (l : list ascii) (n : string) :
  string_of_list_ascii (l ++ list_ascii_of_string n) = string_of_list_ascii l +:+ n.
Proof.
  induction l as [|a l IH]; cbn.
  - apply string_of_list_ascii_of_string.
  - rewrite IH. reflexivity.
Qed.

Lemma append_empty_r (u : string) : u +:+ "" = u.
Proof.
  induction u as [|a u IH]; [reflexivity|].
  change (String a u +:+ "") with (String a (u +:+ "")). rewrite IH. reflexivity.
Qed.

Lemma pieces_from_name (n : string) : forall (cur : list ascii) (rest : string),
  Str.contains "/" n = false ->
  Path.pieces_from cur (n +:+ String "/" rest)
  = (string_of_list_ascii (rev cur) +:+ n) :: Path.pieces_from [] rest.
Proof.
  induction n as [|c n IH]; intros cur rest Hn.
  - change ("" +:+ String "/" rest) with (String "/" rest).
    cbn [Path.pieces_from]. rewrite append_empty_r. reflexivity.
  - apply no_slash_cons in Hn as [Hc Hn].
    change (String c n +:+ String "/" rest) with (String c (n +:+ String "/" rest)).
    cbn [Path.pieces_from]. rewrite Hc, (IH _ _ Hn). f_equal.
    cbn [rev]. rewrite <- (string_of_list_ascii_snoc (rev cur ++ [c]) n).
    rewrite <- (string_of_list_ascii_snoc (rev cur) (String c n)).
    f_equal. rewrite <- app_assoc. reflexivity.
Qed.

Lemma pieces_from_last (n : string) : forall (cur : list ascii),
  Str.contains "/" n = false ->
  Path.pieces_from cur n = [string_of_list_ascii (rev cur) +:+ n].
Proof.
  induction n as [|c n IH]; intros cur Hn.
  - cbn [Path.pieces_from]. rewrite append_empty_r. reflexivity.
  - apply no_slash_cons in Hn as [Hc Hn].
    cbn [Path.pieces_from]. rewrite Hc, (IH _ Hn). f_equal.
    cbn [rev]. rewrite <- (string_of_list_ascii_snoc (rev cur ++ [c]) n).
    rewrite <- (string_of_list_ascii_snoc (rev cur) (String c n)).
    f_equal. rewrite <- app_assoc. reflexivity.
Qed.

Lemma pieces_join (ns : list string) :
  ns <> [] ->
  forallb Path.wf_name ns = true ->
  Path.pieces_from [] (Str.join "/" ns) = ns.
Proof.
  induction ns as [|n ns IH]; [congruence|]. intros _ Hwf.
  cbn [forallb] in Hwf. apply andb_true_iff in Hwf as [Hn Hwf].
  unfold Path.wf_name in Hn. apply andb_true_iff in Hn as [_ Hn].
  apply negb_true_iff in Hn.
  destruct ns as [|n' ns].
  - cbn [Str.join]. rewrite (pieces_from_last _ _ Hn). reflexivity.
  - change (Str.join "/" (n :: n' :: ns)) with (n +:+ String "/" (Str.join "/" (n' :: ns))).
    rewrite (pieces_from_name _ _ _ Hn), IH by (congruence || exact Hwf). reflexivity.
Qed.

Lemma filter_keep_wf (ns : list string) :
  forallb Path.wf_name ns = true ->
  filter (fun n => Is_true (Path.keep_name n)) ns = ns.
Proof.
  induction ns as [|n ns IH]; [reflexivity|]. cbn [forallb]. intros Hwf.
  apply andb_true_iff in Hwf as [Hn Hwf].
  apply andb_true_iff in Hn as [Hn _].
  rewrite filter_cons_True by (apply Is_true_true; exact Hn).
  rewrite (IH Hwf). reflexivity.
Qed.

Lemma join_head (n : string) (ns : list string) :
  Path.wf_name n = true ->
  exists c j, Str.join "/" (n :: ns) = String c j /\ Ascii.eqb c "/" = false.
Proof.
  intros Hn. apply andb_true_iff in Hn as [Hk Hs]. apply negb_true_iff in Hs.
  destruct n as [|c n]; [discriminate|].
  apply no_slash_cons in Hs as [Hc _].
  destruct ns as [|n' ns]; [exists c, n; auto|].
  exists c, (n +:+ "/" +:+ Str.join "/" (n' :: ns)). split; [reflexivity|exact Hc].
Qed.

Lemma pieces_from_slash (cur : list ascii) (rest : string) :
  Path.pieces_from cur (String "/" rest)
  = string_of_list_ascii (rev cur) :: Path.pieces_from [] rest.
Proof. reflexivity. Qed.

(** [Path(str(p))] is [p]. *)
Lemma of_string_to_string (p : path) :
  Path.wf p = true -> Path.of_string (Path.to_string p) = p.
Proof.
  destruct p as [r ns]. unfold Path.wf. cbn [Path.root Path.names].
  intros Hwf. apply andb_true_iff in Hwf as [Hr Hns].
  assert (Hroot : r = "" \/ r = "/" \/ r = "//").
  { cbn in Hr. repeat (apply orb_true_iff in Hr as [Hr|Hr];
      [apply String.eqb_eq in Hr; auto|]). discriminate. }
  destruct ns as [|n ns].
  - destruct Hroot as [->|[->| ->]]; reflexivity.
  - cbv beta iota zeta delta [Path.to_string Path.of_string Path.names Path.root].
    assert (Hp : Path.pieces_from [] (Str.join "/" (n :: ns)) = n :: ns)
      by (apply pieces_join; [discriminate|exact Hns]).
    assert (Hn : Path.wf_name n = true)
      by (cbn [forallb] in Hns; apply andb_true_iff in Hns as [? _]; assumption).
    destruct (join_head n ns Hn) as (c & j & Hj & Hc).
    assert (Hc' : forall (A : Type) (x y : A), (if ascii_dec "/" c then x else y) = y).
    { intros A x y. destruct (ascii_dec "/" c) as [<-|]; [discriminate|reflexivity]. }
    rewrite Hj in *.
    destruct Hroot as [->|[->| ->]].
    + change ("" +:+ String c j) with (String c j).  rewrite Hp.
      unfold Str.startswith. cbn [String.prefix]. rewrite !Hc'.
      rewrite (filter_keep_wf _ Hns). reflexivity.
    + change ("/" +:+ String c j) with (String "/" (String c j)).
      rewrite !pieces_from_slash, Hp. unfold Str.startswith.
      cbn -[filter]. rewrite !Hc'.
      rewrite filter_cons_False by (cbn; tauto).
      rewrite (filter_keep_wf _ Hns). reflexivity.
    + change ("//" +:+ String c j) with (String "/" (String "/" (String c j))).
      rewrite !pieces_from_slash, Hp. unfold Str.startswith.
      cbn -[filter]. rewrite !Hc'.
      rewrite !filter_cons_False by (cbn; tauto).
      rewrite (filter_keep_wf _ Hns). reflexivity.
Qed.

Lemma no_slash_of_list (l : list ascii) :
  Forall (fun c => Ascii.eqb c "/" = false) l ->
  Str.contains "/" (string_of_list_ascii l) = false.
Proof.
  induction 1 as [|c l Hc _ IH]; [reflexivity|].
  cbn [string_of_list_ascii]. rewrite contains_cons, IH.
  unfold Str.startswith. cbn [String.prefix].
  destruct (ascii_dec "/" c) as [<-|_]; [discriminate|reflexivity].
Qed.

Lemma pieces_no_slash (s : string) : forall cur : list ascii,
  Forall (fun c => Ascii.eqb c "/" = false) cur ->
  Forall (fun n => Str.contains "/" n = false) (Path.pieces_from cur s).
Proof.
  induction s as [|c s IH]; intros cur Hcur; cbn [Path.pieces_from].
  - constructor; [|constructor]. apply no_slash_of_list, Forall_rev, Hcur.
  - destruct (Ascii.eqb c "/") eqn:Hc.
    + constructor; [apply no_slash_of_list, Forall_rev, Hcur|].
      apply IH. constructor.
    + apply IH. constructor; assumption.
Qed.

(** Every path read from a string is well formed. *)
Lemma of_string_wf (s : string) : Path.wf (Path.of_string s) = true.
Proof.
  unfold Path.wf, Path.of_string. cbn [Path.root Path.names].
  apply andb_true_iff. split.
  - destruct (Str.startswith "///" s); [reflexivity|].
    destruct (Str.startswith "//" s); [reflexivity|].
    destruct (Str.startswith "/" s); reflexivity.
  - apply forallb_forall. intros n Hn. apply list_elem_of_In in Hn.
    apply list_elem_of_filter in Hn as [Hkeep Hin].
    unfold Path.wf_name. apply andb_true_iff. split.
    + apply Is_true_true. exact Hkeep.
    + apply negb_true_iff.
      pose proof (pieces_no_slash s [] ltac:(constructor)) as Hall.
      rewrite Forall_forall in Hall. apply Hall. exact Hin.
Qed.

(** ** The round trip of the profile *)

Section RoundTrip.
Context `{PyLib}.

Lemma load_config_saved (s0 s : Server) (w : World) (t : Z) :
  Path.wf (server_dir s) = true ->
  fs w !! FS.key (cwd w) (config_file s0)
  = Some (FS.Reg (json_file (VDict (saved_record s t)))) ->
  load_config (s0, w)
  = (Ok tt,
     (set_mirror_site (mirror_site s)
        (set_minecraft_version (minecraft_version s)
           (set_core_type (core_type s)
              (set_java_opts (java_opts s)
                 (set_server_jar (server_jar s)
                    (set_server_dir (server_dir s) s0))))), w)).
Proof.
  intros Hwf Hfile. unfold load_config, path_exists. unfold_M.
  cbn -[FS.key Path.to_string Path.of_string lookup FS.exists_ FS.open_read].
  unfold FS.exists_, FS.open_read.
  rewrite !Hfile. cbn -[FS.key Path.to_string Path.of_string lookup].
  rewrite !Hfile. cbn -[FS.key Path.to_string Path.of_string lookup].
  rewrite (of_string_to_string _ Hwf). reflexivity.
Qed.

(** Whether [json.dump] raises on the record of an object does not
    depend on the time of the save. *)
Lemma saved_record_dumps (s : Server) (t t' : Z) :
  json_dump_fault (VDict (saved_record s t)) = None ->
  json_dump_fault (VDict (saved_record s t')) = None.
Proof.
  unfold json_dump_fault, saved_record.
  repeat match goal with
         | |- context [json_value_fault ?v] =>
             lazymatch v with
             | VStr (isoformat _) => fail
             | _ => destruct (json_value_fault v); [discriminate|]
             end
         end.
  rewrite !isoformat_dumps. reflexivity.
Qed.

(** C6. After a successful [save_config()] of an object [s], the profile
    file holds the record of [s]; a [load_config] from that file, by any
    object with the same profile file and at any later time, recovers
    [server_dir], [server_jar], [java_opts], [core_type],
    [minecraft_version] and [mirror_site] of [s] and changes nothing in
    the world; and saving again after that load succeeds and writes the same
    record up to [last_modified]: equal on every other key, and the very
    same file when the time stamp has the same text. *)
Theorem profile_round_trip (s : Server) (w : World) :
  Path.wf (server_dir s) = true ->
  fst (save_config None (s, w)) = Ok true ->
  let w1 := snd (snd (save_config None (s, w))) in
  config_record s w1 = Some (saved_record s (clock w))
  /\ forall (s0 : Server) (t2 : Z),
      config_file s0 = config_file s ->
      let '(r, (s2, w2)) := load_config (s0, set_clock t2 w1) in
      r = Ok tt /\ w2 = set_clock t2 w1
      /\ server_dir s2 = server_dir s
      /\ server_jar s2 = server_jar s
      /\ java_opts s2 = java_opts s
      /\ core_type s2 = core_type s
      /\ minecraft_version s2 = minecraft_version s
      /\ mirror_site s2 = mirror_site s
      /\ let '(r3, (s3, w3)) := save_config None (s2, w2) in
         r3 = Ok true /\ s3 = s2
         /\ config_record s3 w3 = Some (saved_record s t2)
         /\ (forall k, k <> "last_modified" ->
             Dict.get (saved_record s t2) k = Dict.get (saved_record s (clock w)) k)
         /\ (isoformat t2 = isoformat (clock w) -> fs w3 = fs w1).
Proof.
  intros Hwf. rewrite save_config_run. cbv zeta.
  destruct (FS.open_write _ _ _) as [fs0|e] eqn:Hw; [|discriminate].
  destruct (json_dump_fault _) as [e|] eqn:Hd; [discriminate|]. intros _.
  cbn [snd fst].
  set (fs1 := <[FS.key (cwd w) (config_file s)
                := FS.Reg (json_file (VDict (saved_record s (clock w))))]> (fs w)).
  assert (Hl1 : fs1 !! FS.key (cwd w) (config_file s)
                = Some (FS.Reg (json_file (VDict (saved_record s (clock w))))))
    by apply lookup_insert_eq.
  split.
  { unfold config_record. cbn. rewrite Hl1. reflexivity. }
  intros s0 t2 Hcf.
  rewrite (load_config_saved s0 s _ (clock w) Hwf)
    by (cbn; rewrite Hcf; exact Hl1).
  repeat (split; [reflexivity|]).
  rewrite save_config_run. cbv zeta.
  match goal with
  | |- context [saved_record ?s2 ?t] =>
      change (saved_record s2 t) with (saved_record s t2)
  end.
  cbn [cwd fs clock set_clock set_fs config_file set_mirror_site
       set_minecraft_version set_core_type set_java_opts set_server_jar
       set_server_dir console].
  rewrite Hcf. unfold FS.open_write at 1. rewrite Hl1.
  rewrite (saved_record_dumps s _ t2 Hd).
  split; [reflexivity|]. split; [reflexivity|]. split; [|split].
  - unfold config_record.
    cbn [cwd fs clock set_clock set_fs config_file set_mirror_site
         set_minecraft_version set_core_type set_java_opts set_server_jar
         set_server_dir console].
    rewrite Hcf, lookup_insert_eq. reflexivity.
  - intros k Hne. unfold saved_record, Dict.get.
    repeat match goal with
           | |- context [String.eqb ?a k] => destruct (String.eqb_spec a k); [reflexivity || congruence|]
           end.
    reflexivity.
  - intros Hiso. cbn [fs set_fs]. unfold saved_record. rewrite Hiso.
    apply insert_id. exact Hl1.
Qed.
End RoundTrip.

Lemma profile_round_trip_witness :
  let w1 := snd (snd (@save_config sample_lib None
                        (sample_server, sample_world empty_dir_fs))) in
  config_record sample_server w1
  = Some (@saved_record sample_lib sample_server (clock (sample_world empty_dir_fs)))
  /\ fst (@load_config sample_lib (paper_server, set_clock 2000 w1)) = Ok tt
  /\ server_jar (fst (snd (@load_config sample_lib (paper_server, set_clock 2000 w1))))
     = VStr "".
Proof.
  intros w1.
  destruct (@profile_round_trip sample_lib sample_server (sample_world empty_dir_fs))
    as [Hrec Hload]; [vm_compute; reflexivity | vm_compute; reflexivity |].
  split; [exact Hrec|].
  specialize (Hload paper_server 2000%Z eq_refl). fold w1 in Hload.
  destruct (@load_config sample_lib (paper_server, set_clock 2000 w1)) as [r [s2 w2]].
  destruct Hload as (Hr & _ & _ & Hjar & _). split; [exact Hr|exact Hjar].
Defined.

(** ** Stopping: what every path keeps *)

Lemma same_handle_refl s : same_handle s s.
Proof. split; [destruct s; reflexivity|reflexivity]. Qed.

Lemma same_handle_trans s1 s2 s3 :
  same_handle s1 s2 -> same_handle s2 s3 -> same_handle s1 s3.
Proof.
  intros [H1 P1] [H2 P2]. split; [|congruence].
  transitivity (set_process (process s3) s2); [exact H2|]. rewrite H1. reflexivity.
Qed.

Lemma stays_refl st : stays st st.
Proof. split; [apply same_handle_refl|split; reflexivity]. Qed.

Lemma stays_world s w w' :
  fs w' = fs w -> cwd w' = cwd w -> stays (s, w) (s, w').
Proof. intros Hf Hd. split; [apply same_handle_refl|split; assumption]. Qed.

Lemma stays_trans st1 st2 st3 : stays st1 st2 -> stays st2 st3 -> stays st1 st3.
Proof.
  intros (H1 & F1 & C1) (H2 & F2 & C2).
  split; [eapply same_handle_trans; eassumption|]. split; congruence.
Qed.

Lemma stays_some s w s' w' :
  stays (s, w) (s', w') -> process s <> None -> process s' <> None.
Proof.
  intros [[_ Hp] _] Hs Hn. cbn in Hp. rewrite Hn in Hp.
  destruct (process s); [discriminate|congruence].
Qed.

Lemma stays_pid s w s' w' :
  stays (s, w) (s', w') -> option_map pid (process s') = option_map pid (process s).
Proof. intros [[_ Hp] _]. exact Hp. Qed.

Lemma terminations_app (cs1 cs2 : list call) :
  terminations (cs1 ++ cs2) = (terminations cs1 + terminations cs2)%nat.
Proof. unfold terminations. rewrite List.filter_app, length_app. reflexivity. Qed.

Lemma refused_app (a b : list (option exn)) :
  refused (a ++ b) = match refused a with Some e => Some e | None => refused b end.
Proof. induction a as [|[e|] a IH]; cbn; auto. Qed.

Lemma keeps_sound {A} (m : M A) :
  keeps m -> (forall st e, fst (m st) <> Raise e) -> sound m.
Proof.
  intros Hm Hok s w Hp. specialize (Hm s w Hp). specialize (Hok (s, w)).
  destruct (m (s, w)) as [r [s' w']]. destruct Hm as (Hs & cs & Hc & Hn & Hf).
  split; [exact Hs|]. exists cs. rewrite Hn. cbn [take drop].
  split; [exact Hc|]. split; [exact Hf|].
  destruct r as [a|e]; [reflexivity|]. exfalso. apply (Hok e). reflexivity.
Qed.

Lemma sound_ret {A} (a : A) : sound (mret a).
Proof.
  intros s w _. cbn. split; [apply stays_refl|]. exists [].
  rewrite app_nil_r. repeat split.
Qed.

Lemma keeps_ret {A} (a : A) : keeps (mret a).
Proof.
  intros s w _. cbn. split; [apply stays_refl|]. exists [].
  rewrite app_nil_r. repeat split.
Qed.

Lemma sound_bind {A B} (m : M A) (f : A -> M B) :
  sound m -> (forall a, sound (f a)) -> sound (m ≫= f).
Proof.
  intros Hm Hf s w Hp. unfold mbind, M_bind. specialize (Hm s w Hp).
  destruct (m (s, w)) as [[a|e] [s1 w1]]; destruct Hm as (Hs1 & cs1 & Hc1 & Hd1 & Hr1).
  - specialize (Hf a s1 w1 (stays_some _ _ _ _ Hs1 Hp)).
    destruct (f a (s1, w1)) as [r [s2 w2]]. destruct Hf as (Hs2 & cs2 & Hc2 & Hd2 & Hr2).
    split; [eapply stays_trans; eassumption|].
    exists (cs1 ++ cs2)%list. rewrite terminations_app.
    split; [rewrite Hc2, Hc1, app_assoc; reflexivity|].
    split; [rewrite Hd2, Hd1, drop_drop; reflexivity|].
    rewrite <- take_take_drop, refused_app, Hr1, <- Hd1. exact Hr2.
  - split; [exact Hs1|]. exists cs1. auto.
Qed.

Lemma keeps_bind {A B} (m : M A) (f : A -> M B) :
  keeps m -> (forall a, keeps (f a)) -> keeps (m ≫= f).
Proof.
  intros Hm Hf s w Hp. unfold mbind, M_bind. specialize (Hm s w Hp).
  destruct (m (s, w)) as [[a|e] [s1 w1]]; destruct Hm as (Hs1 & cs1 & Hc1 & Hn1 & Hd1).
  - specialize (Hf a s1 w1 (stays_some _ _ _ _ Hs1 Hp)).
    destruct (f a (s1, w1)) as [r [s2 w2]]. destruct Hf as (Hs2 & cs2 & Hc2 & Hn2 & Hd2).
    split; [eapply stays_trans; eassumption|].
    exists (cs1 ++ cs2)%list. rewrite terminations_app, Hn1, Hn2.
    split; [rewrite Hc2, Hc1, app_assoc; reflexivity|].
    split; [reflexivity|congruence].
  - split; [exact Hs1|]. exists cs1. auto.
Qed.

(** An exception of a computation that makes no termination call,
    caught by a handler that is sound, is gone. *)
Lemma sound_try {A} (m : M A) (h : exn -> M A) :
  keeps m -> (forall e, sound (h e)) -> sound (try_except m h).
Proof.
  intros Hm Hh s w Hp. unfold try_except. specialize (Hm s w Hp).
  destruct (m (s, w)) as [[a|e] [s1 w1]]; destruct Hm as (Hs1 & cs1 & Hc1 & Hn1 & Hd1).
  - split; [exact Hs1|]. exists cs1. rewrite Hn1. cbn [take drop]. auto.
  - specialize (Hh e s1 w1 (stays_some _ _ _ _ Hs1 Hp)).
    destruct (h e (s1, w1)) as [r [s2 w2]]. destruct Hh as (Hs2 & cs2 & Hc2 & Hd2 & Hr2).
    split; [eapply stays_trans; eassumption|].
    exists (cs1 ++ cs2)%list. rewrite terminations_app, Hn1. cbn [Nat.add].
    split; [rewrite Hc2, Hc1, app_assoc; reflexivity|].
    rewrite <- Hd1. auto.
Qed.

Lemma keeps_update_world (f : World -> World) :
  (forall w, signal_faults (f w) = signal_faults w) ->
  (forall w, fs (f w) = fs w) ->
  (forall w, cwd (f w) = cwd w) ->
  (forall w, exists c, calls (f w) = (calls w ++ c)%list /\ terminations c = 0%nat) ->
  keeps (update_world f).
Proof.
  intros Hf Hfs Hcwd Hcalls s w _. cbn.
  split; [split; [apply same_handle_refl|split; [apply Hfs|apply Hcwd]]|].
  destruct (Hcalls w) as (c & Hc & Hn). exists c. auto.
Qed.

Lemma keeps_print m : keeps (print m).
Proof.
  apply keeps_update_world; try reflexivity.
  intros w. exists []. rewrite app_nil_r. split; reflexivity.
Qed.

Lemma keeps_log_call c : is_termination c = false -> keeps (log_call c).
Proof.
  intros Hc. apply keeps_update_world; try reflexivity.
  intros w. exists [c]. split; [reflexivity|]. unfold terminations. cbn. rewrite Hc. reflexivity.
Qed.

Lemma keeps_get_self : keeps get_self.
Proof.
  intros s w _. cbn. split; [apply stays_refl|]. exists [].
  rewrite app_nil_r. repeat split.
Qed.

Lemma keeps_sleep n : keeps (sleep n).
Proof.
  unfold sleep. apply keeps_bind; [apply keeps_log_call; reflexivity|]. intros _.
  apply keeps_update_world; try reflexivity.
  intros w. exists []. rewrite app_nil_r. split; reflexivity.
Qed.

Lemma keeps_poll : keeps poll.
Proof.
  intros s w Hp. unfold poll. unfold_M. cbn.
  destruct (process s) as [p|] eqn:Hproc; [|congruence].
  destruct (returncode p) as [rc|]; cbn.
  - split; [apply stays_world; reflexivity|]. exists [CPoll (Some rc)]. repeat split.
  - split.
    + split; [|split; reflexivity].
      split; [destruct s; reflexivity|]. cbn. rewrite Hproc. reflexivity.
    + eexists [_]. repeat split.
Qed.

Lemma poll_returns (st : Server * World) (e : exn) :
  process (fst st) <> None -> fst (poll st) <> Raise e.
Proof.
  destruct st as [s w]. cbn. intros Hp. unfold poll. unfold_M. cbn.
  destruct (process s) as [p|]; [|congruence].
  destruct (returncode p); cbn; discriminate.
Qed.

Lemma sound_of_keeps {A} (m : M A) :
  keeps m -> (forall s w e, process s <> None -> fst (m (s, w)) <> Raise e) -> sound m.
Proof.
  intros Hm Hok s w Hp. specialize (Hm s w Hp). specialize (Hok s w).
  destruct (m (s, w)) as [r [s' w']]. destruct Hm as (Hs & cs & Hc & Hn & Hf).
  split; [exact Hs|]. exists cs. rewrite Hn. cbn [take drop].
  split; [exact Hc|]. split; [exact Hf|].
  destruct r as [a|e]; [reflexivity|]. exfalso. apply (Hok e Hp). reflexivity.
Qed.

Lemma sound_print m : sound (print m).
Proof. apply keeps_sound; [apply keeps_print|]. intros st e. cbn. discriminate. Qed.

Lemma sound_get_self : sound get_self.
Proof. apply keeps_sound; [apply keeps_get_self|]. intros st e. cbn. discriminate. Qed.

Lemma sound_sleep n : sound (sleep n).
Proof. apply keeps_sound; [apply keeps_sleep|]. intros st e. cbn. discriminate. Qed.

Lemma sound_poll : sound poll.
Proof.
  apply sound_of_keeps; [apply keeps_poll|].
  intros s w e Hp. apply (poll_returns (s, w) e Hp).
Qed.

Lemma sound_signal_op c : is_termination c = true -> sound (signal_op c).
Proof.
  intros Hc s w Hp. unfold signal_op. unfold_M. cbn.
  assert (Hn : terminations [c] = 1%nat) by (unfold terminations; cbn; rewrite Hc; reflexivity).
  destruct (signal_faults w) as [|[e|] l] eqn:Hl; cbn;
    (split; [apply stays_world; reflexivity|]); exists [c]; rewrite Hn; repeat split.
Qed.

Lemma keeps_stdin_op c : is_termination c = false -> keeps (stdin_op c).
Proof.
  intros Hc s w Hp. unfold stdin_op. unfold_M. cbn.
  assert (Hn : terminations [c] = 0%nat) by (unfold terminations; cbn; rewrite Hc; reflexivity).
  destruct (stdin_faults w) as [|[e|] l]; cbn;
    (split; [apply stays_world; reflexivity|]; exists [c]; repeat split; exact Hn).
Qed.

Lemma sound_send_command cmd : sound (send_command cmd).
Proof.
  unfold send_command. apply sound_bind; [apply sound_get_self|]. intros s0.
  apply sound_bind.
  - destruct (process s0); [|apply sound_ret].
    apply sound_bind; [apply sound_poll|]. intros r. apply sound_ret.
  - intros alive. destruct alive.
    + apply sound_try.
      * apply keeps_bind; [apply keeps_stdin_op; reflexivity|]. intros _.
        apply keeps_bind; [apply keeps_stdin_op; reflexivity|]. intros _.
        apply keeps_ret.
      * intros e. apply sound_bind; [apply sound_print|]. intros _. apply sound_ret.
    + apply sound_bind; [apply sound_print|]. intros _. apply sound_ret.
Qed.

Lemma sound_wait_for_exit n : sound (wait_for_exit n).
Proof.
  induction n as [|n IH]; cbn [wait_for_exit]; [apply sound_ret|].
  apply sound_bind; [apply sound_poll|]. intros [rc|]; [apply sound_ret|].
  apply sound_bind; [apply sound_sleep|]. intros _. exact IH.
Qed.

Lemma sound_terminate_or_kill : sound terminate_or_kill.
Proof.
  unfold terminate_or_kill. apply sound_bind; [apply sound_get_self|]. intros s0.
  destruct (is_windows s0); apply sound_signal_op; reflexivity.
Qed.

Lemma sound_taskkill_or_kill : sound taskkill_or_kill.
Proof.
  intros s w Hp. unfold taskkill_or_kill. unfold mbind, M_bind, get_self. cbn [fst snd].
  destruct (is_windows s).
  - destruct (process s) as [p|] eqn:Hproc; [|congruence].
    apply (sound_signal_op (CRun ["taskkill"; "/F"; "/PID"; pretty (pid p)]) eq_refl s w).
    congruence.
  - apply (sound_signal_op CKill eq_refl s w Hp).
Qed.

Lemma sound_request_stop : sound request_stop.
Proof.
  unfold request_stop. apply sound_bind; [apply sound_print|]. intros _.
  apply sound_bind; [apply sound_send_command|]. intros _. apply sound_wait_for_exit.
Qed.

Lemma sound_terminate_if_running force : sound (terminate_if_running force).
Proof.
  unfold terminate_if_running. apply sound_bind; [apply sound_poll|].
  intros [rc|]; [apply sound_ret|]. destruct force.
  - apply sound_bind; [apply sound_print|]. intros _.
    apply sound_bind; [apply sound_terminate_or_kill|]. intros _.
    apply sound_bind; [apply sound_sleep|]. intros _.
    apply sound_bind; [apply sound_poll|]. intros [rc|]; [apply sound_ret|].
    apply sound_taskkill_or_kill.
  - apply sound_bind; [apply sound_print|]. intros _. apply sound_terminate_or_kill.
Qed.

(** A poll with a handle returns. *)
Lemma poll_ok (s : Server) (w : World) :
  process s <> None ->
  exists a s' w',
    poll (s, w) = (Ok a, (s', w'))
    /\ stays (s, w) (s', w')
    /\ signal_faults w' = signal_faults w.
Proof.
  intros Hp. unfold poll. unfold_M. cbn.
  destruct (process s) as [p|] eqn:Hproc; [|congruence].
  destruct (returncode p) as [rc|]; cbn.
  - eexists _, _, _. split; [reflexivity|]. split; [apply stays_world; reflexivity|reflexivity].
  - eexists _, _, _. split; [reflexivity|]. split; [|reflexivity].
    split; [|split; reflexivity].
    split; [destruct s; reflexivity|]. cbn. rewrite Hproc. reflexivity.
Qed.

Section Stop.
Context `{PyLib}.

Lemma get_status_running (s : Server) (w : World) (st : Dict.t value) :
  get_status s w = Ok st -> Dict.get st "running" = Some (VBool (is_running s)).
Proof.
  unfold get_status.
  destruct (core_name _); [|discriminate].
  destruct (eula_accepted _ _); [|discriminate].
  destruct (backup_count _ _); [|discriminate].
  destruct (get_uptime s w) as [u|]; [destruct (negb _)|];
    intros Hst; injection Hst as <-; reflexivity.
Qed.

(** Whether [get_status] returns depends on the core type, the server
    and backup directories and the files only. *)
Lemma status_ok_eq (s : Server) (w : World) :
  status_ok s w
  = match core_name (core_type s), eula_accepted s w, backup_count s w with
    | Ok _, Ok _, Ok _ => true
    | _, _, _ => false
    end.
Proof.
  unfold status_ok, get_status.
  destruct (core_name _); [|reflexivity].
  destruct (eula_accepted _ _); [|reflexivity].
  destruct (backup_count _ _); [|reflexivity].
  destruct (get_uptime s w) as [u|]; [destruct (negb _)|]; reflexivity.
Qed.

Lemma status_ok_frame (s s' : Server) (w w' : World) :
  core_type s' = core_type s -> backup_dir s' = backup_dir s ->
  server_dir s' = server_dir s ->
  fs w' = fs w -> cwd w' = cwd w ->
  status_ok s' w' = status_ok s w.
Proof.
  intros Hc Hb Hsd Hf Hd. rewrite !status_ok_eq.
  unfold backup_count, eula_accepted, check_eula.
  rewrite Hc, Hb, Hsd, Hf, Hd. reflexivity.
Qed.

Lemma stays_status_ok (s s' : Server) (w w' : World) (f : Server -> Server) :
  stays (s, w) (s', w') ->
  core_type (f s') = core_type s' -> backup_dir (f s') = backup_dir s' ->
  server_dir (f s') = server_dir s' ->
  status_ok (f s') w' = status_ok s w.
Proof.
  intros ([Hs _] & Hf & Hd) Hc Hb Hsd. cbn in *.
  apply status_ok_frame; [rewrite Hc, Hs|rewrite Hb, Hs|rewrite Hsd, Hs| |]; auto.
Qed.

(** C1, amended. From every state, forced or not, [stop_server] returns
    [True] or [False] and never clears the handle: [self.process] keeps
    the same pid.  It returns [False] exactly when one of the termination
    calls that it made was refused: the error is then the last line
    printed, and [is_running] and [start_time] are as they were before the
    call.  Otherwise it returns [True], [is_running] is [False],
    [start_time] is [None] and a status taken afterwards reports
    ["running": False].  In both cases [get_status] returns afterwards
    if it did before. *)
Theorem stop_server_outcome (force : bool) (s : Server) (w : World) :
  let '(r, (s', w')) := stop_server force (s, w) in
  exists cs,
    calls w' = (calls w ++ cs)%list
    /\ option_map pid (process s') = option_map pid (process s)
    /\ status_ok s' w' = status_ok s w
    /\ match refused (take (terminations cs) (signal_faults w)) with
       | None =>
           r = Ok true /\ is_running s' = false /\ start_time s' = None
           /\ forall st, get_status s' w' = Ok st ->
                         Dict.get st "running" = Some (VBool false)
       | Some e =>
           r = Ok false /\ is_running s' = is_running s
           /\ start_time s' = start_time s
           /\ exists msgs, console w' = (msgs ++ [MsgStopError e])%list
       end.
Proof.
  remember (option_map pid (process s)) as hp eqn:Hhp.
  assert (Hdone : forall s1 w1 cs1,
    stays (s, w) (s1, w1) ->
    calls w1 = (calls w ++ cs1)%list -> terminations cs1 = 0%nat ->
    let '(r, (s', w')) :=
      (print MsgNotRunning;; update_self (set_is_running false);;
       update_self (set_start_time None);; mret true) (s1, w1) in
    exists cs,
      calls w' = (calls w ++ cs)%list
      /\ option_map pid (process s') = hp
      /\ status_ok s' w' = status_ok s w
      /\ match refused (take (terminations cs) (signal_faults w)) with
         | None =>
             r = Ok true /\ is_running s' = false /\ start_time s' = None
             /\ forall st, get_status s' w' = Ok st ->
                           Dict.get st "running" = Some (VBool false)
         | Some e =>
             r = Ok false /\ is_running s' = is_running s
             /\ start_time s' = start_time s
             /\ exists msgs, console w' = (msgs ++ [MsgStopError e])%list
         end).
  { intros s1 w1 cs1 Hst Hc1 Hn1. unfold_M. cbn.
    exists cs1. rewrite Hn1. cbn [take refused].
    split; [exact Hc1|]. split; [rewrite Hhp; apply (stays_pid _ _ _ _ Hst)|]. split.
    { apply (stays_status_ok s s1 w _ (fun x => set_start_time None (set_is_running false x)));
        [|reflexivity..].
      eapply stays_trans; [exact Hst|apply stays_world; reflexivity]. }
    repeat split. intros st Hst'. apply get_status_running in Hst'. exact Hst'. }
  unfold stop_server. unfold mbind at 1, M_bind at 1, get_self at 1. cbn [fst snd].
  destruct (process s) as [p|] eqn:Hproc.
  2: { unfold mbind at 1, M_bind at 1, mret at 1, M_ret at 1.
       apply (Hdone s w []); [apply stays_refl|rewrite app_nil_r; reflexivity|reflexivity]. }
  assert (Hp : process s <> None) by congruence.
  pose proof (keeps_poll s w Hp) as Hpoll.
  pose proof (poll_returns (s, w)) as Hret.
  unfold mbind at 1, M_bind at 1. unfold mbind at 1, M_bind at 1.
  destruct (poll (s, w)) as [[a|e] [s1 w1]];
    [|exfalso; apply (Hret e Hp); reflexivity].
  destruct Hpoll as (Hs1 & cs1 & Hc1 & Hn1 & Hsig1).
  unfold mret at 1, M_ret at 1.
  destruct (bool_decide (a ≠ None)); [apply (Hdone s1 w1 cs1); assumption|].
  assert (Hp1 : process s1 <> None) by (apply (stays_some _ _ _ _ Hs1); exact Hp).
  unfold try_except.
  set (first := if negb force then request_stop else mret ()).
  assert (Hfirst : sound first)
    by (unfold first; destruct force; [apply sound_ret|apply sound_request_stop]).
  unfold mbind at 1, M_bind at 1.
  specialize (Hfirst s1 w1 Hp1).
  destruct (first (s1, w1)) as [[[]|e] [s2 w2]];
    destruct Hfirst as (Hs2 & cs2 & Hc2 & Hd2 & Hr2);
    rewrite Hsig1 in Hd2, Hr2;
    pose proof (stays_trans _ _ _ Hs1 Hs2) as Hs02.
  2: { unfold_M. cbn. exists (cs1 ++ cs2)%list.
       rewrite terminations_app, Hn1. cbn [Nat.add]. rewrite Hr2.
       split; [rewrite Hc2, Hc1, app_assoc; reflexivity|].
       split; [rewrite Hhp, <- Hproc; apply (stays_pid _ _ _ _ Hs02)|]. split.
       { apply (stays_status_ok s s2 w _ (fun x => x)); [|reflexivity..].
         eapply stays_trans; [exact Hs02|apply stays_world; reflexivity]. }
       destruct Hs02 as [[Hs02 _] _]. cbn in Hs02. rewrite Hs02.
       repeat split. eexists. reflexivity. }
  assert (Hp2 : process s2 <> None) by (eapply stays_some; eassumption).
  pose proof (sound_terminate_if_running force s2 w2 Hp2) as Hterm.
  unfold mbind at 1, M_bind at 1.
  destruct (terminate_if_running force (s2, w2)) as [[[]|e] [s3 w3]];
    destruct Hterm as (Hs3 & cs3 & Hc3 & Hd3 & Hr3);
    pose proof (stays_trans _ _ _ Hs02 Hs3) as Hs03;
    assert (Hcs : calls w3 = (calls w ++ (cs1 ++ cs2) ++ cs3)%list)
      by (rewrite Hc3, Hc2, Hc1, !app_assoc; reflexivity);
    assert (Href : refused (take (terminations ((cs1 ++ cs2) ++ cs3)) (signal_faults w))
                   = refused (take (terminations cs3) (signal_faults w2)))
      by (rewrite !terminations_app, Hn1; cbn [Nat.add];
          rewrite <- take_take_drop, refused_app, Hr2, <- Hd2; reflexivity).
  - unfold_M. cbn. exists ((cs1 ++ cs2) ++ cs3)%list. rewrite Href, Hr3.
    split; [exact Hcs|]. split; [rewrite Hhp, <- Hproc; apply (stays_pid _ _ _ _ Hs03)|]. split.
    { apply (stays_status_ok s s3 w _ (fun x => set_start_time None (set_is_running false x)));
        [|reflexivity..].
      eapply stays_trans; [exact Hs03|apply stays_world; reflexivity]. }
    repeat split. intros st Hst. apply get_status_running in Hst. exact Hst.
  - unfold_M. cbn. exists ((cs1 ++ cs2) ++ cs3)%list. rewrite Href, Hr3.
    split; [exact Hcs|]. split; [rewrite Hhp, <- Hproc; apply (stays_pid _ _ _ _ Hs03)|]. split.
    { apply (stays_status_ok s s3 w _ (fun x => x)); [|reflexivity..].
      eapply stays_trans; [exact Hs03|apply stays_world; reflexivity]. }
    destruct Hs03 as [[Hs03 _] _]. cbn in Hs03. rewrite Hs03.
    repeat split. eexists. reflexivity.
Qed.
End Stop.

(** C1, as stated, fails: with a forced stop whose [kill()] is refused, the
    supervisor stays in the running state with its handle, and the status
    says so; and after a graceful stop that succeeds the handle is still
    there. *)
Lemma stop_server_counterexample :
  (let '(r, (s', w')) := stop_server true (running_server, kill_denied_world) in
   r = Ok false /\ is_running s' = true
   /\ process s' = Some (MkPopen 4242 None)
   /\ exists st, @get_status sample_lib s' w' = Ok st
                 /\ Dict.get st "running" = Some (VBool true))
  /\ (let '(r, (s', w')) :=
        stop_server false
          (running_server, set_child_polls [None; None; Some 0%Z] (sample_world paper_fs)) in
      r = Ok true /\ process s' = Some (MkPopen 4242 (Some 0%Z))
      /\ process s' <> None).
Proof.
  split.
  - vm_compute. repeat split. eexists. split; reflexivity.
  - vm_compute. repeat split. discriminate.
Qed.

Lemma stop_server_outcome_witness :
  (let '(r, (s', w')) := stop_server true (running_server, kill_denied_world) in
   r = Ok false /\ is_running s' = true /\ start_time s' = Some 900%Z
   /\ exists msgs, console w' = (msgs ++ [MsgStopError PermissionError])%list)
  /\ (let '(r, (s', w')) := stop_server true (running_server, sample_world paper_fs) in
      r = Ok true /\ is_running s' = false /\ start_time s' = None).
Proof.
  split.
  - pose proof (@stop_server_outcome sample_lib true running_server kill_denied_world) as Hstop.
    destruct (stop_server true (running_server, kill_denied_world)) as [r [s' w']] eqn:Hrun.
    destruct Hstop as (cs & Hcs & _ & _ & Hout).
    assert (Hcalls : cs = [CPoll None; CPoll None; CKill]).
    { apply (app_inv_head (calls kill_denied_world)). rewrite <- Hcs.
      apply (f_equal (fun x => calls (snd (snd x)))) in Hrun. cbn in Hrun.
      rewrite <- Hrun. vm_compute. reflexivity. }
    subst cs. exact Hout.
  - pose proof (@stop_server_outcome sample_lib true running_server (sample_world paper_fs))
      as Hstop.
    destruct (stop_server true (running_server, sample_world paper_fs))
      as [r [s' w']] eqn:Hrun.
    destruct Hstop as (cs & Hcs & _ & _ & Hout).
    assert (Hnone : refused (take (terminations cs)
                               (signal_faults (sample_world paper_fs))) = None)
      by (cbn; rewrite take_nil; reflexivity).
    rewrite Hnone in Hout. destruct Hout as (Hr & Hrun' & Ht & _). auto.
Defined.

(** ** Stopping: the calls of a graceful stop *)

Lemma nth_tail {A} (i : nat) (l : list A) (d : A) : nth i (tail l) d = nth (S i) l d.
Proof. destruct l; [destruct i; reflexivity|reflexivity]. Qed.

Lemma drop_tail {A} (k : nat) (l : list A) : drop k (tail l) = drop (S k) l.
Proof. destruct l; [destruct k; reflexivity|reflexivity]. Qed.

Lemma hd_nth {A} (l : list A) (d : A) :
  match l with a :: _ => a | [] => d end = nth 0 l d.
Proof. destruct l; reflexivity. Qed.

(** What a poll of a child without cached status does. *)
Lemma poll_fresh (s : Server) (w : World) (p : Popen) :
  process s = Some p -> returncode p = None ->
  poll (s, w)
  = (Ok (nth 0 (child_polls w) None),
     (set_process (Some (MkPopen (pid p) (nth 0 (child_polls w) None))) s,
      set_calls (calls w ++ [CPoll (nth 0 (child_polls w) None)])
        (set_child_polls (tail (child_polls w)) w))).
Proof.
  intros Hp Hrc. unfold poll. unfold_M. cbn. rewrite Hp, Hrc. cbn.
  rewrite hd_nth. reflexivity.
Qed.

Lemma poll_cached (s : Server) (w : World) (p : Popen) (rc : Z) :
  process s = Some p -> returncode p = Some rc ->
  poll (s, w) = (Ok (Some rc), (s, set_calls (calls w ++ [CPoll (Some rc)]) w)).
Proof.
  intros Hp Hrc. unfold poll. unfold_M. cbn. rewrite Hp, Hrc. reflexivity.
Qed.

Lemma wait_for_exit_run (n : nat) : forall (s : Server) (w : World) (p : Popen),
  process s = Some p -> returncode p = None ->
  exists k st s' w',
    wait_for_exit n (s, w) = (Ok tt, (s', w'))
    /\ s' = set_process (Some (MkPopen (pid p) st)) s
    /\ (k <= n)%nat
    /\ (forall i, (i < k)%nat -> nth i (child_polls w) None = None)
    /\ clock w' = (clock w + Z.of_nat k)%Z
    /\ stdin_faults w' = stdin_faults w
    /\ signal_faults w' = signal_faults w
    /\ console w' = console w
    /\ match st with
       | None =>
           k = n
           /\ calls w' = (calls w ++ wait_calls k)%list
           /\ child_polls w' = drop k (child_polls w)
       | Some rc =>
           (k < n)%nat
           /\ nth k (child_polls w) None = Some rc
           /\ calls w' = (calls w ++ wait_calls k ++ [CPoll (Some rc)])%list
           /\ child_polls w' = drop (S k) (child_polls w)
       end.
Proof.
  induction n as [|n IH]; intros s w p Hp Hrc.
  - exists 0%nat, None, s, w. cbn. rewrite Z.add_0_r, app_nil_r.
    repeat split; try reflexivity; try lia.
    destruct s; cbn in *. subst. destruct p; cbn in *; subst. reflexivity.
  - cbn [wait_for_exit]. unfold mbind at 1, M_bind at 1.
    rewrite (poll_fresh s w p Hp Hrc).
    destruct (nth 0 (child_polls w) None) as [rc|] eqn:Ha.
    + exists 0%nat, (Some rc). eexists _, _. split; [reflexivity|]. cbn.
      rewrite Z.add_0_r. repeat split; try reflexivity; try lia. exact Ha.
    + unfold sleep. unfold_M. cbn -[wait_for_exit].
      match goal with
      | |- context [wait_for_exit n (?s1, ?w1)] =>
          destruct (IH s1 w1 (MkPopen (pid p) None) eq_refl eq_refl)
            as (k & st & s' & w' & Hrun & Hs' & Hk & Hnone & Hclock & Hin & Hsig & Hcon & Hst)
      end.
      rewrite Hrun. exists (S k), st, s', w'. cbn in *.
      split; [reflexivity|]. split; [rewrite Hs'; reflexivity|].
      split; [lia|]. split.
      { intros [|i] Hi; [exact Ha|]. rewrite <- nth_tail. apply Hnone. lia. }
      split; [lia|]. split; [exact Hin|]. split; [exact Hsig|]. split; [exact Hcon|].
      destruct st as [rc|].
      * destruct Hst as (Hlt & Hnth & Hcalls & Hpolls).
        split; [lia|]. split; [rewrite <- nth_tail; exact Hnth|].
        split; [rewrite Hcalls, <- !app_assoc; reflexivity|].
        rewrite Hpolls. apply drop_tail.
      * destruct Hst as (Heq & Hcalls & Hpolls).
        split; [lia|]. split; [rewrite Hcalls, <- !app_assoc; reflexivity|].
        rewrite Hpolls. apply drop_tail.
Qed.

Lemma send_stop_run (s : Server) (w : World) (p : Popen) :
  process s = Some p -> returncode p = None ->
  exists b io s' w',
    send_command "stop" (s, w) = (Ok b, (s', w'))
    /\ s' = set_process (Some (MkPopen (pid p) (nth 0 (child_polls w) None))) s
    /\ calls w' = (calls w ++ CPoll (nth 0 (child_polls w) None) :: io)%list
    /\ child_polls w' = tail (child_polls w)
    /\ signal_faults w' = signal_faults w
    /\ clock w' = clock w
    /\ match nth 0 (child_polls w) None with
       | None => exists io', io = CStdinWrite ("stop" +:+ nl) :: io'
                             /\ (io' = [] \/ io' = [CStdinFlush])
       | Some _ => io = []
       end.
Proof.
  intros Hp Hrc. unfold send_command.
  unfold mbind at 1, M_bind at 1, get_self at 1. cbn [fst snd]. rewrite Hp.
  unfold mbind at 1, M_bind at 1. unfold mbind at 1, M_bind at 1.
  rewrite (poll_fresh s w p Hp Hrc).
  destruct (nth 0 (child_polls w) None) as [rc|] eqn:Ha.
  - unfold_M. cbn. eexists _, [], _, _. split; [reflexivity|].
    repeat split; reflexivity.
  - unfold stdin_op. unfold_M. cbn -[nl].
    destruct (stdin_faults w) as [|[e|] l]; cbn -[nl].
    + eexists _, _, _, _. split; [reflexivity|].
      split; [reflexivity|]. split; [rewrite <- !app_assoc; reflexivity|].
      repeat split. eexists. split; [reflexivity|]. right. reflexivity.
    + eexists _, _, _, _. split; [reflexivity|].
      split; [reflexivity|]. split; [rewrite <- !app_assoc; reflexivity|].
      repeat split. eexists. split; [reflexivity|]. left. reflexivity.
    + destruct l as [|[e|] l]; cbn -[nl];
        (eexists _, _, _, _; split; [reflexivity|];
         split; [reflexivity|]; split; [rewrite <- !app_assoc; reflexivity|];
         repeat split; eexists; split; [reflexivity|]; right; reflexivity).
Qed.

Lemma terminate_or_kill_run (s : Server) (w : World) :
  terminate_or_kill (s, w)
  = (match signal_faults w with Some e :: _ => Raise e | _ => Ok tt end,
     (s, set_signal_faults (tail (signal_faults w))
           (set_calls (calls w ++ [if is_windows s then CTerminate else CKill]) w))).
Proof.
  unfold terminate_or_kill, signal_op. unfold_M. cbn.
  destruct (is_windows s); cbn; destruct (signal_faults w) as [|[e|] l]; reflexivity.
Qed.

Lemma nth_drop {A} (i k : nat) (l : list A) (d : A) : nth i (drop k l) d = nth (k + i) l d.
Proof.
  revert l. induction k as [|k IH]; intros l; [reflexivity|].
  destruct l; [rewrite drop_nil; destruct i; reflexivity|]. cbn. apply IH.
Qed.

(** C5, amended. [stop_server(force=False)] on a live process polls it
    again and, if it is still running, writes ["stop"] and a newline to its
    input; it then polls at most 30 times, sleeping one second after each
    poll that finds it running, and polls once more.  If one of these
    polls finds that the child has exited, the state is marked stopped and
    the result is [True], without any termination call.  If none does,
    exactly one termination call follows at once ([terminate()] on
    Windows, [kill()] elsewhere), without grace period and without a second
    call; the result is [True] unless that call raises. *)
Theorem stop_server_graceful (s : Server) (w : World) (p : Popen) :
  process s = Some p ->
  returncode p = None ->
  nth 0 (child_polls w) None = None ->
  let polls := child_polls w in
  let '(r, (s', w')) := stop_server false (s, w) in
  exists (k : nat) (io rest : list call),
    calls w' = (calls w ++ [CPoll None; CPoll (nth 1 polls None)] ++ io
                        ++ wait_calls k ++ rest)%list
    /\ (k <= 30)%nat
    /\ clock w' = (clock w + Z.of_nat k)%Z
    /\ match nth 1 polls None with
       | None => exists io', io = CStdinWrite ("stop" +:+ nl) :: io'
                             /\ (io' = [] \/ io' = [CStdinFlush])
       | Some _ => io = []
       end
    /\ ((exists i rc,
           (i < 33)%nat /\ nth i polls None = Some rc
           /\ (rest = [CPoll (Some rc); CPoll (Some rc)] \/ rest = [CPoll (Some rc)])
           /\ r = Ok true /\ is_running s' = false /\ start_time s' = None)
        \/ ((forall i, (i < 33)%nat -> nth i polls None = None)
            /\ k = 30%nat
            /\ rest = [CPoll None; if is_windows s then CTerminate else CKill]
            /\ r = match signal_faults w with
                   | Some e :: _ => Ok false
                   | _ => Ok true
                   end
            /\ (r = Ok true -> is_running s' = false /\ start_time s' = None))).
Proof.
  intros Hp Hrc Halive polls. unfold stop_server.
  unfold mbind at 1, M_bind at 1, get_self at 1. cbn [fst snd]. rewrite Hp.
  unfold mbind at 1, M_bind at 1. unfold mbind at 1, M_bind at 1.
  rewrite (poll_fresh s w p Hp Hrc), Halive.
  unfold mret at 1, M_ret at 1.
  rewrite bool_decide_eq_false_2 by congruence.
  set (s1 := set_process (Some (MkPopen (pid p) None)) s).
  set (w1 := set_calls _ _).
  unfold try_except, request_stop. cbn [negb].
  unfold mbind at 1, M_bind at 1. unfold mbind at 1, M_bind at 1.
  unfold print at 1, update_world at 1. cbn [fst snd].
  set (w1' := set_console _ w1).
  unfold mbind at 1, M_bind at 1.
  destruct (send_stop_run s1 w1' (MkPopen (pid p) None) eq_refl eq_refl)
    as (b & io & s2 & w2 & Hsend & Hs2 & Hc2 & Hpolls2 & Hsig2 & Hclk2 & Hio).
  rewrite Hsend.
  change (child_polls w1') with (tail polls) in *.
  change (calls w1') with (calls w ++ [CPoll None])%list in *.
  change (signal_faults w1') with (signal_faults w) in *.
  change (clock w1') with (clock w) in *.
  rewrite nth_tail in *.
  destruct (nth 1 polls None) as [rc|] eqn:Ha1.
  - (* the child had exited when the command was to be sent *)
    subst io. cbn [wait_for_exit].
    unfold mbind at 1, M_bind at 1.
    assert (Hp2 : process s2 = Some (MkPopen (pid p) (Some rc))) by (rewrite Hs2; reflexivity).
    rewrite (poll_cached s2 w2 _ rc Hp2 eq_refl).
    unfold mret at 1, M_ret at 1.
    unfold terminate_if_running.
    unfold mbind at 1, M_bind at 1. unfold mbind at 1, M_bind at 1.
    rewrite (poll_cached s2 _ _ rc Hp2 eq_refl).
    unfold_M. cbn.
    exists 0%nat, [], [CPoll (Some rc); CPoll (Some rc)].
    rewrite Hc2, Hclk2, Z.add_0_r, <- !app_assoc. cbn.
    repeat split; try lia.
    left. exists 1%nat, rc. repeat split; try lia; auto.
  - (* the command is sent; the wait follows *)
    assert (Hp2 : process s2 = Some (MkPopen (pid p) None)) by (rewrite Hs2; reflexivity).
    destruct (wait_for_exit_run 30 s2 w2 _ Hp2 eq_refl)
      as (k & st & s3 & w3 & Hrun & Hs3 & Hk & Hnone & Hclk3 & Hin3 & Hsig3 & Hcon3 & Hst).
    rewrite Hrun. unfold terminate_if_running.
    unfold mbind at 1, M_bind at 1. unfold mbind at 1, M_bind at 1.
    assert (Hnone' : forall i, (i < 2 + k)%nat -> nth i polls None = None).
    { intros [|[|i]] Hi; [exact Halive|exact Ha1|].
      specialize (Hnone i ltac:(lia)). rewrite Hpolls2, nth_tail, nth_tail in Hnone.
      exact Hnone. }
    destruct st as [rc|].
    + (* the exit was seen during the wait *)
      destruct Hst as (Hlt & Hnth & Hc3 & Hpolls3).
      assert (Hp3 : process s3 = Some (MkPopen (pid p) (Some rc))) by (rewrite Hs3; reflexivity).
      rewrite (poll_cached s3 w3 _ rc Hp3 eq_refl).
      unfold_M. cbn.
      exists k, io, [CPoll (Some rc); CPoll (Some rc)].
      rewrite Hc3, Hc2, Hclk3, Hclk2, <- !app_assoc. cbn.
      split; [reflexivity|]. split; [lia|]. split; [reflexivity|]. split; [exact Hio|].
      left. exists (2 + k)%nat, rc. split; [lia|].
      split; [rewrite Hpolls2, nth_tail, nth_tail in Hnth; exact Hnth|].
      repeat split; auto.
    + (* thirty polls found the child running *)
      destruct Hst as (-> & Hc3 & Hpolls3).
      assert (Hp3 : process s3 = Some (MkPopen (pid p) None)) by (rewrite Hs3; reflexivity).
      rewrite (poll_fresh s3 w3 _ Hp3 eq_refl).
      assert (Hlast : nth 0 (child_polls w3) None = nth 32 polls None).
      { rewrite Hpolls3, Hpolls2, nth_drop, nth_tail, nth_tail. reflexivity. }
      rewrite Hlast.
      destruct (nth 32 polls None) as [rc|] eqn:Ha32.
      * unfold_M. cbn.
        exists 30%nat, io, [CPoll (Some rc)].
        rewrite Hc3, Hc2, Hclk3, Hclk2, <- !app_assoc. cbn -[wait_calls].
        split; [reflexivity|]. split; [lia|]. split; [reflexivity|]. split; [exact Hio|].
        left. exists 32%nat, rc. split; [lia|]. repeat split; auto.
      * unfold mbind at 1, M_bind at 1.
        unfold print at 1, update_world at 1. cbn [fst snd].
        rewrite terminate_or_kill_run.
        cbn [signal_faults set_console set_calls set_child_polls calls is_windows set_process].
        rewrite Hsig3, Hsig2, Hs3, Hs2. 
        cbn [is_windows set_process].
        assert (Hall : forall i, (i < 33)%nat -> nth i polls None = None).
        { intros i Hi. destruct (Nat.eq_dec i 32) as [->|]; [exact Ha32|].
          apply Hnone'. lia. }
        destruct (signal_faults w) as [|[e|] l]; unfold_M; cbn -[wait_calls];
          exists 30%nat, io, [CPoll None; if is_windows s then CTerminate else CKill];
          rewrite Hc3, Hc2, Hclk3, Hclk2, <- !app_assoc; cbn -[wait_calls];
          (split; [reflexivity|]; split; [lia|]; split; [reflexivity|];
           split; [exact Hio|]; right; repeat split; auto; discriminate).
Qed.

(** C5, as stated, fails: when the child ignores the command, the graceful
    path makes a single [kill()] right after the wait; it sends no
    [terminate()] and sleeps no two seconds. *)
Lemma stop_server_graceful_counterexample :
  let '(r, (s', w')) := stop_server false (running_server, sample_world paper_fs) in
  calls w' = ([CPoll None; CPoll None; CStdinWrite ("stop" +:+ nl); CStdinFlush]
              ++ wait_calls 30 ++ [CPoll None; CKill])%list
  /\ filter (fun c => Is_true (is_termination c)) (calls w') = [CKill]
  /\ existsb (is_sleep_of 2) (calls w') = false
  /\ r = Ok true.
Proof. vm_compute. repeat split. Qed.

Lemma stop_server_graceful_witness :
  let polls := child_polls (sample_world paper_fs) in
  let '(r, (s', w')) := stop_server false (running_server, sample_world paper_fs) in
  exists (k : nat) (io rest : list call),
    calls w' = (calls (sample_world paper_fs)
                ++ [CPoll None; CPoll (nth 1 polls None)] ++ io
                ++ wait_calls k ++ rest)%list
    /\ (k <= 30)%nat
    /\ clock w' = (clock (sample_world paper_fs) + Z.of_nat k)%Z
    /\ match nth 1 polls None with
       | None => exists io', io = CStdinWrite ("stop" +:+ nl) :: io'
                             /\ (io' = [] \/ io' = [CStdinFlush])
       | Some _ => io = []
       end
    /\ ((exists i rc,
           (i < 33)%nat /\ nth i polls None = Some rc
           /\ (rest = [CPoll (Some rc); CPoll (Some rc)] \/ rest = [CPoll (Some rc)])
           /\ r = Ok true /\ is_running s' = false /\ start_time s' = None)
        \/ ((forall i, (i < 33)%nat -> nth i polls None = None)
            /\ k = 30%nat
            /\ rest = [CPoll None;
                       if is_windows running_server then CTerminate else CKill]
            /\ r = match signal_faults (sample_world paper_fs) with
                   | Some e :: _ => Ok false
                   | _ => Ok true
                   end
            /\ (r = Ok true -> is_running s' = false /\ start_time s' = None))).
Proof.
  apply (stop_server_graceful running_server (sample_world paper_fs) (MkPopen 4242 None));
    reflexivity.
Defined.

(** * Further properties of the supervisor *)

(** ** Download URLs, for every core type *)

Lemma contains_cons_r sub c s :
  Str.contains sub s = true -> Str.contains sub (String c s) = true.
Proof. intros Hs. rewrite contains_cons, Hs. apply orb_true_r. Qed.

Ltac find_substring :=
  repeat first [ reflexivity | apply contains_cons_r | apply contains_app_r ].

(** X1. [get_download_url] returns [None] exactly when the mirror
    registers no template for the core type and the core type is
    ["vanilla"] or is not a key of [CORE_TYPES]; in every other case,
    whatever the version string, it returns a URL. *)
Theorem get_download_url_none (core_type version mirror : string) :
  get_download_url core_type version mirror = None <->
  mirror_pattern mirror core_type = None
  /\ (core_type = "vanilla" \/ Dict.get CORE_TYPES core_type = None).
Proof.
  unfold get_download_url. fold (mirror_pattern mirror core_type).
  destruct (mirror_pattern mirror core_type) as [pattern|].
  { destruct (Str.contains _ _); split; try discriminate; intros [? _]; discriminate. }
  unfold get_core_info, CORE_TYPES, Dict.get.
  repeat match goal with
         | |- context [String.eqb ?k core_type] =>
             destruct (String.eqb_spec k core_type) as [<-|?];
             [cbn; split; [try discriminate; auto | intros [_ [?|?]]; try discriminate; auto]|]
         end.
  cbn. split; auto.
Qed.

(** X2. When the mirror registers no template for ["paper"] or for
    ["mohist"], the URL is built from the default template, in which only
    [{version}] is replaced: the result still contains the placeholder
    [{build}]. *)
Theorem get_download_url_keeps_build (core_type version mirror : string) :
  In core_type ["paper"; "mohist"] ->
  mirror_pattern mirror core_type = None ->
  exists url, get_download_url core_type version mirror = Some url
              /\ Str.contains "{build}" url = true.
Proof.
  intros Hc Hm. unfold get_download_url. fold (mirror_pattern mirror core_type).
  rewrite Hm. cbn in Hc. destruct Hc as [<-|[<-|[]]]; cbn; eexists; (split; [reflexivity|]);
    find_substring.
Qed.

Lemma get_download_url_keeps_build_witness :
  exists url, get_download_url "paper" "1.21.4" "mc" = Some url
              /\ Str.contains "{build}" url = true.
Proof.
  apply (get_download_url_keeps_build "paper" "1.21.4" "mc"); [left; reflexivity|reflexivity].
Defined.

(** X3. For ["fabric"], on every mirror and for every version, the URL
    that [get_download_url] returns still contains the placeholder
    [{loader}], which no branch replaces. *)
Theorem get_download_url_fabric_loader (version mirror : string) :
  exists url, get_download_url "fabric" version mirror = Some url
              /\ Str.contains "{loader}" url = true.
Proof.
  unfold get_download_url, MIRROR_SITES, Dict.get.
  destruct (String.eqb "mslmc" mirror); [cbn; eexists; split; [reflexivity|find_substring]|].
  destruct (String.eqb "bmclapi" mirror); [cbn; eexists; split; [reflexivity|find_substring]|].
  destruct (String.eqb "mc" mirror); cbn; eexists; (split; [reflexivity|find_substring]).
Qed.

(** X4. With the [mslmc] mirror, which is the default one, every core type
    that the mirror registers resolves to the address of the mirror itself,
    [https://dl.mslmc.cn], whatever the core type and the version. *)
Theorem get_download_url_mslmc (core_type version : string) :
  mirror_pattern "mslmc" core_type <> None ->
  get_download_url core_type version "mslmc" = Some "https://dl.mslmc.cn".
Proof.
  unfold get_download_url, mirror_pattern.
  set (m := Dict.get MIRROR_SITES "mslmc"). vm_compute in m. subst m.
  cbv beta iota. cbn [mi_patterns Dict.get].
  repeat match goal with
         | |- context [String.eqb ?k core_type] =>
             destruct (String.eqb k core_type); [intros _; reflexivity|]
         end.
  intros Hn. exfalso. apply Hn. reflexivity.
Qed.

Lemma get_download_url_mslmc_witness :
  get_download_url "paper" "1.21.4" "mslmc" = Some "https://dl.mslmc.cn".
Proof.
  apply (get_download_url_mslmc "paper" "1.21.4"). vm_compute. discriminate.
Defined.

(** ** Core-type detection: the vanilla branch and the table *)

(** X5. [detect_core_type] returns ["vanilla"] exactly when the path
    exists, its lower-cased name contains none of the vendor keywords,
    contains ["server"] and does not contain ["vanilla"], and the file opens
    as an archive that has the member [net/minecraft/server/Main.class].
    So a file whose name contains ["vanilla"] is never tagged vanilla, and
    an unreadable archive gives ["unknown"]. *)
Theorem detect_core_type_vanilla (w : World) (jar_path : path) :
  detect_core_type w jar_path = Ok "vanilla" <->
  FS.exists_ (fs w) (FS.key (cwd w) jar_path) = Ok true
  /\ first_keyword (Path.name jar_path) = None
  /\ Str.contains "server" (Str.lower (Path.name jar_path)) = true
  /\ Str.contains "vanilla" (Str.lower (Path.name jar_path)) = false
  /\ exists names, zip_filenames w jar_path = Ok names
                   /\ In "net/minecraft/server/Main.class" names.
Proof.
  unfold detect_core_type, detect_by_name, first_keyword, VENDOR_KEYWORDS.
  set (n := Str.lower (Path.name jar_path)).
  destruct (FS.exists_ _ _) as [[]|e]; cbn [negb find];
    [|split; [discriminate|intros [? _]; discriminate]
     |split; [discriminate|intros [? _]; discriminate]].
  repeat match goal with
         | |- context [if Str.contains ?k n then _ else _] =>
             lazymatch k with
             | "server" => fail
             | "vanilla" => fail
             | _ => idtac
             end;
             destruct (Str.contains k n) eqn:?; cbn [orb];
             [split; [discriminate|intros (_ & ? & _); discriminate]|]
         end.
  destruct (Str.contains "server" n); cbn [andb];
    [|split; [discriminate|intros (_ & _ & ? & _); discriminate]].
  destruct (Str.contains "vanilla" n); cbn [negb];
    [split; [discriminate|intros (_ & _ & _ & ? & _); discriminate]|].
  destruct (zip_filenames w jar_path) as [names|e].
  - destruct (existsb _ names) eqn:Hex.
    + split; [|reflexivity]. intros _. repeat split. exists names. split; [reflexivity|].
      apply existsb_exists in Hex as (x & Hin & Hx). apply String.eqb_eq in Hx. subst x. exact Hin.
    + split; [discriminate|]. intros (_ & _ & _ & _ & names' & Hn & Hin).
      injection Hn as <-. exfalso.
      assert (existsb (String.eqb "net/minecraft/server/Main.class") names = true).
      { apply existsb_exists. eexists. split; [exact Hin|apply String.eqb_refl]. }
      congruence.
  - split; [discriminate|]. intros (_ & _ & _ & _ & names' & Hn & _). discriminate.
Qed.

(** X6. Every tag that [detect_core_type] returns, other than
    ["unknown"], has an entry in [CORE_TYPES]: [get_core_info] of the
    detected tag is the "unknown core" entry exactly when the tag is
    ["unknown"]. *)
Theorem detect_core_type_has_entry (w : World) (jar_path : path) :
  match detect_core_type w jar_path with
  | Ok tag => get_core_info tag = unknown_core_info <-> tag = "unknown"
  | Raise _ => True
  end.
Proof.
  pose proof (detect_core_type_range w jar_path) as Hr.
  destruct (detect_core_type w jar_path) as [tag|e]; [|exact I].
  specialize (Hr tag eq_refl).
  destruct Hr as [<-|Hr]; [split; reflexivity|].
  cbn in Hr. repeat (destruct Hr as [<-|Hr]; [split; discriminate|]). destruct Hr.
Qed.

(** ** Loading the profile *)

Section Loading.
Context `{PyLib}.

Lemma config_record_some (s : Server) (w : World) (d : Dict.t value) :
  config_record s w = Some d ->
  exists f, fs w !! FS.key (cwd w) (config_file s) = Some (FS.Reg f)
            /\ FS.f_json f = Some (VDict d).
Proof.
  unfold config_record. destruct (fs w !! _) as [[?|f|]|]; try discriminate.
  destruct (FS.f_json f) as [[]|] eqn:Hj; try discriminate.
  intros Hd. injection Hd as <-. eauto.
Qed.

Lemma load_config_reads (s : Server) (w : World) (d : Dict.t value) (dir : string) :
  config_record s w = Some d ->
  field d "server_dir" (VStr (Path.to_string (server_dir s))) = VStr dir ->
  load_config (s, w) = (Ok tt, (with_record s d dir, w)).
Proof.
  intros Hd Hdir. apply config_record_some in Hd as (f & Hf & Hj).
  unfold load_config, path_exists, json_load, config_get. unfold_M.
  cbn -[FS.key Path.to_string Path.of_string lookup Dict.get].
  unfold FS.exists_, FS.open_read. rewrite !Hf.
  cbn -[FS.key Path.to_string Path.of_string lookup Dict.get].
  rewrite !Hf, !Hj.
  cbn -[FS.key Path.to_string Path.of_string lookup Dict.get].
  fold (field d "server_dir" (VStr (Path.to_string (server_dir s)))). rewrite Hdir.
  reflexivity.
Qed.

Lemma load_config_fails (s : Server) (w : World) :
  FS.exists_ (fs w) (FS.key (cwd w) (config_file s)) = Ok true ->
  config_record s w = None
  \/ (exists d v, config_record s w = Some d
        /\ Dict.get d "server_dir" = Some v /\ forall dir, v <> VStr dir) ->
  exists e,
    load_config (s, w)
    = (Ok tt, (with_defaults s, set_console (console w ++ [MsgLoadConfigError e]) w)).
Proof.
  intros Hex Hbad.
  unfold load_config, path_exists, json_load, config_get, path_of_value. unfold_M.
  cbn -[FS.key Path.to_string Path.of_string lookup Dict.get FS.exists_].
  rewrite Hex. apply exists_true in Hex as [nd Hf].
  unfold config_record, FS.open_read in *.
  cbn -[FS.key Path.to_string Path.of_string lookup Dict.get].
  rewrite Hf in *.
  destruct nd as [b|f|].
  - cbn -[FS.key Path.to_string Path.of_string lookup Dict.get]. eauto.
  - cbn -[FS.key Path.to_string Path.of_string lookup Dict.get].
    destruct (FS.f_json f) as [v|]; [|cbn; eauto].
    destruct v as [| | | | |d]; cbn -[Dict.get]; eauto.
    destruct Hbad as [?|(d' & v & Hd & Hv & Hne)]; [discriminate|].
    injection Hd as <-. rewrite Hv.
    destruct v; cbn; eauto. exfalso. eapply Hne. reflexivity.
  - cbn -[FS.key Path.to_string Path.of_string lookup Dict.get]. eauto.
Qed.

(** X7. When the profile file holds a record whose [server_dir], if
    present, is a string, [load_config] takes each attribute from the record
    as it is, of whatever JSON type; a missing [server_jar] or [java_opts]
    keeps the value the object had, a missing [core_type],
    [minecraft_version] or [mirror_site] becomes ["unknown"], [""],
    ["mslmc"]; the other attributes and the world are unchanged, and
    nothing is printed. *)
Theorem load_config_record (s : Server) (w : World) (d : Dict.t value) (dir : string) :
  config_record s w = Some d ->
  field d "server_dir" (VStr (Path.to_string (server_dir s))) = VStr dir ->
  load_config (s, w) = (Ok tt, (with_record s d dir, w)).
Proof. apply load_config_reads. Qed.

(** X8. When the profile exists but cannot be loaded (it is a directory,
    it is not a JSON document, the document is not a record, or its
    [server_dir] is not a string), [load_config] returns all the same: it
    prints one error, sets [core_type], [minecraft_version] and
    [mirror_site] to their defaults and leaves every other attribute,
    [server_dir], [server_jar] and [java_opts] included, and every file as
    they were. *)
Theorem load_config_unreadable (s : Server) (w : World) :
  FS.exists_ (fs w) (FS.key (cwd w) (config_file s)) = Ok true ->
  config_record s w = None
  \/ (exists d v, config_record s w = Some d
        /\ Dict.get d "server_dir" = Some v /\ forall dir, v <> VStr dir) ->
  exists e,
    load_config (s, w)
    = (Ok tt, (with_defaults s, set_console (console w ++ [MsgLoadConfigError e]) w)).
Proof. apply load_config_fails. Qed.

(** X9. [load_config] returns, unless the [exists()] of the profile
    raises, which leaves it.  It never changes the handle, [is_running],
    [start_time], [is_windows], nor the paths of the log, of the backups
    and of the profile, even when it takes another [server_dir] from the
    profile; it touches no file but the profile, and not even that one
    when it exists. *)
Theorem load_config_frame (s : Server) (w : World) :
  let '(r, (s', w')) := load_config (s, w) in
  r = match FS.exists_ (fs w) (FS.key (cwd w) (config_file s)) with
      | Ok _ => Ok tt
      | Raise e => Raise e
      end
  /\ process s' = process s /\ is_running s' = is_running s
  /\ start_time s' = start_time s /\ is_windows s' = is_windows s
  /\ log_file s' = log_file s /\ backup_dir s' = backup_dir s
  /\ config_file s' = config_file s
  /\ (forall k, k <> FS.key (cwd w) (config_file s) -> fs w' !! k = fs w !! k)
  /\ (FS.exists_ (fs w) (FS.key (cwd w) (config_file s)) <> Ok false -> fs w' = fs w).
Proof.
  destruct (FS.exists_ (fs w) (FS.key (cwd w) (config_file s))) as [[]|e] eqn:Hex.
  - destruct (config_record s w) as [d|] eqn:Hrec.
    + destruct (field d "server_dir" (VStr (Path.to_string (server_dir s)))) as [| | |dir| |] eqn:Hdir.
      4: { rewrite (load_config_reads s w d dir Hrec Hdir). repeat split. }
      all: destruct (load_config_fails s w Hex) as [e ->];
        [right; unfold field in Hdir; destruct (Dict.get d "server_dir") as [v|] eqn:Hv;
           [subst v; exists d; eexists; split; [exact Hrec|split; [exact Hv|discriminate]] | discriminate]
        | repeat split].
    + destruct (load_config_fails s w Hex) as [e ->]; [left; exact Hrec|].
      repeat split.
  - rewrite (load_config_absent _ _ Hex), save_config_run. cbv zeta.
    cbn [config_file set_mirror_site set_minecraft_version set_core_type].
    destruct (FS.open_write _ _ _) as [fs'|e] eqn:Hw;
      [destruct (json_dump_fault _)|]; repeat split; try congruence;
      intros k Hk; cbn; apply lookup_insert_ne; congruence.
  - rewrite (load_config_raise _ _ _ Hex). repeat split.
Qed.

End Loading.

Lemma load_config_record_witness :
  @load_config sample_lib (sample_server, sample_world partial_profile_fs)
  = (Ok tt, (with_record sample_server partial_profile "/srv/mc",
             sample_world partial_profile_fs)).
Proof.
  apply (@load_config_record sample_lib sample_server (sample_world partial_profile_fs));
    vm_compute; reflexivity.
Defined.

Lemma load_config_unreadable_witness :
  exists e,
    @load_config sample_lib (sample_server, sample_world corrupt_profile_fs)
    = (Ok tt, (with_defaults sample_server,
               set_console (console (sample_world corrupt_profile_fs)
                            ++ [MsgLoadConfigError e])
                 (sample_world corrupt_profile_fs))).
Proof.
  apply (@load_config_unreadable sample_lib sample_server (sample_world corrupt_profile_fs));
    [vm_compute; reflexivity | left; vm_compute; reflexivity].
Defined.

(** ** Detecting the archive of the server *)

Ltac run_detect :=
  cbn -[detect_core_type MINECRAFT_VERSIONS FS.iterdir FS.key Path.div Path.name
        Str.contains Str.lower Str.endswith find truthy selectable].



Lemma iterdir_child (m : FS.t) (dir : list string) (l : list (list string)) (k : list string) :
  FS.iterdir m dir = Ok l ->
  k ∈ l <-> exists n, k = (dir ++ [n])%list /\ is_Some (m !! k).
Proof.
  unfold FS.iterdir. destruct (m !! dir) as [[b|f|]|]; try discriminate.
  2: { destruct (FS.lookup_fault m dir); discriminate. }
  intros Hl. injection Hl as <-.
  rewrite list_elem_of_filter, list_elem_of_fmap. split.
  - intros [[Hne Hrm] ([k' n'] & -> & Hin)]. cbn in *.
    apply elem_of_map_to_list in Hin.
    destruct (exists_last Hne) as (pre & n & ->).
    rewrite removelast_last in Hrm. subst pre. eauto.
  - intros (n & -> & [x Hx]). split.
    + split; [destruct dir; discriminate|apply removelast_last].
    + exists (dir ++ [n], x)%list. split; [reflexivity|]. apply elem_of_map_to_list. exact Hx.
Qed.


(** X11. Without an archive name, on an existing server directory,
    [detect_server_core] either selects the name of a regular file of that
    directory that ends in [.jar] and does not contain [installer] in
    whatever letter case, or, when the directory has no such file, leaves
    the object as it was. *)
Theorem detect_server_core_selects (s : Server) (w : World) (b : bool) :
  truthy (server_jar s) = false ->
  fs w !! FS.key (cwd w) (server_dir s) = Some (FS.Dir b) ->
  let s' := fst (snd (detect_server_core (s, w))) in
  (exists n, server_jar s' = VStr n
             /\ selectable w (FS.key (cwd w) (server_dir s)) n = true)
  \/ (s' = s /\ forall n, selectable w (FS.key (cwd w) (server_dir s)) n = false).
Proof.
  intros Hjar Hdir. unfold detect_server_core. unfold_M. run_detect.
  rewrite Hjar. run_detect.
  destruct (FS.iterdir _ _) as [files|e] eqn:Hit;
    [|unfold FS.iterdir in Hit; rewrite Hdir in Hit; discriminate].
  destruct (find _ files) as [file|] eqn:Hfind; run_detect.
  - left. apply find_some in Hfind as [Hin Hsel].
    apply list_elem_of_In, (iterdir_child _ _ _ _ Hit) in Hin as (n & -> & _).
    rewrite last_last in *.
    exists n. split; [|exact Hsel].
    apply andb_true_iff in Hsel as [Hsel _]. apply andb_true_iff in Hsel as [_ Hend].
    assert (Hn : truthy (VStr n) = true).
    { destruct n; [discriminate Hend|reflexivity]. }
    rewrite Hn. run_detect.
    destruct (detect_core_type _ _); run_detect;
      [destruct (find _ MINECRAFT_VERSIONS)|]; reflexivity.
  - right. rewrite Hjar. split; [reflexivity|]. intros n.
    destruct (selectable w _ n) eqn:Hsel; [|reflexivity]. exfalso.
    assert (Hin : In (FS.key (cwd w) (server_dir s) ++ [n])%list files).
    { apply list_elem_of_In, (iterdir_child _ _ _ _ Hit). exists n. split; [reflexivity|].
      unfold selectable, FS.is_file in Hsel.
      destruct (fs w !! (FS.key (cwd w) (server_dir s) ++ [n])%list) as [x|];
        [exists x; reflexivity|discriminate]. }
    apply (find_none _ _ Hfind) in Hin. rewrite last_last in Hin.
    unfold selectable in Hsel. congruence.
Qed.

(** X12. When [detect_server_core] returns with a non-empty archive name,
    [core_type] is what [detect_core_type] says of that archive in the
    server directory, whatever it was before; [minecraft_version] is a
    listed version that occurs in the lower-cased file name, or, when none
    occurs, keeps its previous value; and [server_dir], [java_opts],
    [mirror_site], [config_file], the handle and [is_running] are
    unchanged. *)
Theorem detect_server_core_tags (s : Server) (w : World) (jar : string) :
  fst (detect_server_core (s, w)) = Ok tt ->
  let s' := fst (snd (detect_server_core (s, w))) in
  server_jar s' = VStr jar -> jar <> "" ->
  let jar_path := Path.div (server_dir s) jar in
  let jar_name := Str.lower (Path.name jar_path) in
  (exists tag, detect_core_type w jar_path = Ok tag /\ core_type s' = VStr tag)
  /\ ((exists v, In v MINECRAFT_VERSIONS /\ Str.contains v jar_name = true
                 /\ minecraft_version s' = VStr v)
      \/ (minecraft_version s' = minecraft_version s
          /\ forall v, In v MINECRAFT_VERSIONS -> Str.contains v jar_name = false))
  /\ server_dir s' = server_dir s /\ java_opts s' = java_opts s
  /\ mirror_site s' = mirror_site s /\ config_file s' = config_file s
  /\ process s' = process s /\ is_running s' = is_running s.
Proof.
  unfold detect_server_core. unfold_M. run_detect.
  assert (Hsecond : forall (s1 : Server) (tag : string),
    server_dir s1 = server_dir s -> java_opts s1 = java_opts s ->
    mirror_site s1 = mirror_site s -> config_file s1 = config_file s ->
    process s1 = process s -> is_running s1 = is_running s ->
    minecraft_version s1 = minecraft_version s ->
    server_jar s1 = VStr jar ->
    detect_core_type w (Path.div (server_dir s) jar) = Ok tag ->
    let m := find (fun version => Str.contains version
                     (Str.lower (Path.name (Path.div (server_dir s1) jar))))
               MINECRAFT_VERSIONS in
    let s' := match m with
              | Some version =>
                  set_minecraft_version (VStr version) (set_core_type (VStr tag) s1)
              | None => set_core_type (VStr tag) s1
              end in
    (exists tag', detect_core_type w (Path.div (server_dir s) jar) = Ok tag'
                  /\ core_type s' = VStr tag')
    /\ ((exists v, In v MINECRAFT_VERSIONS
                   /\ Str.contains v (Str.lower (Path.name (Path.div (server_dir s) jar))) = true
                   /\ minecraft_version s' = VStr v)
        \/ (minecraft_version s' = minecraft_version s
            /\ forall v, In v MINECRAFT_VERSIONS ->
                 Str.contains v (Str.lower (Path.name (Path.div (server_dir s) jar))) = false))
    /\ server_dir s' = server_dir s /\ java_opts s' = java_opts s
    /\ mirror_site s' = mirror_site s /\ config_file s' = config_file s
    /\ process s' = process s /\ is_running s' = is_running s).
  { intros s1 tag Hd Ho Hm Hc Hp Hr Hv Hj Htag m s'. subst s' m. rewrite Hd.
    destruct (find _ MINECRAFT_VERSIONS) as [v|] eqn:Hfind.
    - apply find_some in Hfind as [Hin Hv']. cbn -[detect_core_type MINECRAFT_VERSIONS Str.contains].
      split; [eauto|]. repeat split; auto. left. exists v. auto.
    - cbn -[detect_core_type MINECRAFT_VERSIONS Str.contains].
      split; [eauto|]. repeat split; auto. right. split; [exact Hv|].
      intros v Hin. apply (find_none _ _ Hfind v Hin). }
  destruct (truthy (server_jar s)) eqn:Hjar; run_detect.
  - rewrite Hjar. unfold path_div_value.
    destruct (server_jar s) as [| | |j| |] eqn:Hsj; run_detect; try discriminate.
    destruct (detect_core_type w (Path.div (server_dir s) j)) as [tag|e] eqn:Hdet;
      run_detect; [|discriminate].
    intros _ Hj Hne.
    assert (Hjj : j = jar).
    { destruct (find _ MINECRAFT_VERSIONS); cbn in Hj; rewrite Hsj in Hj; congruence. }
    subst j.
    specialize (Hsecond s tag eq_refl eq_refl eq_refl eq_refl eq_refl eq_refl eq_refl Hsj Hdet).
    cbv zeta in Hsecond.
    destruct (find _ MINECRAFT_VERSIONS); exact Hsecond.
  - destruct (FS.iterdir _ _) as [files|e]; [|discriminate].
    destruct (find _ files) as [file|]; run_detect.
    + destruct (truthy (VStr (List.last file ""))) eqn:Hn; run_detect.
      * destruct (detect_core_type w (Path.div (server_dir s) (List.last file "")))
          as [tag|e] eqn:Hdet; run_detect; [|discriminate].
        intros Hr Hj Hne.
        assert (Hfile : List.last file "" = jar).
        { destruct (find _ MINECRAFT_VERSIONS); cbn in Hj; congruence. }
        rewrite Hfile in *.
        specialize (Hsecond (set_server_jar (VStr jar) s) tag
                      eq_refl eq_refl eq_refl eq_refl eq_refl eq_refl eq_refl eq_refl Hdet).
        cbv zeta in Hsecond.
        change (server_dir (set_server_jar (VStr jar) s)) with (server_dir s) in *.
        destruct (find _ MINECRAFT_VERSIONS); exact Hsecond.
      * intros _ Hj Hne. cbn in Hj, Hn. injection Hj as Hj. rewrite Hj in Hn.
        apply negb_false_iff, String.eqb_eq in Hn. contradiction.
    + rewrite Hjar. intros _ Hj Hne. cbn in Hj. rewrite Hj in Hjar. cbn in Hjar.
      apply negb_false_iff, String.eqb_eq in Hjar. contradiction.
Qed.

Lemma detect_server_core_selects_witness :
  let s' := fst (snd (detect_server_core (sample_server, sample_world forge_fs))) in
  (exists n, server_jar s' = VStr n
             /\ selectable (sample_world forge_fs)
                  (FS.key (cwd (sample_world forge_fs)) (server_dir sample_server)) n
                = true)
  \/ (s' = sample_server
      /\ forall n, selectable (sample_world forge_fs)
                     (FS.key (cwd (sample_world forge_fs)) (server_dir sample_server)) n
                   = false).
Proof.
  apply (detect_server_core_selects sample_server (sample_world forge_fs) true);
    vm_compute; reflexivity.
Defined.

Lemma detect_server_core_tags_witness :
  exists tag,
    detect_core_type (sample_world paper_fs)
      (Path.div (server_dir paper_server) "paper-1.21.4.jar") = Ok tag
    /\ core_type (fst (snd (detect_server_core (paper_server, sample_world paper_fs))))
       = VStr tag.
Proof.
  refine (proj1 (detect_server_core_tags paper_server (sample_world paper_fs)
                   "paper-1.21.4.jar" _ _ _));
    [vm_compute; reflexivity | vm_compute; reflexivity | discriminate].
Defined.

(** ** The licence marker *)

Section Licence.
Context `{PyLib}.


End Licence.

(** ** Launching, on every path *)

Lemma fs_within_refl (ks : list (list string)) (m : FS.t) : fs_within ks m m.
Proof. split; auto. Qed.

Lemma fs_within_trans (ks : list (list string)) (m1 m2 m3 : FS.t) :
  fs_within ks m1 m2 -> fs_within ks m2 m3 -> fs_within ks m1 m3.
Proof.
  intros [H1 S1] [H2 S2]. split.
  - intros k Hk. rewrite H2, H1 by exact Hk. reflexivity.
  - auto.
Qed.

Lemma fs_within_insert (ks : list (list string)) (m : FS.t) (k : list string)
    (n : FS.node) :
  In k ks -> fs_within ks m (<[k := n]> m).
Proof.
  intros Hin. split.
  - intros k' Hk'. apply lookup_insert_ne. congruence.
  - intros k' Hs. destruct (decide (k = k')) as [->|Hne].
    + rewrite lookup_insert_eq. eauto.
    + rewrite lookup_insert_ne by exact Hne. exact Hs.
Qed.

Lemma may_write_within (ks : list (list string)) (cond : Prop) (k : list string)
    (m m' : FS.t) :
  In k ks -> may_write cond k m m' -> fs_within ks m m'.
Proof.
  intros Hin [->|[_ [f ->]]]; [apply fs_within_refl|apply fs_within_insert, Hin].
Qed.

Lemma launch_writes_refl (s : Server) (w : World) : launch_writes s w (fs w).
Proof. exists (fs w), (fs w). repeat split; left; reflexivity. Qed.

Lemma launch_writes_within (s : Server) (w : World) (m' : FS.t) :
  launch_writes s w m' -> fs_within (launch_files s w) (fs w) m'.
Proof.
  intros (m1 & m2 & H1 & H2 & H3).
  eapply fs_within_trans; [|eapply fs_within_trans].
  - eapply may_write_within; [|exact H1]. left. reflexivity.
  - eapply may_write_within; [|exact H2]. right. left. reflexivity.
  - eapply may_write_within; [|exact H3]. right. right. left. reflexivity.
Qed.

Section Starting.
Context `{PyLib}.

Lemma check_java_any (s : Server) (w : World) :
  exists r msgs,
    check_java (s, w)
    = (r, (s, set_console (console w ++ msgs)
                (set_calls (calls w ++ [CRun ["java"; "-version"]]) w)))
    /\ (r = Ok true <-> java_found s w = true).
Proof.
  unfold java_found, check_java, java_fallback. unfold_M. cbn -[find_java].
  destruct (java_probe w) as [rc|e].
  - destruct (rc =? 0)%Z; cbn -[find_java].
    + exists (Ok true), []. rewrite app_nil_r. split; [reflexivity|tauto].
    + rewrite (find_java_hosts s _ w) by reflexivity.
      destruct (find_java s w) as [j|]; cbn.
      * exists (Ok true), [MsgJavaCheckFailed]. split; [reflexivity|].
        split; [intros _; first [reflexivity | apply bool_decide_eq_true; eauto]|reflexivity].
      * exists (Ok false), [MsgJavaCheckFailed; MsgJavaNotFound].
        rewrite <- app_assoc. split; [reflexivity|].
        split; [discriminate|]. intros Hj.
        first [discriminate Hj | apply bool_decide_eq_true in Hj as [? ?]; discriminate].
  - destruct e; cbn -[find_java];
      try (eexists _, []; rewrite app_nil_r; split; [reflexivity|split; discriminate]).
    rewrite (find_java_hosts s _ w) by reflexivity.
    destruct (find_java s w) as [j|]; cbn.
    + exists (Ok true), [MsgJavaNotInPath]. split; [reflexivity|].
      split; [intros _; first [reflexivity | apply bool_decide_eq_true; eauto]|reflexivity].
    + exists (Ok false), [MsgJavaNotInPath; MsgJavaNotFound].
      rewrite <- app_assoc. split; [reflexivity|].
      split; [discriminate|]. intros Hj.
        first [discriminate Hj | apply bool_decide_eq_true in Hj as [? ?]; discriminate].
Qed.

Lemma ensure_eula_any (s : Server) (w : World) :
  exists r w',
    ensure_eula (s, w) = (r, (s, w'))
    /\ host w' = host w /\ calls w' = calls w
    /\ may_write (eula_accepted s w = Ok false) (eula_key s w) (fs w) (fs w').
Proof.
  unfold ensure_eula. unfold_M. step. unfold eula_accepted.
  destruct (check_eula s w) as [[[] msg]|e]; step.
  - exists (Ok true), w. repeat split. left. reflexivity.
  - rewrite accept_eula_run. step.
    destruct (FS.open_write _ _ _) as [fs'|e] eqn:Hw; step.
    + eexists (Ok true), _. split; [reflexivity|]. repeat split.
      right. apply open_write_ok in Hw. eauto.
    + eexists (Ok false), _. split; [reflexivity|]. repeat split. left. reflexivity.
  - exists (Raise e), w. repeat split. left. reflexivity.
Qed.

Lemma ensure_properties_any (s : Server) (w : World) :
  exists r w',
    ensure_properties (s, w) = (r, (s, w'))
    /\ host w' = host w /\ calls w' = calls w
    /\ may_write
         (FS.exists_ (fs w) (FS.key (cwd w) (Path.div (server_dir s) "server.properties"))
          = Ok false)
         (FS.key (cwd w) (Path.div (server_dir s) "server.properties")) (fs w) (fs w').
Proof.
  unfold ensure_properties. unfold_M. step.
  destruct (FS.exists_ _ _) as [[]|e] eqn:Hex; step.
  - exists (Ok tt), w. repeat split. left. reflexivity.
  - rewrite create_default_properties_run. step.
    destruct (FS.open_write _ _ _) as [fs'|e] eqn:Hw; step.
    + eexists (Ok tt), _. split; [reflexivity|]. repeat split.
      right. apply open_write_ok in Hw. eauto.
    + eexists (Raise e), _. split; [reflexivity|]. repeat split. left. reflexivity.
  - exists (Raise e), w. repeat split. left. reflexivity.
Qed.

Lemma get_java_command_any (s : Server) (w : World) :
  exists r,
    get_java_command (s, w) = (r, (s, w))
    /\ forall cmd, r = Ok cmd -> exists rest, cmd = "java" :: rest.
Proof.
  unfold get_java_command, path_div_value. unfold_M.
  cbn -[Path.div Path.to_string Str.split value_in].
  destruct (server_jar s); cbn -[Path.div Path.to_string Str.split value_in];
    try (eexists; split; [reflexivity|discriminate]).
  destruct (truthy (java_opts s)); cbn -[Path.div Path.to_string Str.split value_in].
  - destruct (java_opts s); cbn -[Path.div Path.to_string Str.split value_in];
      try (eexists; split; [reflexivity|discriminate]).
    destruct (value_in _ _); cbn -[Path.div Path.to_string Str.split value_in];
      (eexists; split; [reflexivity|]; intros cmd Hc; injection Hc as <-; eauto).
  - destruct (value_in _ _); cbn -[Path.div Path.to_string Str.split value_in];
      (eexists; split; [reflexivity|]; intros cmd Hc; injection Hc as <-; eauto).
Qed.

Lemma launch_any (cmd : list string) (s : Server) (w : World) :
  exists w',
    launch cmd (s, w)
    = match spawn w with
      | Ok p => (Ok true,
                 (set_start_time (Some (clock w))
                    (set_is_running true (set_process (Some (MkPopen p None)) s)), w'))
      | Raise e => (Ok false, (set_is_running false s, w'))
      end
    /\ host w' = host w
    /\ calls w' = (calls w ++ [CPopen cmd (server_dir s)])%list
    /\ may_write True (FS.key (cwd w) (config_file s)) (fs w) (fs w').
Proof.
  unfold launch. unfold_M. step. rewrite popen_run.
  destruct (spawn w) as [p|e]; step.
  - rewrite save_config_run. step.
    destruct (FS.open_write _ _ _) as [fs'|e] eqn:Hw; step.
    + destruct (json_dump_fault _); step;
        (eexists; split; [reflexivity|]; repeat split; right; eauto).
    + eexists. split; [reflexivity|]. repeat split. left. reflexivity.
  - eexists. split; [reflexivity|]. repeat split. left. reflexivity.
Qed.

Lemma start_server_any (s : Server) (w : World) :
  exists r s' w' popen_calls,
    start_server (s, w) = (r, (s', w'))
    /\ calls w' = (calls w ++ CRun ["java"; "-version"] :: popen_calls)%list
    /\ host w' = host w
    /\ launch_writes s w (fs w')
    /\ ((popen_calls = [] /\ r <> Ok true /\ s' = s)
        \/ (exists rest, popen_calls = [CPopen ("java" :: rest) (server_dir s)]
            /\ match spawn w with
               | Ok p =>
                   r = Ok true
                   /\ s' = set_start_time (Some (clock w))
                             (set_is_running true (set_process (Some (MkPopen p None)) s))
               | Raise e => r = Ok false /\ s' = set_is_running false s
               end)).
Proof.
  unfold start_server.
  destruct (check_java_any s w) as (r1 & msgs & Hcj & _).
  unfold mbind at 1, M_bind at 1. rewrite Hcj.
  set (w1 := set_console _ _).
  assert (Hdone : forall (r : result bool) w',
            r <> Ok true -> calls w' = calls w1 -> host w' = host w -> fs w' = fs w ->
            exists r0 s' w'0 popen_calls,
              (r, (s, w')) = (r0, (s', w'0))
              /\ calls w'0 = (calls w ++ CRun ["java"; "-version"] :: popen_calls)%list
              /\ host w'0 = host w
              /\ launch_writes s w (fs w'0)
              /\ ((popen_calls = [] /\ r0 <> Ok true /\ s' = s)
                  \/ (exists rest, popen_calls = [CPopen ("java" :: rest) (server_dir s)]
                      /\ match spawn w with
                         | Ok p =>
                             r0 = Ok true
                             /\ s' = set_start_time (Some (clock w))
                                       (set_is_running true
                                          (set_process (Some (MkPopen p None)) s))
                         | Raise e => r0 = Ok false /\ s' = set_is_running false s
                         end))).
  { intros r w' Hr Hc Hh Hf. exists r, s, w', []. split; [reflexivity|].
    split; [rewrite Hc; reflexivity|]. split; [exact Hh|].
    split; [rewrite Hf; apply launch_writes_refl|]. left. auto. }
  destruct r1 as [[]|e]; cbn [negb].
  2: { apply Hdone; [discriminate|reflexivity..]. }
  2: { apply Hdone; [discriminate|reflexivity..]. }
  unfold mbind at 1, M_bind at 1, get_self at 1. cbn [fst snd].
  unfold mbind at 1, M_bind at 1, lift at 1.
  destruct (path_div_value (server_dir s) (server_jar s)) as [jar_path|e].
  2: { apply Hdone; [discriminate|reflexivity..]. }
  unfold mbind at 1, M_bind at 1. unfold path_exists at 1. unfold_M. cbn [fst snd].
  destruct (FS.exists_ _ _) as [[]|e]; cbn [negb].
  2: { apply Hdone; [discriminate|reflexivity..]. }
  2: { apply Hdone; [discriminate|reflexivity..]. }
  destruct (ensure_eula_any s w1) as (r2 & w2 & Hee & Hh2 & Hc2 & Hf2).
  rewrite Hee.
  change (host w1) with (host w) in Hh2.
  change (may_write (eula_accepted s w = Ok false) (eula_key s w) (fs w) (fs w2)) in Hf2.
  assert (Hcwd2 : cwd w2 = cwd w) by (injection Hh2; auto).
  assert (Hstop2 : forall r : result bool, r <> Ok true ->
            exists r0 s' w'0 popen_calls,
              (r, (s, w2)) = (r0, (s', w'0))
              /\ calls w'0 = (calls w ++ CRun ["java"; "-version"] :: popen_calls)%list
              /\ host w'0 = host w
              /\ launch_writes s w (fs w'0)
              /\ ((popen_calls = [] /\ r0 <> Ok true /\ s' = s)
                  \/ (exists rest, popen_calls = [CPopen ("java" :: rest) (server_dir s)]
                      /\ match spawn w with
                         | Ok p =>
                             r0 = Ok true
                             /\ s' = set_start_time (Some (clock w))
                                       (set_is_running true
                                          (set_process (Some (MkPopen p None)) s))
                         | Raise e => r0 = Ok false /\ s' = set_is_running false s
                         end))).
  { intros r Hr. exists r, s, w2, []. split; [reflexivity|].
    split; [rewrite Hc2; reflexivity|]. split; [exact Hh2|].
    split; [exists (fs w2), (fs w2); repeat split; [exact Hf2|left; reflexivity..]|].
    left. auto. }
  destruct r2 as [[]|e]; cbn [negb].
  2: { apply Hstop2. discriminate. }
  2: { apply Hstop2. discriminate. }
  destruct (ensure_properties_any s w2) as (r3 & w3 & Hep & Hh3 & Hc3 & Hf3).
  rewrite Hep. rewrite Hcwd2 in Hf3.
  assert (Hcwd3 : cwd w3 = cwd w) by (injection Hh3; intros; congruence).
  assert (Hw3 : launch_writes s w (fs w3)).
  { exists (fs w2), (fs w3). repeat split; [exact Hf2|exact Hf3|left; reflexivity]. }
  destruct r3 as [[]|e].
  2: { exists (Raise e), s, w3, []. split; [reflexivity|].
       split; [rewrite Hc3, Hc2; reflexivity|]. split; [rewrite Hh3; exact Hh2|].
       split; [exact Hw3|]. left. repeat split. discriminate. }
  destruct (get_java_command_any s w3) as (r4 & Hgc & Hjava).
  rewrite Hgc.
  destruct r4 as [cmd|e].
  2: { exists (Raise e), s, w3, []. split; [reflexivity|].
       split; [rewrite Hc3, Hc2; reflexivity|]. split; [rewrite Hh3; exact Hh2|].
       split; [exact Hw3|]. left. repeat split. discriminate. }
  destruct (Hjava cmd eq_refl) as [rest ->].
  cbn [fst snd].
  match goal with |- context [launch _ (s, ?w0)] => set (w4 := w0) end.
  destruct (launch_any ("java" :: rest) s w4) as (w5 & Hl & Hh5 & Hc5 & Hf5).
  assert (Hsp : spawn w4 = spawn w).
  { change (spawn w4) with (spawn w3). injection Hh3; injection Hh2; intros; congruence. }
  assert (Hclk : clock w4 = clock w).
  { change (clock w4) with (clock w3). injection Hh3; injection Hh2; intros; congruence. }
  rewrite Hsp, Hclk in Hl.
  assert (Hw5 : launch_writes s w (fs w5)).
  { change (fs w4) with (fs w3) in Hf5. change (cwd w4) with (cwd w3) in Hf5.
    rewrite Hcwd3 in Hf5.
    exists (fs w2), (fs w3). repeat split; [exact Hf2|exact Hf3|exact Hf5]. }
  assert (Hh : host w5 = host w).
  { rewrite Hh5. change (host w4) with (host w3). rewrite Hh3. exact Hh2. }
  assert (Hc : calls w5
               = (calls w ++ CRun ["java"; "-version"]
                    :: [CPopen ("java" :: rest) (server_dir s)])%list).
  { rewrite Hc5. change (calls w4) with (calls w3). rewrite Hc3, Hc2.
    change (calls w1) with (calls w ++ [CRun ["java"; "-version"]])%list.
    rewrite <- app_assoc. reflexivity. }
  rewrite Hl.
  destruct (spawn w) as [p|e];
    (eexists _, _, w5, _; split; [reflexivity|]; split; [exact Hc|];
     split; [exact Hh|]; split; [exact Hw5|]; right; exists rest; auto).
Qed.

(** X14. Whatever its outcome, [start_server] changes no file other than
    the licence marker, [server.properties] and the profile, and removes
    none. *)
Theorem start_server_files (s : Server) (w : World) :
  let '(r, (s', w')) := start_server (s, w) in
  fs_within (launch_files s w) (fs w) (fs w').
Proof.
  destruct (start_server_any s w) as (r & s' & w' & pc & -> & _ & _ & Hfs & _).
  apply launch_writes_within, Hfs.
Qed.

(** X15. For an object whose profile is named [server_launcher.json],
    [start_server] never rewrites a licence marker that is accepted nor a
    [server.properties] that exists: whatever its outcome, each of the two
    files is afterwards what it was. *)
Theorem start_server_keeps_existing (s : Server) (w : World) :
  Path.name (config_file s) = "server_launcher.json" ->
  let kp := FS.key (cwd w) (Path.div (server_dir s) "server.properties") in
  let '(r, (s', w')) := start_server (s, w) in
  (eula_accepted s w = Ok true -> fs w' !! eula_key s w = fs w !! eula_key s w)
  /\ (FS.exists_ (fs w) kp = Ok true -> fs w' !! kp = fs w !! kp).
Proof.
  intros Hcfg kp.
  assert (Hke : eula_key s w = (FS.key (cwd w) (server_dir s) ++ ["eula.txt"])%list)
    by (apply key_div_name; reflexivity).
  assert (Hkp : kp = (FS.key (cwd w) (server_dir s) ++ ["server.properties"])%list)
    by (apply key_div_name; reflexivity).
  destruct (config_key_last s (cwd w) Hcfg) as [lc Hkc].
  assert (Hne_ep : eula_key s w <> kp) by (rewrite Hke, Hkp; apply last_snoc_ne; discriminate).
  assert (Hne_ec : eula_key s w <> FS.key (cwd w) (config_file s))
    by (rewrite Hke, Hkc; apply last_snoc_ne; discriminate).
  assert (Hne_pc : kp <> FS.key (cwd w) (config_file s))
    by (rewrite Hkp, Hkc; apply last_snoc_ne; discriminate).
  destruct (start_server_any s w) as (r & s' & w' & pc & -> & _ & _ & Hfs & _).
  destruct Hfs as (m1 & m2 & H1 & H2 & H3). fold kp in H2.
  assert (L3 : forall k, k <> FS.key (cwd w) (config_file s) -> fs w' !! k = m2 !! k).
  { intros k Hk. destruct H3 as [->|[_ [f ->]]]; [reflexivity|].
    apply lookup_insert_ne. congruence. }
  assert (L2 : forall k, k <> kp -> m2 !! k = m1 !! k).
  { intros k Hk. destruct H2 as [->|[_ [f ->]]]; [reflexivity|].
    apply lookup_insert_ne. congruence. }
  assert (L1 : forall k, k <> eula_key s w -> m1 !! k = fs w !! k).
  { intros k Hk. destruct H1 as [->|[_ [f ->]]]; [reflexivity|].
    apply lookup_insert_ne. congruence. }
  split.
  - intros Hacc. rewrite L3, L2 by congruence.
    destruct H1 as [->|[Hno _]]; [reflexivity|congruence].
  - intros Hex. rewrite L3 by congruence.
    destruct H2 as [->|[Hno _]]; [apply L1; congruence|].
    apply exists_false in Hno as [Hno _]. apply exists_true in Hex as [nd Hnd].
    rewrite L1 in Hno by congruence. congruence.
Qed.

(** X16. [start_server] makes the Java probe and then at most one
    [Popen], of a command that begins with [java], in [server_dir]; it
    makes no other call about a process, so a child that is already running
    is neither queried nor stopped.  When [Popen] is not reached the
    result is not [True] and the object is unchanged.  When it is
    reached, the result is [True] if it succeeds, the handle being
    replaced by the new one, [is_running] set and [start_time] set to the
    clock; and [False] if it raises, with only [is_running] reset. *)
Theorem start_server_outcome (s : Server) (w : World) :
  let '(r, (s', w')) := start_server (s, w) in
  let probe := CRun ["java"; "-version"] in
  (r <> Ok true /\ s' = s /\ calls w' = (calls w ++ [probe])%list)
  \/ (exists rest,
        calls w' = (calls w ++ [probe; CPopen ("java" :: rest) (server_dir s)])%list
        /\ match spawn w with
           | Ok p =>
               r = Ok true
               /\ s' = set_start_time (Some (clock w))
                         (set_is_running true (set_process (Some (MkPopen p None)) s))
           | Raise e => r = Ok false /\ s' = set_is_running false s
           end).
Proof.
  destruct (start_server_any s w) as (r & s' & w' & pc & -> & Hc & _ & _ & Hcase).
  cbv zeta. destruct Hcase as [(-> & Hr & ->)|(rest & -> & Hsp)].
  - left. auto.
  - right. exists rest. auto.
Qed.

(** X17. When the Java check does not pass, [start_server] does nothing
    but the probe: no file and no attribute changes and nothing is
    spawned.  It returns [False] after two messages when the probe
    returned a non-zero status or [java] is not on the search path and
    [find_java] finds nothing; any other error of the probe is raised to
    the caller. *)
Theorem start_server_no_java (s : Server) (w : World) :
  java_found s w = false ->
  let '(r, (s', w')) := start_server (s, w) in
  s' = s /\ fs w' = fs w
  /\ calls w' = (calls w ++ [CRun ["java"; "-version"]])%list
  /\ match java_probe w with
     | Raise FileNotFoundError =>
         r = Ok false
         /\ console w' = (console w ++ [MsgJavaNotInPath; MsgJavaNotFound])%list
     | Raise e => r = Raise e /\ console w' = console w
     | Ok _ =>
         r = Ok false
         /\ console w' = (console w ++ [MsgJavaCheckFailed; MsgJavaNotFound])%list
     end.
Proof.
  unfold java_found, start_server, check_java, java_fallback. intros Hj. unfold_M.
  cbn -[find_java].
  destruct (java_probe w) as [rc|e].
  - destruct (rc =? 0)%Z; [discriminate|]. cbn -[find_java] in *.
    rewrite (find_java_hosts s _ w) by reflexivity.
    destruct (find_java s w); [discriminate|]. cbn. rewrite <- app_assoc. auto.
  - destruct e; cbn -[find_java]; auto.
    rewrite (find_java_hosts s _ w) by reflexivity.
    destruct (find_java s w); [discriminate|]. cbn. rewrite <- app_assoc. auto.
Qed.

(** X18. When Java is found and [server_jar] is a string, what the
    [exists()] of the archive path says decides: on [False],
    [start_server] prints the missing-archive error and returns [False];
    when it raises (a name that is too long, a sealed directory on the
    way), the error leaves [start_server].  In both cases no file has been
    written and nothing spawned. *)
Theorem start_server_missing_jar (s : Server) (w : World) (jar : string) :
  java_found s w = true ->
  server_jar s = VStr jar ->
  let '(r, (s', w')) := start_server (s, w) in
  match FS.exists_ (fs w) (FS.key (cwd w) (Path.div (server_dir s) jar)) with
  | Ok true => True
  | Ok false =>
      r = Ok false /\ s' = s /\ fs w' = fs w
      /\ calls w' = (calls w ++ [CRun ["java"; "-version"]])%list
      /\ exists msgs, console w' = (console w ++ msgs ++ [MsgJarNotFound (VStr jar)])%list
  | Raise e =>
      r = Raise e /\ s' = s /\ fs w' = fs w
      /\ calls w' = (calls w ++ [CRun ["java"; "-version"]])%list
  end.
Proof.
  intros Hjava Hjar. unfold start_server.
  destruct (check_java_found _ _ Hjava) as [msgs Hcj].
  rewrite (bind_ok _ _ _ _ _ Hcj). cbn [negb].
  unfold_M. step. rewrite Hjar. step.
  destruct (FS.exists_ _ _) as [[]|e]; step.
  - match goal with |- match ?x with _ => _ end => destruct x as [? [? ?]] end. exact I.
  - repeat split. exists msgs. rewrite <- app_assoc. reflexivity.
  - repeat split.
Qed.

(** X19. When Java is found, the archive exists and the licence is
    accepted, but [server.properties] is absent and cannot be created,
    [start_server] does not return [False]: the error of
    [create_default_properties] is raised to the caller, nothing having
    been written or spawned. *)
Theorem start_server_properties_error (s : Server) (w : World) (jar : string) :
  java_found s w = true ->
  server_jar s = VStr jar ->
  FS.exists_ (fs w) (FS.key (cwd w) (Path.div (server_dir s) jar)) = Ok true ->
  eula_accepted s w = Ok true ->
  FS.exists_ (fs w) (FS.key (cwd w) (Path.div (server_dir s) "server.properties"))
  = Ok false ->
  can_write (fs w) (FS.key (cwd w) (Path.div (server_dir s) "server.properties"))
  = false ->
  let '(r, (s', w')) := start_server (s, w) in
  (exists e, r = Raise e)
  /\ s' = s /\ fs w' = fs w
  /\ calls w' = (calls w ++ [CRun ["java"; "-version"]])%list.
Proof.
  intros Hjava Hjar Hex Heula Hprops Hwr. unfold start_server.
  destruct (check_java_found _ _ Hjava) as [msgs Hcj].
  rewrite (bind_ok _ _ _ _ _ Hcj). cbn [negb].
  unfold_M. step. rewrite Hjar. step. rewrite Hex. step.
  unfold ensure_eula. unfold_M. step.
  match goal with |- context [check_eula s ?w0] =>
    rewrite (check_eula_frame s w0 w) by reflexivity end.
  apply check_eula_accepted in Heula as [msg ->]. step.
  unfold ensure_properties. unfold_M. step. rewrite Hprops. step.
  rewrite create_default_properties_run. step.
  rewrite (can_write_ok _ _ (text_file default_props)) in Hwr.
  destruct (FS.open_write _ _ _) as [fs'|e]; [discriminate|]. step.
  repeat split. eauto.
Qed.

End Starting.

Lemma start_server_no_java_witness :
  let '(r, (s', w')) := @start_server sample_lib (paper_server, no_java_world) in
  s' = paper_server /\ fs w' = fs no_java_world
  /\ calls w' = (calls no_java_world ++ [CRun ["java"; "-version"]])%list
  /\ r = Ok false
  /\ console w' = (console no_java_world ++ [MsgJavaNotInPath; MsgJavaNotFound])%list.
Proof.
  pose proof (@start_server_no_java sample_lib paper_server no_java_world) as Hstart.
  destruct (@start_server sample_lib (paper_server, no_java_world)) as [r [s' w']].
  apply Hstart. vm_compute. reflexivity.
Defined.

Lemma start_server_keeps_existing_witness :
  let w := sample_world settled_fs in
  let kp := FS.key (cwd w) (Path.div (server_dir paper_server) "server.properties") in
  let '(r, (s', w')) := @start_server sample_lib (paper_server, w) in
  fs w' !! eula_key paper_server w = fs w !! eula_key paper_server w
  /\ fs w' !! kp = fs w !! kp.
Proof.
  pose proof (@start_server_keeps_existing sample_lib paper_server
                (sample_world settled_fs) eq_refl) as Hkeep.
  cbv zeta in *.
  destruct (@start_server sample_lib (paper_server, sample_world settled_fs))
    as [r [s' w']].
  destruct Hkeep as [He Hp]. split; [apply He|apply Hp]; vm_compute; reflexivity.
Defined.

Lemma start_server_missing_jar_witness :
  (let '(r, (s', w')) :=
     @start_server sample_lib
       (set_server_jar (VStr "missing.jar") paper_server, sample_world paper_fs) in
   r = Ok false /\ s' = set_server_jar (VStr "missing.jar") paper_server
   /\ fs w' = fs (sample_world paper_fs)
   /\ calls w' = (calls (sample_world paper_fs) ++ [CRun ["java"; "-version"]])%list
   /\ exists msgs,
        console w' = (console (sample_world paper_fs) ++ msgs
                      ++ [MsgJarNotFound (VStr "missing.jar")])%list)
  /\ (let '(r, (s', w')) :=
        @start_server sample_lib
          (set_server_jar (VStr "/srv/vault/server.jar") paper_server, sample_world sealed_fs) in
      r = Raise PermissionError
      /\ s' = set_server_jar (VStr "/srv/vault/server.jar") paper_server
      /\ fs w' = fs (sample_world sealed_fs)
      /\ calls w' = (calls (sample_world sealed_fs) ++ [CRun ["java"; "-version"]])%list).
Proof.
  split.
  - apply (@start_server_missing_jar sample_lib
             (set_server_jar (VStr "missing.jar") paper_server) (sample_world paper_fs)
             "missing.jar"); vm_compute; reflexivity.
  - apply (@start_server_missing_jar sample_lib
             (set_server_jar (VStr "/srv/vault/server.jar") paper_server) (sample_world sealed_fs)
             "/srv/vault/server.jar"); vm_compute; reflexivity.
Defined.

Lemma start_server_properties_error_witness :
  let '(r, (s', w')) := @start_server sample_lib (paper_server, sample_world readonly_fs) in
  (exists e, r = Raise e)
  /\ s' = paper_server /\ fs w' = fs (sample_world readonly_fs)
  /\ calls w' = (calls (sample_world readonly_fs) ++ [CRun ["java"; "-version"]])%list.
Proof.
  apply (@start_server_properties_error sample_lib paper_server (sample_world readonly_fs)
           "paper-1.21.4.jar"); vm_compute; reflexivity.
Defined.

(** ** Commands to the child, and the other paths of a stop *)

Lemma endswith_refl (p : string) : Str.endswith p p = true.
Proof. destruct p; cbn; rewrite ?String.eqb_refl, ?Ascii.eqb_refl; reflexivity. Qed.

Lemma endswith_app (p s : string) : Str.endswith p (s +:+ p) = true.
Proof.
  induction s as [|c s IH]; [apply endswith_refl|].
  change (String c s +:+ p) with (String c (s +:+ p)).
  cbn [Str.endswith]. rewrite IH. apply orb_true_r.
Qed.

Lemma poll_any (s : Server) (w : World) (p : Popen) :
  process s = Some p ->
  exists w',
    poll (s, w)
    = (Ok (next_status p w),
       (set_process (Some (MkPopen (pid p) (next_status p w))) s, w'))
    /\ calls w' = (calls w ++ [CPoll (next_status p w)])%list
    /\ child_polls w' = match returncode p with
                        | Some _ => child_polls w
                        | None => tail (child_polls w)
                        end
    /\ stdin_faults w' = stdin_faults w /\ signal_faults w' = signal_faults w
    /\ console w' = console w /\ clock w' = clock w /\ fs w' = fs w.
Proof.
  intros Hp. unfold next_status. destruct (returncode p) as [rc|] eqn:Hrc.
  - rewrite (poll_cached s w p rc Hp Hrc).
    exists (set_calls (calls w ++ [CPoll (Some rc)]) w). split; [|repeat split].
    destruct s, p; cbn in *. subst. reflexivity.
  - rewrite (poll_fresh s w p Hp Hrc). eexists. split; [reflexivity|repeat split].
Qed.

(** X20. [send_command] never raises.  The line it writes always ends
    in a newline, added only when the command has none.  Without a handle,
    or when the child is found exited, nothing is written and the result
    is [False]; otherwise the line is written and flushed, the result being
    [True] unless the write or the flush fails, in which case the error is
    printed (and a failed write is not followed by a flush). *)
Theorem send_command_outcome (command : string) (s : Server) (w : World) :
  let line := command_line command in
  let '(r, (s', w')) := send_command command (s, w) in
  Str.endswith nl line = true
  /\ match process s with
     | None =>
         r = Ok false /\ calls w' = calls w
         /\ console w' = (console w ++ [MsgCannotSend])%list
     | Some p =>
         match next_status p w with
         | Some rc =>
             r = Ok false /\ calls w' = (calls w ++ [CPoll (Some rc)])%list
             /\ console w' = (console w ++ [MsgCannotSend])%list
         | None =>
             match stdin_faults w with
             | Some e :: _ =>
                 r = Ok false
                 /\ calls w' = (calls w ++ [CPoll None; CStdinWrite line])%list
                 /\ console w' = (console w ++ [MsgSendError e])%list
             | _ :: Some e :: _ =>
                 r = Ok false
                 /\ calls w' = (calls w ++ [CPoll None; CStdinWrite line; CStdinFlush])%list
                 /\ console w' = (console w ++ [MsgSendError e])%list
             | _ =>
                 r = Ok true
                 /\ calls w' = (calls w ++ [CPoll None; CStdinWrite line; CStdinFlush])%list
                 /\ console w' = console w
             end
         end
     end.
Proof.
  cbv zeta.
  assert (Hline : Str.endswith nl (command_line command) = true).
  { unfold command_line. destruct (Str.endswith nl command) eqn:He; [exact He|].
    apply endswith_app. }
  unfold send_command.
  unfold mbind at 1, M_bind at 1, get_self at 1. cbn [fst snd].
  destruct (process s) as [p|] eqn:Hp.
  2: { unfold_M. cbn -[command_line nl]. auto. }
  destruct (poll_any s w p Hp) as (w1 & Hpoll & Hc1 & _ & Hin1 & _ & Hcon1 & _).
  unfold mbind at 1, M_bind at 1. unfold mbind at 1, M_bind at 1. rewrite Hpoll.
  unfold mret at 1, M_ret at 1.
  destruct (next_status p w) as [rc|].
  { rewrite bool_decide_eq_false_2 by discriminate. unfold_M. cbn -[command_line nl].
    rewrite Hc1, Hcon1. auto. }
  rewrite bool_decide_eq_true_2 by reflexivity.
  fold (command_line command).
  unfold stdin_op. unfold_M. cbn -[command_line nl]. rewrite Hin1.
  destruct (stdin_faults w) as [|[e|] l]; cbn -[command_line nl];
    rewrite ?Hc1, ?Hcon1, <- ?app_assoc; auto.
  destruct l as [|[e|] l]; cbn -[command_line nl];
    rewrite ?Hc1, ?Hcon1, <- ?app_assoc; auto.
Qed.

Lemma taskkill_or_kill_run (s : Server) (w : World) (p : Popen) :
  process s = Some p ->
  taskkill_or_kill (s, w)
  = (match signal_faults w with Some e :: _ => Raise e | _ => Ok tt end,
     (s, set_signal_faults (tail (signal_faults w))
           (set_calls (calls w ++ [second_kill s p]) w))).
Proof.
  intros Hp. unfold taskkill_or_kill, second_kill, signal_op. unfold_M. cbn -[pretty].
  rewrite Hp. destruct (is_windows s); cbn -[pretty];
    destruct (signal_faults w) as [|[e|] l]; reflexivity.
Qed.

Lemma force_wait_run (s : Server) (w : World) (p : Popen) :
  process s = Some p -> returncode p = None ->
  exists r w',
    (sleep 2;;
     r ← poll;
     match r with
     | Some _ => mret ()
     | None => taskkill_or_kill
     end) (s, w)
    = (r, (set_process (Some (MkPopen (pid p) (nth 0 (child_polls w) None))) s, w'))
    /\ clock w' = (clock w + 2)%Z
    /\ console w' = console w
    /\ match nth 0 (child_polls w) None with
       | Some rc =>
           r = Ok tt /\ calls w' = (calls w ++ [CSleep 2; CPoll (Some rc)])%list
       | None =>
           r = match signal_faults w with Some e :: _ => Raise e | _ => Ok tt end
           /\ calls w' = (calls w ++ [CSleep 2; CPoll None; second_kill s p])%list
       end.
Proof.
  intros Hp Hrc. unfold sleep.
  unfold mbind at 1, M_bind at 1. unfold mbind at 1, M_bind at 1.
  unfold log_call at 1, update_world at 1. cbn [fst snd].
  unfold update_world at 1. cbn [fst snd].
  unfold mbind at 1, M_bind at 1.
  match goal with
  | |- context [poll (s, ?w3)] =>
      rewrite (poll_fresh s w3 p Hp Hrc); change (child_polls w3) with (child_polls w)
  end.
  destruct (nth 0 (child_polls w) None) as [rc|] eqn:Ha.
  - unfold_M. eexists _, _. split; [reflexivity|]. cbn. rewrite <- !app_assoc. auto.
  - match goal with
    | |- context [taskkill_or_kill (?s3, ?w3)] =>
        rewrite (taskkill_or_kill_run s3 w3 (MkPopen (pid p) None) eq_refl);
        change (signal_faults w3) with (signal_faults w)
    end.
    eexists _, _. split; [reflexivity|]. cbn -[second_kill]. rewrite <- !app_assoc.
    repeat split.
Qed.

(** X21. [stop_server(force=True)] on a live child writes nothing to its
    input and does not wait for it: after the two queries it makes the
    first termination call ([terminate()] on Windows, [kill()] elsewhere),
    sleeps two seconds, queries once more and, if the child is still
    running, makes the second call ([taskkill /F /PID pid] on Windows,
    [kill()] elsewhere).  It then marks the state stopped and returns
    [True] without a further query, so the handle may still have no exit
    status; a termination call that raises gives [False]. *)
Theorem stop_server_forced (s : Server) (w : World) (p : Popen) :
  process s = Some p ->
  returncode p = None ->
  nth 0 (child_polls w) None = None ->
  let polls := child_polls w in
  let first := if is_windows s then CTerminate else CKill in
  let '(r, (s', w')) := stop_server true (s, w) in
  match nth 1 polls None with
  | Some rc =>
      calls w' = (calls w ++ [CPoll None; CPoll (Some rc)])%list
      /\ r = Ok true /\ is_running s' = false /\ clock w' = clock w
  | None =>
      match signal_faults w with
      | Some e :: _ =>
          calls w' = (calls w ++ [CPoll None; CPoll None; first])%list
          /\ r = Ok false /\ is_running s' = is_running s /\ clock w' = clock w
      | _ =>
          clock w' = (clock w + 2)%Z
          /\ match nth 2 polls None with
             | Some rc =>
                 calls w' = (calls w ++ [CPoll None; CPoll None; first; CSleep 2;
                                         CPoll (Some rc)])%list
                 /\ r = Ok true /\ is_running s' = false
             | None =>
                 calls w' = (calls w ++ [CPoll None; CPoll None; first; CSleep 2;
                                         CPoll None; second_kill s p])%list
                 /\ r = match tail (signal_faults w) with
                        | Some e :: _ => Ok false
                        | _ => Ok true
                        end
                 /\ (r = Ok true ->
                     is_running s' = false
                     /\ process s' = Some (MkPopen (pid p) None))
             end
      end
  end.
Proof.
  intros Hp Hrc Halive polls first. unfold stop_server.
  unfold mbind at 1, M_bind at 1, get_self at 1. cbn [fst snd]. rewrite Hp.
  unfold mbind at 1, M_bind at 1. unfold mbind at 1, M_bind at 1.
  rewrite (poll_fresh s w p Hp Hrc), Halive.
  unfold mret at 1, M_ret at 1.
  rewrite bool_decide_eq_false_2 by congruence.
  set (s1 := set_process (Some (MkPopen (pid p) None)) s).
  set (w1 := set_calls _ _).
  unfold try_except. cbn [negb].
  unfold mbind at 1, M_bind at 1, mret at 1, M_ret at 1.
  unfold terminate_if_running.
  unfold mbind at 1, M_bind at 1. unfold mbind at 1, M_bind at 1.
  rewrite (poll_fresh s1 w1 (MkPopen (pid p) None) eq_refl eq_refl).
  change (child_polls w1) with (tail polls). rewrite nth_tail.
  destruct (nth 1 polls None) as [rc|] eqn:Ha1.
  { unfold_M. cbn. rewrite <- app_assoc. auto. }
  unfold mbind at 1, M_bind at 1. unfold print at 1, update_world at 1. cbn [fst snd].
  unfold mbind at 1, M_bind at 1. rewrite terminate_or_kill_run.
  cbn [signal_faults set_console set_calls set_child_polls calls is_windows set_process].
  change (signal_faults w1) with (signal_faults w).
  change (is_windows s1) with (is_windows s). fold first.
  match goal with
  | |- context [(sleep 2 ≫= _) (?s3, ?w3)] =>
      destruct (force_wait_run s3 w3 (MkPopen (pid p) None) eq_refl eq_refl)
        as (r2 & w4 & Hrun & Hclk & Hcon & Hcase);
      change (child_polls w3) with (tail (tail polls)) in *;
      change (clock w3) with (clock w) in *;
      change (calls w3)
        with (((calls w ++ [CPoll None]) ++ [CPoll None]) ++ [first])%list in *;
      change (signal_faults w3) with (tail (signal_faults w)) in *
  end.
  rewrite !nth_tail in *.
  destruct (signal_faults w) as [|[e|] l] eqn:Hsig.
  2: { unfold_M. cbn. rewrite <- !app_assoc. auto. }
  all: rewrite Hrun; cbn [tail] in *;
    destruct (nth 2 polls None) as [rc|] eqn:Ha2;
    destruct Hcase as [-> Hc4].
  all: try (destruct l as [|[e|] l]); unfold_M; cbn;
    rewrite ?Hc4, ?Hclk, <- ?app_assoc; repeat split; discriminate.
Qed.

(** X22. When there is no handle, or the child is found exited,
    [stop_server], forced or not, makes no termination call: it prints
    that the server is not running, resets [is_running] and [start_time]
    and returns [True]. *)
Theorem stop_server_idle (force : bool) (s : Server) (w : World) :
  match process s with
  | Some p => next_status p w <> None
  | None => True
  end ->
  let '(r, (s', w')) := stop_server force (s, w) in
  r = Ok true /\ is_running s' = false /\ start_time s' = None
  /\ console w' = (console w ++ [MsgNotRunning])%list
  /\ calls w' = (calls w ++ match process s with
                            | Some p => [CPoll (next_status p w)]
                            | None => []
                            end)%list
  /\ signal_faults w' = signal_faults w.
Proof.
  intros Hidle. unfold stop_server.
  unfold mbind at 1, M_bind at 1, get_self at 1. cbn [fst snd].
  destruct (process s) as [p|] eqn:Hp.
  - destruct (poll_any s w p Hp) as (w1 & Hpoll & Hc1 & _ & _ & Hsig1 & Hcon1 & _).
    unfold mbind at 1, M_bind at 1. unfold mbind at 1, M_bind at 1. rewrite Hpoll.
    unfold mret at 1, M_ret at 1.
    rewrite bool_decide_eq_true_2 by exact Hidle.
    unfold_M. cbn. rewrite Hc1, Hsig1, Hcon1. repeat split.
  - unfold_M. cbn. rewrite app_nil_r. repeat split.
Qed.

Lemma stop_server_forced_witness :
  let '(r, (s', w')) := stop_server true (running_server, sample_world paper_fs) in
  clock w' = 1002%Z
  /\ calls w' = [CPoll None; CPoll None; CKill; CSleep 2; CPoll None; CKill]
  /\ r = Ok true
  /\ (r = Ok true ->
      is_running s' = false /\ process s' = Some (MkPopen 4242 None)).
Proof.
  exact (stop_server_forced running_server (sample_world paper_fs) (MkPopen 4242 None)
           eq_refl eq_refl eq_refl).
Defined.

Lemma stop_server_idle_witness :
  let '(r, (s', w')) :=
    stop_server false
      (running_server, set_child_polls [Some 0%Z] (sample_world paper_fs)) in
  r = Ok true /\ is_running s' = false /\ start_time s' = None
  /\ console w' = [MsgNotRunning]
  /\ calls w' = [CPoll (Some 0%Z)]
  /\ signal_faults w' = [].
Proof.
  apply (stop_server_idle false running_server
           (set_child_polls [Some 0%Z] (sample_world paper_fs))).
  vm_compute. discriminate.
Defined.

(** ** The status *)

Section Status.
Context `{PyLib}.

Lemma status_fault_none (s : Server) (w : World) :
  status_fault s w = None ->
  unhashable (core_type s) = false
  /\ FS.is_file (fs w) (FS.key (cwd w) (backup_dir s)) = false.
Proof.
  unfold status_fault, FS.is_file.
  destruct (unhashable (core_type s)); [discriminate|].
  destruct (FS.exists_ (fs w) (FS.key (cwd w) (Path.div (server_dir s) "eula.txt")));
    [|discriminate].
  unfold FS.exists_, FS.iterdir.
  destruct (fs w !! FS.key (cwd w) (backup_dir s)) as [[?|?|]|];
    try discriminate; auto.
Qed.

Lemma get_status_fault (s : Server) (w : World) :
  match get_status s w with
  | Ok st =>
      Dict.keys st
      = (STATUS_KEYS ++
         match get_uptime s w with
         | Some uptime => if (uptime =? 0)%Z then [] else ["uptime"; "start_time"]
         | None => []
         end)%list
      /\ status_fault s w = None
  | Raise e => status_fault s w = Some e
  end.
Proof.
  unfold get_status, status_fault, eula_accepted, check_eula, backup_count.
  destruct (core_type s); cbn [core_name unhashable]; try reflexivity.
  all: destruct (FS.exists_ (fs w) (FS.key (cwd w) (Path.div (server_dir s) "eula.txt")))
         as [[]|e1]; try reflexivity.
  all: try (destruct (match FS.open_read _ _ with Ok f => read_text f | Raise e => Raise e end)
              as [content|e0];
            [destruct (Str.contains "eula=true" (Str.lower content))|]).
  all: destruct (FS.exists_ (fs w) (FS.key (cwd w) (backup_dir s))) as [[]|e2];
         try reflexivity.
  all: try (destruct (FS.iterdir (fs w) (FS.key (cwd w) (backup_dir s))) as [l|e3];
            try reflexivity).
  all: destruct (get_uptime s w) as [u|]; [destruct (u =? 0)%Z|]; split; reflexivity.
Qed.

(** X23. A status that [get_status] returns has the ten fixed keys in
    their order, followed by [uptime] and [start_time] exactly when
    [get_uptime] gives a duration that is not zero.  [get_status] raises
    exactly when [core_type] is a list or a dictionary ([TypeError]) or
    the operating system refuses one of its three queries, which are made
    in this order: the [exists()] of the licence marker, the [exists()] of
    the backup directory and, when that exists, its [iterdir()], which a
    regular file and a sealed directory refuse. *)
Theorem get_status_keys (s : Server) (w : World) :
  match get_status s w with
  | Ok st =>
      Dict.keys st
      = (STATUS_KEYS ++
         match get_uptime s w with
         | Some uptime => if (uptime =? 0)%Z then [] else ["uptime"; "start_time"]
         | None => []
         end)%list
      /\ status_fault s w = None
      /\ unhashable (core_type s) = false
      /\ FS.is_file (fs w) (FS.key (cwd w) (backup_dir s)) = false
  | Raise e => status_fault s w = Some e
  end
  /\ match fs w !! FS.key (cwd w) (backup_dir s) with
     | Some (FS.Reg _) =>
         FS.iterdir (fs w) (FS.key (cwd w) (backup_dir s)) = Raise NotADirectoryError
     | Some FS.Sealed =>
         FS.iterdir (fs w) (FS.key (cwd w) (backup_dir s)) = Raise PermissionError
     | Some (FS.Dir _) =>
         exists l, FS.iterdir (fs w) (FS.key (cwd w) (backup_dir s)) = Ok l
     | None => True
     end.
Proof.
  split.
  - pose proof (get_status_fault s w) as Hst.
    destruct (get_status s w) as [st|e]; [|exact Hst].
    destruct Hst as [Hkeys Hnone].
    split; [exact Hkeys|]. split; [exact Hnone|]. apply status_fault_none, Hnone.
  - unfold FS.iterdir.
    destruct (fs w !! FS.key (cwd w) (backup_dir s)) as [[?|?|]|]; eauto.
Qed.

End Status.

(** A backup directory that is sealed exists, and its listing is refused:
    the status of the Paper server cannot be built. *)
Example get_status_sealed_backups :
  FS.exists_ sealed_backups_fs ["srv"; "mc"; "backups"] = Ok true
  /\ FS.iterdir sealed_backups_fs ["srv"; "mc"; "backups"] = Raise PermissionError
  /\ @get_status sample_lib paper_server (sample_world sealed_backups_fs)
     = Raise PermissionError.
Proof. vm_compute. repeat split. Qed.

(** ** The status after a launch *)

Section StartedStatus.
Context `{PyLib}.

Lemma get_status_pid (s : Server) (w : World) (st : Dict.t value) :
  get_status s w = Ok st ->
  Dict.get st "pid" = Some (match process s with
                            | Some p => VInt (pid p)
                            | None => VNone
                            end).
Proof.
  unfold get_status.
  destruct (core_name _); [|discriminate].
  destruct (eula_accepted _ _); [|discriminate].
  destruct (backup_count _ _); [|discriminate].
  destruct (get_uptime s w) as [u|]; [destruct (negb _)|];
    intros Hst; injection Hst as <-; reflexivity.
Qed.

(** X24. After a [start_server] that returned [True], every status that
    [get_status] returns reports ["running": True] and, as ["pid"], the pid
    of the child that [Popen] has just spawned. *)
Theorem start_server_status (s : Server) (w : World) (st : Dict.t value) :
  fst (start_server (s, w)) = Ok true ->
  let '(s', w') := snd (start_server (s, w)) in
  get_status s' w' = Ok st ->
  Dict.get st "running" = Some (VBool true)
  /\ exists p, spawn w = Ok p /\ Dict.get st "pid" = Some (VInt p).
Proof.
  destruct (start_server_any s w) as (r & s' & w' & pc & -> & _ & _ & _ & Hcase).
  cbn [fst snd]. intros -> Hst.
  destruct Hcase as [(_ & Hr & _)|(rest & _ & Hsp)]; [congruence|].
  destruct (spawn w) as [p|e]; [|destruct Hsp; discriminate].
  destruct Hsp as [_ ->].
  split.
  - rewrite (get_status_running _ _ _ Hst). reflexivity.
  - exists p. split; [reflexivity|]. rewrite (get_status_pid _ _ _ Hst). reflexivity.
Qed.

End StartedStatus.

Lemma start_server_status_witness :
  let '(s', w') := snd (@start_server sample_lib (paper_server, sample_world paper_fs)) in
  exists st,
    @get_status sample_lib s' w' = Ok st
    /\ Dict.get st "running" = Some (VBool true)
    /\ Dict.get st "pid" = Some (VInt 4242).
Proof.
  assert (Hrun : fst (@start_server sample_lib (paper_server, sample_world paper_fs))
                 = Ok true) by (vm_compute; reflexivity).
  pose proof (fun st => @start_server_status sample_lib paper_server
                          (sample_world paper_fs) st Hrun) as Hs.
  assert (Hok : exists st,
            (let '(s', w') :=
               snd (@start_server sample_lib (paper_server, sample_world paper_fs)) in
             @get_status sample_lib s' w') = Ok st)
    by (vm_compute; eexists; reflexivity).
  destruct (snd (@start_server sample_lib (paper_server, sample_world paper_fs)))
    as [s' w'].
  destruct Hok as [st Hst]. exists st. split; [exact Hst|].
  destruct (Hs st Hst) as [Hr [p [Hp Hpid]]]. split; [exact Hr|].
  cbn in Hp. injection Hp as <-. exact Hpid.
Defined.

(** ** The constructor *)

Section Constructor.
Context `{PyLib}.

Lemma mkdir_grows (m m' : FS.t) (k : list string) :
  FS.mkdir_exist_ok m k = Ok m' ->
  m' = m \/ (m !! k = None /\ m' = <[k := FS.Dir true]> m).
Proof.
  unfold FS.mkdir_exist_ok, FS.create.
  destruct (m !! k) as [[?|?|]|] eqn:Hk; try discriminate.
  - intros Hm. injection Hm as <-. auto.
  - intros Hm. injection Hm as <-. auto.
  - destruct (FS.lookup_fault m k); [discriminate|].
    destruct (m !! removelast k) as [[[]|?|]|]; try discriminate.
    intros Hm. injection Hm as <-. auto.
Qed.

Lemma load_config_grows (s : Server) (w : World) :
  exists r s' w',
    load_config (s, w) = (r, (s', w'))
    /\ cwd w' = cwd w /\ platform_windows w' = platform_windows w
    /\ config_file s' = config_file s /\ backup_dir s' = backup_dir s
    /\ log_file s' = log_file s
    /\ (fs w' = fs w
        \/ (fs w !! FS.key (cwd w) (config_file s) = None
            /\ exists f, fs w' = <[FS.key (cwd w) (config_file s) := FS.Reg f]> (fs w))).
Proof.
  destruct (FS.exists_ (fs w) (FS.key (cwd w) (config_file s))) as [[]|e0] eqn:Hex.
  - destruct (config_record s w) as [d|] eqn:Hrec.
    + destruct (field d "server_dir" (VStr (Path.to_string (server_dir s))))
        as [| | |dir| |] eqn:Hdir.
      4: { rewrite (load_config_reads s w d dir Hrec Hdir). eexists _, _, _.
           split; [reflexivity|]. repeat split. left. reflexivity. }
      all: destruct (load_config_fails s w Hex) as [e ->];
        [right; unfold field in Hdir; destruct (Dict.get d "server_dir") as [v|] eqn:Hv;
           [subst v; exists d; eexists; split; [exact Hrec|split; [exact Hv|discriminate]]
           | discriminate]
        | eexists _, _, _; split; [reflexivity|]; repeat split; left; reflexivity].
    + destruct (load_config_fails s w Hex) as [e ->]; [left; exact Hrec|].
      eexists _, _, _; split; [reflexivity|]; repeat split; left; reflexivity.
  - rewrite (load_config_absent _ _ Hex), save_config_run. cbv zeta.
    cbn [config_file set_mirror_site set_minecraft_version set_core_type].
    apply exists_false in Hex as [Hl _].
    destruct (FS.open_write _ _ _) as [fs'|e] eqn:Hw.
    + destruct (json_dump_fault _) as [e|];
        (eexists _, _, _; split; [reflexivity|]; repeat split; right;
         split; [exact Hl|]; cbn [fs set_fs set_console]; eauto).
    + eexists _, _, _. split; [reflexivity|]. repeat split. left. reflexivity.
  - rewrite (load_config_raise _ _ _ Hex). eexists _, _, _.
    split; [reflexivity|]. repeat split. left. reflexivity.
Qed.

Lemma detect_server_core_frame (s : Server) (w : World) :
  exists r s',
    detect_server_core (s, w) = (r, (s', w))
    /\ server_dir s' = server_dir s /\ config_file s' = config_file s
    /\ backup_dir s' = backup_dir s /\ log_file s' = log_file s
    /\ is_windows s' = is_windows s.
Proof.
  unfold detect_server_core, path_div_value. unfold_M.
  cbn -[detect_core_type MINECRAFT_VERSIONS FS.iterdir FS.key Path.div Path.name
        Str.contains Str.lower Str.endswith find truthy].
  destruct (truthy (server_jar s)) eqn:Hjar;
    cbn -[detect_core_type MINECRAFT_VERSIONS FS.iterdir FS.key Path.div Path.name
          Str.contains Str.lower Str.endswith find truthy].
  - rewrite Hjar.
    destruct (server_jar s); try (eexists _, _; split; [reflexivity|repeat split]; fail).
    destruct (detect_core_type _ _) as [tag|e];
      [|eexists _, _; split; [reflexivity|repeat split]].
    destruct (find _ MINECRAFT_VERSIONS); eexists _, _; (split; [reflexivity|repeat split]).
  - destruct (FS.iterdir _ _) as [files|e];
      [|eexists _, _; split; [reflexivity|repeat split]].
    destruct (find _ files) as [file|];
      cbn -[detect_core_type MINECRAFT_VERSIONS FS.iterdir FS.key Path.div Path.name
            Str.contains Str.lower Str.endswith find truthy].
    + destruct (truthy (VStr (List.last file "")));
        [|eexists _, _; split; [reflexivity|repeat split]].
      destruct (detect_core_type _ _) as [tag|e];
        [|eexists _, _; split; [reflexivity|repeat split]].
      destruct (find _ MINECRAFT_VERSIONS); eexists _, _; (split; [reflexivity|repeat split]).
    + rewrite Hjar. eexists _, _; split; [reflexivity|repeat split].
Qed.

(** X25. Whether it returns or raises, the constructor only adds entries
    to the file system: every entry that existed is still there, unchanged,
    and a new entry can only be the server directory, its [backups]
    directory or its profile. *)
Theorem UniversalServer_files (given : string) (w : World) :
  let '(r, (s', w')) := UniversalServer given w in
  fs w ⊆ fs w'
  /\ (forall k, ~ In k (home_entries given w) -> fs w' !! k = fs w !! k).
Proof.
  unfold UniversalServer, init, home_entries, home.
  unfold mbind at 1, M_bind at 1, get_world at 1. cbn [fst snd].
  unfold mbind at 1, M_bind at 1, update_self at 1. cbn [fst snd].
  unfold mbind at 1, M_bind at 1, get_self at 1. cbn [fst snd].
  cbn [core_type minecraft_version mirror_site is_windows blank].
  set (d := Path.absolute (cwd w) (Path.of_string given)).
  set (s0 := MkServer d (VStr "") (VStr "-Xmx2048M -Xms2048M") None false None
               (Path.div d "server.log") (Path.div d "backups")
               (Path.div d "server_launcher.json") VNone VNone VNone false).
  unfold mbind at 1, M_bind at 1, lift at 1.
  destruct (FS.mkdir_exist_ok (fs w) (FS.key (cwd w) d)) as [fs1|e] eqn:Hm1;
    [|cbv beta iota; split; [reflexivity|auto]].
  unfold mbind at 1, M_bind at 1, update_world at 1. cbn [fst snd].
  unfold mbind at 1, M_bind at 1, lift at 1.
  change (backup_dir s0) with (Path.div d "backups").
  destruct (FS.mkdir_exist_ok fs1 _) as [fs2|e] eqn:Hm2.
  2: { cbv beta iota. cbn [fs set_fs]. apply mkdir_grows in Hm1 as [->|[Hn ->]]; [split; [reflexivity|auto]|].
       split; [apply insert_subseteq; exact Hn|].
       intros k Hk. apply lookup_insert_ne. intros <-. apply Hk. left. reflexivity. }
  unfold mbind at 1, M_bind at 1, update_world at 1. cbn [fst snd].
  unfold mbind at 1, M_bind at 1.
  match goal with |- context [load_config (s0, ?w0)] => set (w2 := w0) end.
  destruct (load_config_grows s0 w2) as (r3 & s3 & w3 & -> & Hcwd3 & _ & _ & _ & _ & Hfs3).
  assert (Hend : exists r s5,
            match r3 with
            | Ok _ => (update_self (set_is_windows (platform_windows w));;
                       detect_server_core) (s3, w3)
            | Raise e => (Raise e, (s3, w3))
            end = (r, (s5, w3))).
  { destruct r3 as [[]|e]; [|eauto].
    unfold mbind at 1, M_bind at 1, update_self at 1. cbn [fst snd].
    match goal with |- context [detect_server_core (?s4, w3)] =>
      destruct (detect_server_core_frame s4 w3) as (r & s5 & -> & _) end.
    eauto. }
  destruct Hend as (r & s5 & Hend).
  match goal with |- context [match ?x with _ => _ end] =>
    replace x with (r, (s5, w3)) by (rewrite <- Hend; destruct r3 as [[]|e]; reflexivity)
  end.
  change (fs w2) with fs2 in Hfs3. change (cwd w2) with (cwd w) in Hfs3.
  change (config_file s0) with (Path.div d "server_launcher.json") in Hfs3.
  assert (H1 : fs w ⊆ fs1 /\ forall k, k <> FS.key (cwd w) d -> fs1 !! k = fs w !! k).
  { apply mkdir_grows in Hm1 as [->|[Hn ->]]; [split; [reflexivity|auto]|].
    split; [apply insert_subseteq; exact Hn|]. intros k Hk. apply lookup_insert_ne. congruence. }
  assert (H2 : fs1 ⊆ fs2
               /\ forall k, k <> FS.key (cwd w) (Path.div d "backups") -> fs2 !! k = fs1 !! k).
  { apply mkdir_grows in Hm2 as [->|[Hn ->]]; [split; [reflexivity|auto]|].
    split; [apply insert_subseteq; exact Hn|]. intros k Hk. apply lookup_insert_ne. congruence. }
  assert (H3 : fs2 ⊆ fs w3
               /\ forall k, k <> FS.key (cwd w) (Path.div d "server_launcher.json") ->
                    fs w3 !! k = fs2 !! k).
  { destruct Hfs3 as [->|[Hn [f ->]]]; [split; [reflexivity|auto]|].
    split; [apply insert_subseteq; exact Hn|]. intros k Hk. apply lookup_insert_ne. congruence. }
  destruct H1 as [S1 F1], H2 as [S2 F2], H3 as [S3 F3]. cbv beta iota. split.
  - etransitivity; [exact S1|]. etransitivity; [exact S2|exact S3].
  - intros k Hk. rewrite F3, F2, F1; [reflexivity|..];
      intros ->; apply Hk; cbn; auto.
Qed.

Ltac open_init :=
  unfold UniversalServer, init;
  unfold mbind at 1, M_bind at 1, get_world at 1; cbn [fst snd];
  unfold mbind at 1, M_bind at 1, update_self at 1; cbn [fst snd];
  unfold mbind at 1, M_bind at 1, get_self at 1; cbn [fst snd];
  cbn [core_type minecraft_version mirror_site is_windows blank];
  unfold mbind at 1, M_bind at 1, lift at 1.

Lemma find_none_iff {A} (f : A -> bool) (l : list A) :
  (forall x, In x l -> f x = false) -> find f l = None.
Proof.
  intros Hall. destruct (find f l) as [x|] eqn:Hf; [|reflexivity].
  apply find_some in Hf as [Hin Hx]. rewrite (Hall x Hin) in Hx. discriminate.
Qed.

(** X26. For a directory that does not exist yet, in a writable
    directory, and whose name is no longer than 255 bytes, the constructor
    returns; it creates the directory, its [backups] directory and a
    profile, and the object has the default attributes, an empty archive
    name and [core_type] ["unknown"].  The profile holds the default
    record, or, when [json.dump] raises on it, what had been written, the
    error being printed.  With a longer name the constructor raises
    [OSError] and creates nothing. *)
Theorem UniversalServer_fresh (given : string) (w : World) :
  let d := home given w in
  let k := FS.key (cwd w) d in
  let default := VDict (default_record (fresh_server d false)) in
  let made (f : FS.file) :=
    <[FS.key (cwd w) (Path.div d "server_launcher.json") := FS.Reg f]>
      (<[FS.key (cwd w) (Path.div d "backups") := FS.Dir true]>
         (<[k := FS.Dir true]> (fs w))) in
  fs w !! k = None ->
  fs w !! removelast k = Some (FS.Dir true) ->
  (forall k', removelast k' = k -> fs w !! k' = None) ->
  if FS.too_long (List.last k "") then
    exists s', UniversalServer given w = (Raise OSError, (s', w))
  else
    UniversalServer given w
    = (Ok tt,
       (fresh_server d (platform_windows w),
        match json_dump_fault default with
        | None => set_fs (made (json_file default)) w
        | Some e =>
            set_console (console w ++ [MsgSaveConfigError e])
              (set_fs (made (text_file (json_partial default))) w)
        end)).
Proof.
  intros d k default made Hk Hparent Hbelow. subst default made. cbv beta.
  assert (Hkb : FS.key (cwd w) (Path.div d "backups") = (k ++ ["backups"])%list)
    by (apply key_div_name; reflexivity).
  assert (Hkc : FS.key (cwd w) (Path.div d "server_launcher.json")
                = (k ++ ["server_launcher.json"])%list)
    by (apply key_div_name; reflexivity).
  rewrite Hkb, Hkc.
  assert (Hne_b : (k ++ ["backups"])%list <> k) by apply snoc_ne_self.
  assert (Hne_c : (k ++ ["server_launcher.json"])%list <> k) by apply snoc_ne_self.
  assert (Hne_bc : (k ++ ["backups"])%list <> (k ++ ["server_launcher.json"])%list)
    by (apply last_snoc_ne; discriminate).
  assert (Hne : k <> []).
  { intros Hnil. pose proof Hparent as Hp. rewrite Hnil in Hp. cbn in Hp.
    rewrite Hnil in Hk. congruence. }
  assert (Hlf : FS.lookup_fault (fs w) k
                = if FS.too_long (List.last k "") then Some OSError else None).
  { pose proof (lookup_fault_parent (fs w) (removelast k) (List.last k "") _ Hparent)
      as Hlf.
    rewrite <- (app_removelast_last "" Hne) in Hlf. exact Hlf. }
  destruct (FS.too_long (List.last k "")) eqn:Hlong.
  { (* the name is too long: [mkdir] raises *)
    eexists. open_init. fold (home given w). fold d. fold k.
    unfold FS.mkdir_exist_ok, FS.create. rewrite Hk, Hlf. reflexivity. }
  open_init. fold (home given w). fold d.
  set (s0 := MkServer d (VStr "") (VStr "-Xmx2048M -Xms2048M") None false None
               (Path.div d "server.log") (Path.div d "backups")
               (Path.div d "server_launcher.json") VNone VNone VNone false).
  fold k.
  assert (Hm1 : FS.mkdir_exist_ok (fs w) k = Ok (<[k := FS.Dir true]> (fs w))).
  { unfold FS.mkdir_exist_ok, FS.create. rewrite Hk, Hlf, Hparent. reflexivity. }
  rewrite Hm1.
  unfold mbind at 1, M_bind at 1, update_world at 1. cbn [fst snd].
  unfold mbind at 1, M_bind at 1, lift at 1.
  change (backup_dir s0) with (Path.div d "backups"). rewrite Hkb.
  set (fs1 := <[k := FS.Dir true]> (fs w)).
  assert (Hm2 : FS.mkdir_exist_ok fs1 (k ++ ["backups"])
                = Ok (<[(k ++ ["backups"])%list := FS.Dir true]> fs1)).
  { unfold FS.mkdir_exist_ok, FS.create, fs1.
    rewrite lookup_insert_ne by congruence.
    rewrite (Hbelow _ (removelast_last _ _)).
    rewrite (lookup_fault_parent _ k "backups" (FS.Dir true)) by apply lookup_insert_eq.
    rewrite removelast_last, lookup_insert_eq. reflexivity. }
  rewrite Hm2.
  unfold mbind at 1, M_bind at 1, update_world at 1. cbn [fst snd].
  set (fs2 := <[(k ++ ["backups"])%list := FS.Dir true]> fs1).
  unfold mbind at 1, M_bind at 1.
  match goal with |- context [load_config (s0, ?w0)] => set (w2 := w0) end.
  assert (Hkc2 : FS.key (cwd w2) (config_file s0) = (k ++ ["server_launcher.json"])%list)
    by exact Hkc.
  assert (Hfk : fs2 !! k = Some (FS.Dir true)).
  { unfold fs2, fs1. rewrite lookup_insert_ne by congruence. apply lookup_insert_eq. }
  assert (Hl2 : fs2 !! (k ++ ["server_launcher.json"])%list = None).
  { unfold fs2, fs1. rewrite !lookup_insert_ne by congruence.
    apply Hbelow, removelast_last. }
  rewrite (load_config_absent s0 w2).
  2: { apply exists_false. rewrite Hkc2. change (fs w2) with fs2. split; [exact Hl2|].
       rewrite (lookup_fault_parent _ k _ _ Hfk). reflexivity. }
  rewrite save_config_run. cbv zeta.
  cbn [config_file set_mirror_site set_minecraft_version set_core_type].
  change (config_file s0) with (Path.div d "server_launcher.json").
  change (cwd w2) with (cwd w). rewrite Hkc. change (fs w2) with fs2.
  assert (Hw : forall f, FS.open_write fs2 (k ++ ["server_launcher.json"]) f
                         = Ok (<[(k ++ ["server_launcher.json"])%list := FS.Reg f]> fs2)).
  { intros f. unfold FS.open_write, FS.create.
    rewrite Hl2, (lookup_fault_parent _ k _ _ Hfk), removelast_last, Hfk. reflexivity. }
  rewrite Hw.
  (* the scan of the new directory finds no archive *)
  assert (Hscan : forall (f : FS.file) (w3 : World),
            cwd w3 = cwd w ->
            fs w3 = <[(k ++ ["server_launcher.json"])%list := FS.Reg f]> fs2 ->
            detect_server_core (fresh_server d (platform_windows w), w3)
            = (Ok tt, (fresh_server d (platform_windows w), w3))).
  { intros f w3 Hc3 Hf3.
    unfold detect_server_core. unfold_M.
    cbn -[FS.iterdir FS.key find default_record].
    rewrite Hc3, Hf3. change (FS.key (cwd w) d) with k.
    set (fs3 := <[(k ++ ["server_launcher.json"])%list := FS.Reg f]> fs2).
    destruct (FS.iterdir fs3 k) as [files|e] eqn:Hit.
    2: { unfold FS.iterdir in Hit. unfold fs3 in Hit at 1.
         rewrite lookup_insert_ne, Hfk in Hit by congruence. discriminate. }
    rewrite find_none_iff; [reflexivity|].
    intros file Hin.
    apply list_elem_of_In, (iterdir_child _ _ _ _ Hit) in Hin as (n & -> & Hsome).
    rewrite last_last.
    destruct (decide (n = "server_launcher.json")) as [->|Hn1].
    { rewrite andb_false_r. reflexivity. }
    destruct (decide (n = "backups")) as [->|Hn2].
    { unfold FS.is_file, fs3, fs2. rewrite lookup_insert_ne, lookup_insert_eq by congruence.
      reflexivity. }
    exfalso. unfold fs3, fs2, fs1 in Hsome.
    rewrite !lookup_insert_ne in Hsome.
    - rewrite (Hbelow _ (removelast_last _ _)) in Hsome. destruct Hsome; discriminate.
    - apply not_eq_sym, snoc_ne_self.
    - apply last_snoc_ne. congruence.
    - apply last_snoc_ne. congruence. }
  change (default_record s0) with (default_record (fresh_server d false)).
  destruct (json_dump_fault (VDict (default_record (fresh_server d false)))) as [e|];
    cbv beta iota;
    unfold mbind at 1, M_bind at 1, update_self at 1; cbn [fst snd];
    match goal with |- context [detect_server_core (?s4, ?w4)] =>
      change s4 with (fresh_server d (platform_windows w));
      rewrite (Hscan _ w4 eq_refl eq_refl)
    end; reflexivity.
Qed.

(** X27. When the directory given to the constructor holds a profile whose
    [server_dir] is another path, the object takes that other path as its
    [server_dir], while the paths of the profile, of the backups and of the
    log stay in the directory that was given; no file is written. *)
Theorem UniversalServer_follows_profile (given saved : string) (w : World)
    (record : Dict.t value) (b1 b2 : bool) (f : FS.file) :
  let d := home given w in
  fs w !! FS.key (cwd w) d = Some (FS.Dir b1) ->
  fs w !! FS.key (cwd w) (Path.div d "backups") = Some (FS.Dir b2) ->
  fs w !! FS.key (cwd w) (Path.div d "server_launcher.json") = Some (FS.Reg f) ->
  FS.f_json f = Some (VDict record) ->
  Dict.get record "server_dir" = Some (VStr saved) ->
  let '(r, (s', w')) := UniversalServer given w in
  server_dir s' = Path.of_string saved
  /\ config_file s' = Path.div d "server_launcher.json"
  /\ backup_dir s' = Path.div d "backups"
  /\ log_file s' = Path.div d "server.log"
  /\ fs w' = fs w.
Proof.
  intros d Hd Hb Hc Hj Hdir.
  unfold UniversalServer, init.
  unfold mbind at 1, M_bind at 1, get_world at 1. cbn [fst snd].
  unfold mbind at 1, M_bind at 1, update_self at 1. cbn [fst snd].
  unfold mbind at 1, M_bind at 1, get_self at 1. cbn [fst snd].
  cbn [core_type minecraft_version mirror_site is_windows blank].
  fold (home given w). fold d.
  set (s0 := MkServer d (VStr "") (VStr "-Xmx2048M -Xms2048M") None false None
               (Path.div d "server.log") (Path.div d "backups")
               (Path.div d "server_launcher.json") VNone VNone VNone false).
  unfold mbind at 1, M_bind at 1, lift at 1.
  unfold FS.mkdir_exist_ok at 1. rewrite Hd.
  unfold mbind at 1, M_bind at 1, update_world at 1. cbn [fst snd].
  unfold mbind at 1, M_bind at 1, lift at 1.
  change (backup_dir s0) with (Path.div d "backups").
  unfold FS.mkdir_exist_ok at 1. rewrite Hb.
  unfold mbind at 1, M_bind at 1, update_world at 1. cbn [fst snd].
  unfold mbind at 1, M_bind at 1.
  match goal with |- context [load_config (s0, ?w0)] => set (w2 := w0) end.
  rewrite (load_config_reads s0 w2 record saved).
  2: { unfold config_record. change (fs w2) with (fs w). change (cwd w2) with (cwd w).
       change (config_file s0) with (Path.div d "server_launcher.json").
       rewrite Hc, Hj. reflexivity. }
  2: { unfold field. rewrite Hdir. reflexivity. }
  unfold mbind at 1, M_bind at 1, update_self at 1. cbn [fst snd].
  match goal with |- context [detect_server_core (?s4, w2)] =>
    destruct (detect_server_core_frame s4 w2) as (r & s5 & -> & Hsd & Hcf & Hbd & Hlf & _) end.
  cbv beta iota. rewrite Hsd, Hcf, Hbd, Hlf. repeat split.
Qed.

End Constructor.

Lemma UniversalServer_fresh_witness :
  @UniversalServer sample_lib "/srv/mc/new" (sample_world empty_dir_fs)
  = (Ok tt,
     (fresh_server (Path.Make "/" ["srv"; "mc"; "new"]) false,
      set_fs (<[["srv"; "mc"; "new"; "server_launcher.json"]
                := FS.Reg (@json_file sample_lib
                             (VDict (default_record
                                       (fresh_server (Path.Make "/" ["srv"; "mc"; "new"])
                                          false))))]>
                (<[["srv"; "mc"; "new"; "backups"] := FS.Dir true]>
                   (<[["srv"; "mc"; "new"] := FS.Dir true]> empty_dir_fs)))
        (sample_world empty_dir_fs)))
  /\ exists s',
       @UniversalServer sample_lib long_home (sample_world empty_dir_fs)
       = (Raise OSError, (s', sample_world empty_dir_fs)).
Proof.
  assert (Hbelow : forall given k',
            removelast k'
            = FS.key (cwd (sample_world empty_dir_fs))
                (home given (sample_world empty_dir_fs)) ->
            length (FS.key (cwd (sample_world empty_dir_fs))
                      (home given (sample_world empty_dir_fs))) = 3%nat ->
            fs (sample_world empty_dir_fs) !! k' = None).
  { intros given k' Hk' Hlen.
    change (fs (sample_world empty_dir_fs))
      with (<[[] := FS.Dir true]>
              (<[["srv"] := FS.Dir true]>
                 (<[["srv"; "mc"] := FS.Dir true]> (∅ : FS.t)))).
    rewrite !lookup_insert_ne; [apply lookup_empty|..];
      intros <-; rewrite <- Hk' in Hlen; discriminate Hlen. }
  split.
  - apply (@UniversalServer_fresh sample_lib "/srv/mc/new" (sample_world empty_dir_fs)).
    + vm_compute. reflexivity.
    + vm_compute. reflexivity.
    + intros k' Hk'. apply (Hbelow _ _ Hk'). reflexivity.
  - apply (@UniversalServer_fresh sample_lib long_home (sample_world empty_dir_fs)).
    + vm_compute. reflexivity.
    + vm_compute. reflexivity.
    + intros k' Hk'. apply (Hbelow _ _ Hk'). reflexivity.
Defined.

Lemma UniversalServer_follows_profile_witness :
  let '(r, (s', w')) := @UniversalServer sample_lib "/srv/mc" (sample_world moved_profile_fs) in
  server_dir s' = Path.of_string "/old/mc"
  /\ config_file s' = Path.div (home "/srv/mc" (sample_world moved_profile_fs))
                         "server_launcher.json"
  /\ backup_dir s' = Path.div (home "/srv/mc" (sample_world moved_profile_fs)) "backups"
  /\ log_file s' = Path.div (home "/srv/mc" (sample_world moved_profile_fs)) "server.log"
  /\ fs w' = fs (sample_world moved_profile_fs).
Proof.
  apply (@UniversalServer_follows_profile sample_lib "/srv/mc" "/old/mc"
           (sample_world moved_profile_fs) moved_profile true true
           (FS.File None (Some (VDict moved_profile)) None));
    vm_compute; reflexivity.
Defined.

(** ** The command loop of the command-line mode *)

Section CommandLineProperties.
Context `{PyLib}.

Lemma stop_server_returns (force : bool) (s : Server) (w : World) :
  exists b st', stop_server force (s, w) = (Ok b, st').
Proof.
  unfold stop_server. unfold mbind at 1, M_bind at 1, get_self at 1. cbn [fst snd].
  assert (Hdone : forall st,
            exists b st',
              (print MsgNotRunning;; update_self (set_is_running false);;
               update_self (set_start_time None);; mret true) st = (Ok b, st')).
  { intros st. unfold_M. cbn. eauto. }
  assert (Htry : forall (m : M bool) st,
            exists b st',
              try_except m (fun e => print (MsgStopError e);; mret false) st = (Ok b, st')).
  { intros m st. unfold try_except. destruct (m st) as [[b|e] st1]; [eauto|].
    unfold_M. cbn. eauto. }
  destruct (process s) as [p|] eqn:Hp.
  - destruct (poll_ok s w) as (a & s1 & w1 & Hpoll & _); [congruence|].
    unfold mbind at 1, M_bind at 1. unfold mbind at 1, M_bind at 1. rewrite Hpoll.
    unfold mret at 1, M_ret at 1.
    destruct (bool_decide (a ≠ None)); [apply Hdone|apply Htry].
  - unfold mbind at 1, M_bind at 1, mret at 1, M_ret at 1. apply Hdone.
Qed.

(** X28. On the [exit] command, when the server is not running the loop
    ends and the object and the world are left as they are.  When it is
    running and the confirmation is answered, the loop ends whatever the
    answer; the answer only decides whether [stop_server] is called, which
    happens exactly when the answer, lower-cased but not stripped, is
    ["y"], and with any other answer nothing is done to the child.  When no
    answer is left the loop ends at that [input()], nothing being changed. *)
Theorem command_loop_exit (line : string) (typed : list string)
    (shown : list cli_message) (s : Server) (w : World) :
  Str.lower (strip line) = "exit" ->
  let '(r, st') := command_loop (line :: typed) shown (s, w) in
  if is_running s then
    match typed with
    | [] => st' = (s, w) /\ exists out, r = Ok (EndOfInput, [], out)
    | confirm :: rest =>
        if String.eqb (Str.lower confirm) "y" then
          st' = snd (stop_server false (s, w))
          /\ exists out, r = Ok (Exited, rest, out)
        else
          st' = (s, w) /\ exists out, r = Ok (Exited, rest, out)
    end
  else st' = (s, w) /\ exists out, r = Ok (Exited, typed, out).
Proof.
  intros Hexit. cbn [command_loop]. rewrite Hexit. cbn [String.eqb Ascii.eqb Bool.eqb].
  unfold mbind at 1, M_bind at 1, get_self at 1. cbn [fst snd].
  destruct (is_running s).
  - destruct typed as [|confirm rest]; [unfold_M; cbn; eauto|].
    destruct (String.eqb (Str.lower confirm) "y").
    + unfold mbind, M_bind.
      destruct (stop_server_returns false s w) as (b & st1 & ->). unfold_M. cbn. eauto.
    + unfold_M. cbn. eauto.
  - unfold_M. cbn. eauto.
Qed.

(** X29. In a command-line session without [start] and [restart]
    commands no exception of the supervisor reaches the loop: whatever the
    [stop], [accept-eula], [exit] and unknown commands find, the loop runs
    to an [exit] or to the [input()] that finds no line left. *)
Theorem command_loop_returns (typed : list string) :
  forall (shown : list cli_message) (s : Server) (w : World),
    existsb launches typed = false ->
    exists e rest out st',
      command_loop typed shown (s, w) = (Ok (e, rest, out), st').
Proof.
  induction typed as [|line typed IH]; intros shown s w Hno.
  - cbn. unfold_M. eauto.
  - cbn [existsb] in Hno. apply orb_false_iff in Hno as [Hline Hno].
    unfold launches in Hline. cbv zeta in Hline.
    apply orb_false_iff in Hline as [Hstart Hrestart].
    cbn [command_loop]. rewrite Hstart, Hrestart.
    destruct (String.eqb _ "stop").
    { unfold mbind at 1, M_bind at 1.
      destruct (stop_server_returns false s w) as (b & [s1 w1] & ->). apply IH, Hno. }
    destruct (String.eqb _ "accept-eula").
    { unfold mbind at 1, M_bind at 1. rewrite accept_eula_run.
      destruct (FS.open_write _ _ _); apply IH, Hno. }
    destruct (String.eqb _ "exit"); [|apply IH, Hno].
    unfold mbind at 1, M_bind at 1, get_self at 1. cbn [fst snd].
    destruct (is_running s); [|unfold_M; cbn; eauto].
    destruct typed as [|confirm rest]; [unfold_M; cbn; eauto|].
    destruct (String.eqb (Str.lower confirm) "y"); [|unfold_M; cbn; eauto].
    unfold mbind, M_bind.
    destruct (stop_server_returns false s w) as (b & st1 & ->). unfold_M. cbn. eauto.
Qed.

End CommandLineProperties.

Lemma command_loop_exit_witness :
  let '(r, st') :=
    @command_loop sample_lib [" Exit "; "n"; "start"] []
      (running_server, sample_world paper_fs) in
  st' = (running_server, sample_world paper_fs)
  /\ exists out, r = Ok (Exited, ["start"], out).
Proof.
  exact (@command_loop_exit sample_lib " Exit " ["n"; "start"] [] running_server
           (sample_world paper_fs) eq_refl).
Defined.

Lemma command_loop_returns_witness :
  exists e rest out st',
    @command_loop sample_lib ["stop"; "accept-eula"; "help"; "exit"] []
      (running_server, sample_world paper_fs)
    = (Ok (e, rest, out), st').
Proof.
  apply (@command_loop_returns sample_lib ["stop"; "accept-eula"; "help"; "exit"]).
  vm_compute. reflexivity.
Defined.
